(** * kikuchipy: the Kikuchi pattern simulator

    A shallow embedding of
    [src/kikuchipy/simulations/kikuchi_pattern_simulator.py]:
    the kinematical master pattern kernel [get_pattern], its driver
    [calculate_master_pattern], and the geometrical projector
    [on_detector].

    Numbers are IEEE 754 binary64 values (Rocq's primitive floats), as
    in the NumPy [float64] arrays of the source, and every addition,
    subtraction, multiplication and division is the IEEE operation.
    Arrays are lists:
    an [(n, 3)] array is a list of triples, and an array over the
    navigation positions is a list in C (row-major) order with one
    entry per position.  Functions of NumPy, dask, orix and diffsims
    whose bodies are not part of the repository are section variables. *)

From Stdlib Require Import Floats ZArith QArith Bool Lia.
From stdpp Require Import base option list strings pretty gmap.

Local Open Scope float_scope.

(** ** NumPy scalars and small arrays *)

(** A row of an [(n, 3)] [float64] array. *)
Definition V3 : Type := (float * float * float)%type.

Definition vx (v : V3) : float := v.1.1.
Definition vy (v : V3) : float := v.1.2.
Definition vz (v : V3) : float := v.2.

(** [np.pi] as the binary64 value NumPy stores. *)
Definition np_pi : float := 0x1.921fb54442d18p+1.

(** The literal [1e-7] as the binary64 value nearest to it. *)
Definition lit_1e_7 : float := 0x1.ad7f29abcaf48p-24.

(** [a >= b] on [float64]; false as soon as one side is NaN. *)
Definition geb (a b : float) : bool := (b <=? a).

(** [a > b] on [float64]. *)
Definition gtb (a b : float) : bool := (b <? a).

(** [np.isnan] on a real scalar. *)
Definition np_isnan (x : float) : bool := PrimFloat.is_nan x.

(** The exceptions the modelled code can raise. *)
Inductive exn : Type :=
| ValueError (msg : string)
| IndexError (msg : string)
| Unsupported (msg : string).

(** ** The kernel [get_pattern]

    Numba compiles [get_pattern] with [parallel=True] and
    [fastmath=True], and without bounds checks.  Three things of a call
    are therefore not fixed by its arguments: how the iterations of
    [nb.prange] are dealt out to the threads and how the threads take
    turns at the shared array [pattern]; what a comparison gives when
    an operand is a NaN, which [fastmath] lets the compiler assume away;
    and what a read past the end of an array finds.  A [numba_run]
    fixes them, and the kernel is a function of its arguments and of
    the run. *)

(** The three comparisons of the loop body. *)
Inductive kernel_test : Type := edge_test | upper_test | lower_test.

(** The arrays of numbers the loop body reads by index. *)
Inductive kernel_array : Type := of_intensity | of_theta1 | of_pattern.

Record numba_run : Type := {
  (* the threads beside the first *)
  more_threads : nat;
  (* the thread that is given iteration [i] of the [prange] loop *)
  thread_of : nat → nat;
  (* the threads in the order in which they move, from the start of
     the loop on *)
  schedule : list nat;
  (* the outcome of a comparison one of whose operands is a NaN *)
  unordered : kernel_test → float → float → bool;
  (* what a read at index [i], past the end of an array, finds *)
  past_the_end : kernel_array → nat → float
}.

(** A thread of the [prange] loop: the passes through the loop body it
    has ahead of it, each a reflector with its index and a grid point
    with its index, and the sum it has computed for [pattern[j]] from
    the value it read there, until it stores it. *)
Record thread : Type := {
  loaded : option (nat * float);
  ahead : list ((nat * V3) * (nat * V3))
}.

Section kernel.

(** [kikuchipy._utils.numba.vec_dot], the dot product of two rows. *)
Variable vec_dot : V3 → V3 → float.
(** [np.arccos]. *)
Variable arccos : float → float.
Variable run : numba_run.

Definition theta2 : float := np_pi / 2.

(** [a <= b] as compiled with [fastmath]. *)
Definition fast_leb (test : kernel_test) (a b : float) : bool :=
  if PrimFloat.is_nan a || PrimFloat.is_nan b then unordered run test a b
  else a <=? b.

(** [l[i]], read without a bounds check. *)
Definition read (arr : kernel_array) (l : list float) (i : nat) : float :=
  default (past_the_end run arr i) (l !! i).

(** The body of the inner loop for the reflector [r] at index [i] and
    the grid point [h]: what it adds to the value it reads from
    [pattern[j]], or [None] when it takes no branch that stores. *)
Definition get_pattern_body (intensity theta1 : list float) (i : nat)
    (r h : V3) : option float :=
  let D := vec_dot r h in
  if fast_leb edge_test (PrimFloat.abs D) lit_1e_7 then
    Some (0.5 * read of_intensity intensity i)
  else
    let angle := arccos D in
    if fast_leb upper_test angle theta2 then
      if fast_leb lower_test (read of_theta1 theta1 i) angle then
        Some (read of_intensity intensity i)
      else None
    else None.

(** One move of a thread: it stores the sum it holds, or else it makes
    its next pass through the loop body, up to and including the read
    of [pattern[j]]. *)
Definition thread_step (intensity theta1 : list float) (t : thread)
    (pattern : list float) : thread * list float :=
  match loaded t with
  | Some (j, v) => ({| loaded := None; ahead := ahead t |}, <[j := v]> pattern)
  | None =>
      match ahead t with
      | [] => (t, pattern)
      | ((i, r), (j, h)) :: rest =>
          match get_pattern_body intensity theta1 i r h with
          | Some c =>
              ({| loaded := Some (j, read of_pattern pattern j + c);
                  ahead := rest |}, pattern)
          | None => ({| loaded := None; ahead := rest |}, pattern)
          end
      end
  end.

(** A thread left to itself: each pass reads, adds and stores. *)
Fixpoint passes (intensity theta1 : list float)
    (items : list ((nat * V3) * (nat * V3))) (pattern : list float)
    : list float :=
  match items with
  | [] => pattern
  | ((i, r), (j, h)) :: rest =>
      passes intensity theta1 rest
        match get_pattern_body intensity theta1 i r h with
        | Some c => <[j := read of_pattern pattern j + c]> pattern
        | None => pattern
        end
  end.

Definition thread_finish (intensity theta1 : list float) (t : thread)
    (pattern : list float) : list float :=
  passes intensity theta1 (ahead t)
    match loaded t with
    | Some (j, v) => <[j := v]> pattern
    | None => pattern
    end.

(** The threads move as the schedule says; when the schedule is at its
    end each thread in turn does what it still has to do. *)
Fixpoint run_threads (intensity theta1 : list float) (turns : list nat)
    (threads : list thread) (pattern : list float) : list float :=
  match turns with
  | [] => foldl (λ p t, thread_finish intensity theta1 t p) pattern threads
  | k :: rest =>
      match threads !! k with
      | Some t =>
          let '(t', pattern') := thread_step intensity theta1 t pattern in
          run_threads intensity theta1 rest (<[k := t']> threads) pattern'
      | None => run_threads intensity theta1 rest threads pattern
      end
  end.

(** The passes of thread [k]: the iterations of the outer loop it is
    given, in their order, each with the whole inner loop. *)
Definition passes_of (xyz_hemi xyz_reflector : list V3) (k : nat)
    : list ((nat * V3) * (nat * V3)) :=
  ir ← filter (λ ir, thread_of run ir.1 `mod` S (more_threads run) = k)
         (imap pair xyz_reflector);
  jh ← imap pair xyz_hemi;
  [(ir, jh)].

(** [get_pattern(intensity, xyz_hemi, xyz_reflector, theta_reflector)]. *)
Definition get_pattern
    (intensity : list float) (xyz_hemi xyz_reflector : list V3)
    (theta_reflector : list float) : list float :=
  let theta1 := (λ t, theta2 - t) <$> theta_reflector in
  let n := length xyz_hemi in
  let pattern := replicate n 0 in
  let threads :=
    (λ k, {| loaded := None; ahead := passes_of xyz_hemi xyz_reflector k |})
      <$> seq 0 (S (more_threads run)) in
  run_threads intensity theta1 (schedule run) threads pattern.

(** *** The kernel as the specification words it *)

(** What one reflector gives to one grid point: half the intensity on
    the band edge, the whole intensity inside the band, else nothing. *)
Definition band_contribution (I : float) (r : V3) (theta : float) (h : V3)
    : option float :=
  let D := vec_dot r h in
  if PrimFloat.abs D <=? lit_1e_7 then Some (0.5 * I)
  else
    let angle := arccos D in
    if (np_pi / 2 - theta <=? angle) && (angle <=? np_pi / 2)
    then Some I else None.

(** Adding a contribution to the accumulator of a grid point. *)
Definition accumulate (p : float) (c : option float) : float :=
  match c with Some x => p + x | None => p end.

(** The contributions of all reflectors to the grid point [h], summed
    from zero in the order of the reflectors. *)
Definition band_sum (intensity : list float) (xyz_reflector : list V3)
    (theta_reflector : list float) (h : V3) : float :=
  foldl (λ p irt, accumulate p (band_contribution irt.1.1 irt.1.2 irt.2 h))
    0 (zip (zip intensity xyz_reflector) theta_reflector).

End kernel.

(** ** Exceptions and output *)

(** What a call shows while it runs: a line printed on standard output,
    or one step of a [tqdm] progress bar. *)
Inductive event : Type :=
| stdout (line : string)
| progress (step : nat).

(** A computation that emits events and then either raises or returns. *)
Definition M (A : Type) : Type := (list event * (exn + A))%type.

Definition ret {A} (a : A) : M A := ([], inr a).
Definition raise {A} (e : exn) : M A := ([], inl e).
Definition print (line : string) : M unit := ([stdout line], inr tt).
Definition tick (step : nat) : M unit := ([progress step], inr tt).
Definition bind {A B} (m : M A) (k : A → M B) : M B :=
  match m with
  | (out, inl e) => (out, inl e)
  | (out, inr a) => let '(out', r) := k a in (out ++ out', r)
  end.

Notation "x ←ᴹ m ;; k" := (bind m (λ x, k))
  (at level 100, m at next level, right associativity).

(** ** Shapes, masks and reductions over the navigation axes *)

(** The number of entries of an array of the given shape. *)
Definition shape_size (shape : list nat) : nat := foldr Nat.mul 1%nat shape.

(** Boolean-mask indexing [a[mask]] along one axis. *)
Fixpoint select {A} (mask : list bool) (l : list A) : list A :=
  match mask, l with
  | b :: mask', x :: l' => if b then x :: select mask' l' else select mask' l'
  | _, _ => []
  end.

(** [np.isclose(a, b)] on [float64] with the default tolerances. *)
Definition lit_1e_8 : float := 0x1.5798ee2308c3ap-27.
Definition lit_1e_5 : float := 0x1.4f8b588e368f1p-17.
Definition np_isclose (a b : float) : bool :=
  (PrimFloat.abs (a - b) <=? lit_1e_8 + lit_1e_5 * PrimFloat.abs b)
  && PrimFloat.is_finite b
  || (a =? b).

(** [np.isclose(a, b)] on integers: the same inequality, exact.  (The
    source compares counts below [2^53], which convert to [float64]
    without rounding.) *)
Definition isclose_int (a b : Z) : bool :=
  Qle_bool (inject_Z (Z.abs (a - b)))
           ((1 # 100000000) + (1 # 100000) * inject_Z (Z.abs b))%Q.

(** [da.sum(flags, axis=nav_axes)]: for each of the [n] columns, the
    number of navigation positions whose flag is set. *)
Definition sum_over_nav (n : nat) (flags : list (list bool)) : list Z :=
  (λ i, foldr (λ row acc, ((if default false (row !! i) then 1 else 0) + acc)%Z)
          0%Z flags) <$> seq 0 n.

(** [da.any(flags, axis=nav_axes)]. *)
Definition any_over_nav (n : nat) (flags : list (list bool)) : list bool :=
  (λ i, existsb (λ row, default false (row !! i)) flags) <$> seq 0 n.

(** ** The data model *)

(** A 3 x 3 [float64] matrix, as its rows. *)
Definition M33 : Type := (V3 * V3 * V3)%type.

Definition transpose (m : M33) : M33 :=
  let '(r0, r1, r2) := m in
  ((vx r0, vx r1, vx r2), (vy r0, vy r1, vy r2), (vz r0, vz r1, vz r2)).

(** A [complex128] scalar. *)
Definition complex : Type := (float * float)%type.

(** A unit quaternion of orix. *)
Definition quaternion : Type := (float * float * float * float)%type.

(** [phase.structure.lattice]: the direct and reciprocal bases. *)
Record Lattice : Type := {
  base : M33;
  recbase : M33
}.

(** A flattened [ReciprocalLatticeVector]: the index triplets with
    their Bragg angles and structure factors, all of one phase. *)
Record ReciprocalLatticeVector : Type := {
  lattice : Lattice;
  hkl : list V3;
  theta : list float;
  structure_factor : list complex
}.

(** [reflectors[mask]]. *)
Definition rlv_select (mask : list bool) (g : ReciprocalLatticeVector)
    : ReciprocalLatticeVector :=
  {| lattice := lattice g;
     hkl := select mask (hkl g);
     theta := select mask (theta g);
     structure_factor := select mask (structure_factor g) |}.

(** An orix [Rotation]: its shape and its entries in C order. *)
Record Rotation : Type := {
  rot_shape : list nat;
  rot_data : list quaternion
}.

(** The part of an [EBSDDetector] the simulator reads.  The arrays
    have one entry per navigation position of the detector; a range is
    the pair (lower bound, upper bound). *)
Record EBSDDetector : Type := {
  navigation_shape : list nat;
  sample_tilt : float;
  euler : V3;
  x_range : list (float * float);
  y_range : list (float * float);
  x_scale : list float;
  y_scale : list float;
  r_max : list float
}.

Record KikuchiPatternLine : Type := {
  line_hkl : list V3;
  hkl_detector : list (list V3);
  line_in_pattern : list (list bool);
  line_max_r_gnomonic : float
}.

Record KikuchiPatternZoneAxis : Type := {
  zone_uvw : list V3;
  uvw_detector : list (list V3);
  zone_in_pattern : list (list bool);
  zone_max_r_gnomonic : float
}.

Record GeometricalKikuchiPatternSimulation : Type := {
  sim_detector : EBSDDetector;
  sim_rotations : Rotation;
  sim_reflectors : ReciprocalLatticeVector;
  sim_lines : KikuchiPatternLine;
  sim_zone_axes : KikuchiPatternZoneAxis
}.

(** ** Gnomonic bounds *)

(** [x_range[..., 0] -= x_scale; x_range[..., 1] += x_scale]. *)
Definition extend_range (range : list (float * float)) (scale : list float)
    : list (float * float) :=
  zip_with (λ r s, (r.1 - s, r.2 + s)) range scale.

(** Broadcasting an array over the detector's navigation positions
    against the [npos] positions of the rotations. *)
Definition broadcast_nav {A} (nav_shape : list nat) (l : list A) (npos : nat)
    : list A :=
  if bool_decide (nav_shape = [1%nat])
  then x ← take 1 l; replicate npos x
  else l.

(** The gnomonic coordinates of a detector-frame direction. *)
Definition uvw_xg (v : V3) : float := vx v / vz v.
Definition uvw_yg (v : V3) : float := vy v / vz v.

(** [within_x * within_y] for one direction at one position. *)
Definition within_bounds (xr yr : float * float) (v : V3) : bool :=
  (geb (uvw_xg v) xr.1 && (uvw_xg v <=? xr.2))
  && (geb (uvw_yg v) yr.1 && (uvw_yg v <=? yr.2)).

(** [np.max] of a non-empty [float64] array; a NaN entry wins. *)
Definition np_max (l : list float) : option float :=
  match l with
  | [] => None
  | x :: rest =>
      Some (foldl (λ a b, if PrimFloat.is_nan a then a
                          else if PrimFloat.is_nan b then b
                          else if a <? b then b else a) x rest)
  end.

(** ** The projector [on_detector] *)

(** [np.isclose(data, 0).all(axis=-1)]: the null vector test. *)
Definition is_null (m : V3) : bool :=
  np_isclose (vx m) 0 && np_isclose (vy m) 0 && np_isclose (vz m) 0.

(** [da.greater(da.atleast_2d(d[..., 2]), 0)]. *)
Definition is_upper (d : list (list V3)) : list (list bool) :=
  fmap (M := list) (fmap (M := list) (λ v, gtb (vz v) 0)) d.

(** [~da.isclose(da.sum(upper, axis=nav_axes), 0)] over [n] columns. *)
Definition in_a_pattern (n : nat) (upper : list (list bool)) : list bool :=
  (λ c, negb (isclose_int c 0)) <$> sum_over_nav n upper.

Definition shape_error : string :=
  "`detector.navigation_shape` is not (1,) or equal to `rotations.shape`".

Section projector.

(** The rotation from the detector frame to the sample frame, built
    with orix from the sample tilt and the detector's Euler angles. *)
Variable detector_to_sample : float → V3 → M33.
(** [Rotation.to_matrix] for one rotation. *)
Variable to_matrix : quaternion → M33.
(** [da.matmul] of two matrices, and of a row and a matrix. *)
Variable matmul : M33 → M33 → M33.
Variable vecmat : V3 → M33 → V3.
(** [ReciprocalLatticeVector.cross], [Miller.round], [Miller.unique]
    and [Miller.uvw]; a Miller vector is held as its [data] row. *)
Variable cross : Lattice → V3 → V3 → V3.
Variable miller_round : Lattice → V3 → V3.
Variable miller_unique : list V3 → list V3.
Variable miller_uvw : Lattice → V3 → V3.

(** [u_os = da.matmul(u_o, u_s)], one matrix per rotation. *)
Definition u_os (detector : EBSDDetector) (rotations : Rotation)
    : list M33 :=
  let u_s := detector_to_sample (sample_tilt detector) (euler detector) in
  (λ q, matmul (to_matrix q) u_s) <$> rot_data rotations.

(** [hkl_d = da.matmul(hkl, u_kstar)]: per position, per reflector. *)
Definition hkl_d_all (self : ReciprocalLatticeVector)
    (detector : EBSDDetector) (rotations : Rotation) : list (list V3) :=
  let u_astar := transpose (recbase (lattice self)) in
  (λ os, let u_kstar := matmul u_astar os in
         (λ v, vecmat v u_kstar) <$> hkl self)
    <$> u_os detector rotations.

(** The mask [hkl_in_a_pattern]. *)
Definition hkl_in_a_pattern (self : ReciprocalLatticeVector)
    (detector : EBSDDetector) (rotations : Rotation) : list bool :=
  in_a_pattern (length (hkl self))
    (is_upper (hkl_d_all self detector rotations)).

(** Zone axes from the reflectors [ref2]: the cross products of all
    pairs, without the null vector, rounded, made unique. *)
Definition zone_axes_from (lat : Lattice) (ref2 : list V3) : list V3 :=
  let uvw_miller := a ← ref2; b ← ref2; [cross lat a b] in
  let uvw_miller := filter (λ m, is_null m = false) uvw_miller in
  let uvw_miller := miller_round lat <$> uvw_miller in
  miller_unique uvw_miller.

(** The zone axes [on_detector] derives for its inputs. *)
Definition zone_axis_candidates (self : ReciprocalLatticeVector)
    (detector : EBSDDetector) (rotations : Rotation) : list V3 :=
  zone_axes_from (lattice self)
    (select (hkl_in_a_pattern self detector rotations) (hkl self)).

(** [uvw_d = da.matmul(uvw_miller.uvw, u_k)]. *)
Definition uvw_d_all (self : ReciprocalLatticeVector)
    (detector : EBSDDetector) (rotations : Rotation)
    (uvw_miller : list V3) : list (list V3) :=
  let u_a := base (lattice self) in
  (λ os, let u_k := matmul u_a os in
         (λ m, vecmat (miller_uvw (lattice self) m) u_k) <$> uvw_miller)
    <$> u_os detector rotations.

(** [within_x * within_y], per position and direction. *)
Definition within_all (detector : EBSDDetector) (uvw_d : list (list V3))
    : list (list bool) :=
  let npos := length uvw_d in
  let nav := navigation_shape detector in
  let x_r := extend_range (x_range detector) (x_scale detector) in
  let y_r := extend_range (y_range detector) (y_scale detector) in
  zip_with (λ xy row, within_bounds xy.1 xy.2 <$> row)
    (zip (broadcast_nav nav x_r npos) (broadcast_nav nav y_r npos))
    uvw_d.

(** The mask [uvw_in_a_pattern] for the directions [uvw_d]. *)
Definition uvw_in_a_pattern (detector : EBSDDetector) (n : nat)
    (uvw_d : list (list V3)) : list bool :=
  let upper_somewhere := in_a_pattern n (is_upper uvw_d) in
  let within_gnomonic_bounds := any_over_nav n (within_all detector uvw_d) in
  zip_with andb upper_somewhere within_gnomonic_bounds.

(** [KikuchiPatternSimulator.on_detector]; [self] is the simulator's
    reflector set.  The three [compute()] stages are marked by the
    lines they print.  The reductions over [nav_axes] cover every
    navigation position when the rotations have one or two dimensions,
    which is what the docstring admits; other numbers of dimensions are
    left out of the model.  [np.max] raises on an empty array. *)
Definition on_detector (self : ReciprocalLatticeVector)
    (detector : EBSDDetector) (rotations : Rotation)
    : M GeometricalKikuchiPatternSimulation :=
  if bool_decide (navigation_shape detector ≠ [1%nat])
     && bool_decide (navigation_shape detector ≠ rot_shape rotations)
  then raise (ValueError shape_error)
  else if bool_decide (length (rot_shape rotations) ∈ [1%nat; 2%nat]) then
    let ref := self in
    let hkl_d := hkl_d_all self detector rotations in
    (* Find bands that are in some pattern *)
    let hkl_is_upper := is_upper hkl_d in
    let hkl_in_a_pattern := in_a_pattern (length (hkl ref)) hkl_is_upper in
    let hkl_in_pattern := select hkl_in_a_pattern <$> hkl_is_upper in
    let hkl_d := select hkl_in_a_pattern <$> hkl_d in
    _ ←ᴹ print "Finding bands that are in some pattern:";;
    (* Visible reflectors *)
    let visible_reflectors := rlv_select hkl_in_a_pattern self in
    let ref2 := rlv_select hkl_in_a_pattern ref in
    (* Zone axes <uvw> from {hkl} *)
    let uvw_miller := zone_axes_from (lattice self) (hkl ref2) in
    let uvw_d := uvw_d_all self detector rotations uvw_miller in
    (* Find zone axes that are in some pattern *)
    let uvw_is_upper := is_upper uvw_d in
    let uvw_in_a_pattern :=
      uvw_in_a_pattern detector (length uvw_miller) uvw_d in
    _ ←ᴹ print "Finding zone axes that are in some pattern:";;
    let uvw_in_pattern := select uvw_in_a_pattern <$> uvw_is_upper in
    let uvw_d := select uvw_in_a_pattern <$> uvw_d in
    (* Visible zone axes *)
    let uvw_miller := select uvw_in_a_pattern uvw_miller in
    _ ←ᴹ print "Calculating detector coordinates for bands and zone axes:";;
    (* Max. gnomonic radius to consider *)
    match np_max (r_max detector) with
    | None =>
        raise (ValueError "zero-size array to reduction operation maximum which has no identity")
    | Some max_r_gnomonic =>
        let lines :=
          {| line_hkl := hkl ref2;
             hkl_detector := hkl_d;
             line_in_pattern := hkl_in_pattern;
             line_max_r_gnomonic := max_r_gnomonic |} in
        let zone_axes :=
          {| zone_uvw := uvw_miller;
             uvw_detector := uvw_d;
             zone_in_pattern := uvw_in_pattern;
             zone_max_r_gnomonic := max_r_gnomonic |} in
        ret {| sim_detector := detector;
               sim_rotations := rotations;
               sim_reflectors := visible_reflectors;
               sim_lines := lines;
               sim_zone_axes := zone_axes |}
    end
  else raise (Unsupported "rotations with other than one or two dimensions").

End projector.

(** ** The master pattern driver [calculate_master_pattern] *)

(** [ValidHemispheres]. *)
Inductive Hemisphere : Type := upper | lower | both.

(** Modelled from the spec: [kikuchipy._utils.vector.poles_from_hemisphere]
    is not among the sources.  One pole of projection for a single
    hemisphere, two when both hemispheres are asked for. *)
Definition poles_from_hemisphere (hemisphere : Hemisphere) : list Z :=
  match hemisphere with
  | upper => [(-1)%Z]
  | lower => [1%Z]
  | both => [(-1)%Z; 1%Z]
  end.

(** [np.isnan] on a complex scalar. *)
Definition np_isnan_complex (z : complex) : bool :=
  np_isnan z.1 || np_isnan z.2.

Definition conjugate (z : complex) : complex := (z.1, - z.2).

(** The product of two complex scalars. *)
Definition complex_mul (a b : complex) : complex :=
  (a.1 * b.1 - a.2 * b.2, a.1 * b.2 + a.2 * b.1).

(** [a.reshape(-1, rows, cols).shape] for an array of [total] entries. *)
Definition reshape_m1 (total rows cols : nat) : list nat :=
  [(total / (rows * cols))%nat; rows; cols].

(** [a.squeeze().shape]: every axis of length one is removed. *)
Definition squeeze (shape : list nat) : list nat :=
  filter (λ d, d ≠ 1%nat) shape.

(** One entry of the [axes] list handed to the signal. *)
Record axis : Type := {
  axis_size : Z;
  axis_name : string;
  axis_offset : option Z;
  axis_units : option string
}.

Record EBSDMasterPattern : Type := {
  mp_shape : list nat;
  mp_data : list float;
  mp_axes : list axis;
  mp_lattice : Lattice;
  mp_hemisphere : Hemisphere;
  mp_projection : string
}.

Definition no_theta_error : string :=
  "Reflectors have no Bragg angles. Calculate with `diffsims.crystallography.ReciprocalLatticeVector.calculate_theta()`.".

Definition no_structure_factor_error : string :=
  "Reflectors have no structure factors. Calculate with `diffsims.crystallography.ReciprocalLatticeVector.calculate_structure_factor()`.".

Definition index_0_error : string :=
  "index 0 is out of bounds for axis 0 with size 0".

Definition _raise_if_no_theta (self : ReciprocalLatticeVector) : M unit :=
  match theta self !! 0%nat with
  | None => raise (IndexError index_0_error)
  | Some t =>
      if np_isnan t then raise (ValueError no_theta_error) else ret tt
  end.

Definition _raise_if_no_structure_factor (self : ReciprocalLatticeVector)
    : M unit :=
  match structure_factor self !! 0%nat with
  | None => raise (IndexError index_0_error)
  | Some f =>
      if np_isnan_complex f
      then raise (ValueError no_structure_factor_error) else ret tt
  end.

(** The shape of the array handed to the signal: [n_poles] rows of
    [size * size] values, reshaped and squeezed. *)
Definition master_pattern_shape (half_size : Z) (hemisphere : Hemisphere)
    : list nat :=
  let size := Z.to_nat (2 * half_size + 1) in
  let n_poles := length (poles_from_hemisphere hemisphere) in
  squeeze (reshape_m1 (n_poles * (size * size)) size size).

(** The [axes] list. *)
Definition master_pattern_axes (size : Z) (hemisphere : Hemisphere)
    : list axis :=
  let axes :=
    match hemisphere with
    | both => [ {| axis_size := 2; axis_name := "hemisphere";
                   axis_offset := None; axis_units := None |} ]
    | _ => []
    end in
  axes ++
  ((λ name, {| axis_size := size; axis_name := name;
               axis_offset := Some ((- size) `div` 2)%Z;
               axis_units := Some "px" |}) <$> ["height"; "width"]).

Section master_pattern.

Variable vec_dot : V3 → V3 → float.
Variable arccos : float → float.
(** The run of the kernel in iteration [i] of the loop over the poles. *)
Variable run : nat → numba_run.
(** [abs] of a complex scalar. *)
Variable complex_abs : complex → float.
(** [repr] of a Python string. *)
Variable repr : string → string.
(** [np.linspace(start, stop, num)] for [num >= 0]. *)
Variable np_linspace : float → float → nat → list float.
(** [InverseStereographicProjection(pole).xy2vector] at one point. *)
Variable xy2vector : Z → float → float → V3.
(** [Vector3d(reflectors).unit.data]. *)
Variable unit_data : ReciprocalLatticeVector → list V3.

Definition unknown_scaling_error (scaling : string) : string :=
  "Unknown scaling " +:+ repr scaling
    +:+ ", options are 'linear', 'square', or None".

(** The [match scaling] statement. *)
Definition scaled_intensity (self : ReciprocalLatticeVector)
    (scaling : option string) : M (list float) :=
  match scaling with
  | Some s =>
      if decide (s = "linear") then
        ret (complex_abs <$> structure_factor self)
      else if decide (s = "square") then
        ret ((λ factor, complex_abs (complex_mul factor (conjugate factor)))
               <$> structure_factor self)
      else raise (ValueError (unknown_scaling_error s))
  | None => ret (replicate (length (hkl self)) 1)
  end.

(** The loop over the poles: each iteration advances the progress bar,
    projects the grid and runs the kernel into row [i] of [patterns]. *)
Fixpoint pattern_rows (i : nat) (poles : list Z) (X Y : list float)
    (row_length : nat) (intensity : list float)
    (xyz_reflector : list V3) (theta_reflector : list float)
    : M (list (list float)) :=
  match poles with
  | [] => ret []
  | pole :: rest =>
      _ ←ᴹ tick i;;
      let xyz_hemi := zip_with (xy2vector pole) X Y in
      let row :=
        get_pattern vec_dot arccos (run i) intensity xyz_hemi xyz_reflector
          theta_reflector in
      if bool_decide (length row = row_length) then
        rows ←ᴹ pattern_rows (S i) rest X Y row_length intensity
                 xyz_reflector theta_reflector;;
        ret (row :: rows)
      else
        raise (ValueError "could not broadcast input array into a row of patterns")
  end.

(** [KikuchiPatternSimulator.calculate_master_pattern]; [scaling] is
    [None] or a string, and a negative number of samples is refused by
    [np.linspace]. *)
Definition calculate_master_pattern (self : ReciprocalLatticeVector)
    (half_size : Z) (hemisphere : Hemisphere) (scaling : option string)
    : M EBSDMasterPattern :=
  _ ←ᴹ _raise_if_no_theta self;;
  _ ←ᴹ _raise_if_no_structure_factor self;;
  let size := (2 * half_size + 1)%Z in
  let poles := poles_from_hemisphere hemisphere in
  intensity ←ᴹ scaled_intensity self scaling;;
  let xyz_reflector := unit_data self in
  let theta_reflector := theta self in
  if (size <? 0)%Z then
    raise (ValueError ("Number of samples, " +:+ pretty size
                         +:+ ", must be non-negative."))
  else
    let arr := np_linspace (-1) 1 (Z.to_nat size) in
    (* X, Y = np.meshgrid(arr, arr), both flattened *)
    let X := mjoin (replicate (length arr) arr) in
    let Y := y ← arr; replicate (length arr) y in
    let n_poles := length poles in
    rows ←ᴹ pattern_rows 0 poles X Y (Z.to_nat size * Z.to_nat size)
              intensity xyz_reflector theta_reflector;;
    ret {| mp_shape := master_pattern_shape half_size hemisphere;
           mp_data := mjoin rows;
           mp_axes := master_pattern_axes size hemisphere;
           mp_lattice := lattice self;
           mp_hemisphere := hemisphere;
           mp_projection := "stereographic" |}.

End master_pattern.

(** The three lines [on_detector] prints when it runs to its end. *)
Definition on_detector_output : list event :=
  [stdout "Finding bands that are in some pattern:";
   stdout "Finding zone axes that are in some pattern:";
   stdout "Calculating detector coordinates for bands and zone axes:"].

(** The inputs on which [on_detector] runs to its end: the shapes pass
    the guard, the rotations have one or two dimensions, and the
    detector has a projection centre. *)
Definition well_shaped (detector : EBSDDetector) (rotations : Rotation) : Prop :=
  (navigation_shape detector = [1%nat]
   ∨ navigation_shape detector = rot_shape rotations)
  ∧ length (rot_shape rotations) ∈ [1%nat; 2%nat]
  ∧ r_max detector ≠ [].


(** ** Sample collaborators

    Stand-ins for the library functions, with which the model is run
    on the examples below.  No theorem is about them. *)

(** Modelled from the spec: [kikuchipy._utils.numba.vec_dot] is not
    among the sources; the dot product of two rows. *)
Definition dot3 (a b : V3) : float :=
  vx a * vx b + vy a * vy b + vz a * vz b.

(** [np.arccos] at the arguments of the examples. *)
Definition arccos_table (x : float) : float :=
  if x =? 0 then 0x1.921fb54442d18p+0
  else if x =? 1 then 0
  else if x =? -1 then np_pi
  else if x =? 0.5 then 0x1.0c152382d7366p+0
  else nan.

Definition identity33 : M33 := ((1, 0, 0), (0, 1, 0), (0, 0, 1)).

(** A detector frame that coincides with the sample frame. *)
Definition same_frame (tilt : float) (angles : V3) : M33 := identity33.

(** The rotation matrix of a unit quaternion [(a, b, c, d)]. *)
Definition quaternion_matrix (q : quaternion) : M33 :=
  let '(a, b, c, d) := q in
  ((a * a + b * b - c * c - d * d, 2 * (b * c - a * d), 2 * (b * d + a * c)),
   (2 * (b * c + a * d), a * a - b * b + c * c - d * d, 2 * (c * d - a * b)),
   (2 * (b * d - a * c), 2 * (c * d + a * b), a * a - b * b - c * c + d * d)).

(** A row times a matrix, and a matrix times a matrix. *)
Definition vecmat3 (v : V3) (m : M33) : V3 :=
  let '(c0, c1, c2) := transpose m in (dot3 v c0, dot3 v c1, dot3 v c2).

Definition matmul3 (a b : M33) : M33 :=
  let '(r0, r1, r2) := a in (vecmat3 r0 b, vecmat3 r1 b, vecmat3 r2 b).

(** The cross product in a cubic lattice of unit cell edge one. *)
Definition cross3 (lat : Lattice) (a b : V3) : V3 :=
  (vy a * vz b - vz a * vy b,
   vz a * vx b - vx a * vz b,
   vx a * vy b - vy a * vx b).

Definition keep_indices (lat : Lattice) (v : V3) : V3 := v.

#[local] Instance float_eq_dec : EqDecision float.
Proof.
  intros x y. destruct (PrimFloat.Leibniz.eqb x y) eqn:Heq.
  - left. apply FloatAxioms.Leibniz.eqb_spec. exact Heq.
  - right. intros Hxy. apply FloatAxioms.Leibniz.eqb_spec in Hxy.
    rewrite Hxy in Heq. discriminate Heq.
Defined.

(** Duplicates removed, the remaining vectors in their order. *)
Definition unique_rows (l : list V3) : list V3 := remove_dups l.

Definition cubic : Lattice := {| base := identity33; recbase := identity33 |}.

(** Four reflectors: the last has no Bragg angle nor structure factor. *)
Definition sample_reflectors : ReciprocalLatticeVector :=
  {| lattice := cubic;
     hkl := [(1, 0, 1); (0, 1, 1); (1, 0, 0); (0, 0, -1)];
     theta := [0.015625; 0.015625; 0.015625; nan];
     structure_factor := [(2, 0); (2, 0); (0, 3); (nan, nan)] |}.


(** The same reflectors before anything was calculated. *)
Definition bare_reflectors : ReciprocalLatticeVector :=
  {| lattice := cubic;
     hkl := [(1, 0, 1); (0, 1, 1); (1, 0, 0); (0, 0, -1)];
     theta := [nan; nan; nan; nan];
     structure_factor := [(nan, nan); (nan, nan); (nan, nan); (nan, nan)] |}.

Definition sample_detector : EBSDDetector :=
  {| navigation_shape := [1%nat];
     sample_tilt := 70;
     euler := (0, 0, 0);
     x_range := [(-1, 1)];
     y_range := [(-1, 1)];
     x_scale := [0.125];
     y_scale := [0.125];
     r_max := [1.5] |}.

(** Two orientations: the identity and a half turn about the x axis. *)
Definition sample_rotations : Rotation :=
  {| rot_shape := [2%nat];
     rot_data := [(1, 0, 0, 0); (0, 1, 0, 0)] |}.

(** [abs] of a complex scalar, by the square root of the squares. *)
Definition complex_abs_sqrt (z : complex) : float :=
  PrimFloat.sqrt (z.1 * z.1 + z.2 * z.2).

(** [repr] of a string without quotes or escapes in it. *)
Definition repr_plain (s : string) : string := "'" +:+ s +:+ "'".

Definition float_of_nat (n : nat) : float :=
  PrimFloat.of_uint63 (Uint63.of_Z (Z.of_nat n)).

(** [np.linspace] with the end point: equal steps, the last value set
    to [stop]. *)
Definition linspace_steps (start stop : float) (num : nat) : list float :=
  match num with
  | O => []
  | S O => [start]
  | S div =>
      let step := (stop - start) / float_of_nat div in
      ((λ i, float_of_nat i * step + start) <$> seq 0 div) ++ [stop]
  end.

(** The inverse stereographic projection from the pole [pole]. *)
Definition inverse_stereographic (pole : Z) (x y : float) : V3 :=
  let s := x * x + y * y in
  let z := (1 - s) / (1 + s) in
  (2 * x / (1 + s), 2 * y / (1 + s), if (pole <? 0)%Z then z else - z).

(** The index triplets as unit vectors, in the cubic lattice. *)
Definition unit_rows (g : ReciprocalLatticeVector) : list V3 :=
  (λ v, let n := PrimFloat.sqrt (dot3 v v) in (vx v / n, vy v / n, vz v / n))
    <$> hkl g.

(** Reflectors with Bragg angles but no structure factors yet. *)
Definition angles_only_reflectors : ReciprocalLatticeVector :=
  {| lattice := cubic;
     hkl := [(1, 0, 1); (0, 1, 1); (1, 0, 0); (0, 0, -1)];
     theta := [0.015625; 0.015625; 0.015625; 0.015625];
     structure_factor := [(nan, nan); (nan, nan); (nan, nan); (nan, nan)] |}.

(** A detector with three projection centres. *)
Definition three_pc_detector : EBSDDetector :=
  {| navigation_shape := [3%nat];
     sample_tilt := 70;
     euler := (0, 0, 0);
     x_range := [(-1, 1); (-1, 1); (-1, 1)];
     y_range := [(-1, 1); (-1, 1); (-1, 1)];
     x_scale := [0.125; 0.125; 0.125];
     y_scale := [0.125; 0.125; 0.125];
     r_max := [1.5; 1.5; 1.5] |}.

(** [on_detector] and [calculate_master_pattern] with the sample
    collaborators. *)
Definition sample_on_detector
    : ReciprocalLatticeVector → EBSDDetector → Rotation
      → M GeometricalKikuchiPatternSimulation :=
  on_detector same_frame quaternion_matrix matmul3 vecmat3 cross3
    keep_indices unique_rows keep_indices.

(** A run on one thread.  A NaN operand sends the edge test to its
    half-weight branch and fails the two band tests, and zeros lie past
    the end of the arrays. *)
Definition one_thread : numba_run :=
  {| more_threads := 0;
     thread_of := λ _, 0%nat;
     schedule := [];
     unordered := λ test _ _,
       match test with edge_test => true | _ => false end;
     past_the_end := λ _ _, 0 |}.

(** Two threads that take the iterations in turn, moving as [turns]
    says. *)
Definition two_threads (turns : list nat) : numba_run :=
  {| more_threads := 1;
     thread_of := λ i, i;
     schedule := turns;
     unordered := unordered one_thread;
     past_the_end := past_the_end one_thread |}.

Definition sample_master_pattern
    : ReciprocalLatticeVector → Z → Hemisphere → option string
      → M EBSDMasterPattern :=
  calculate_master_pattern dot3 arccos_table (λ _, one_thread)
    complex_abs_sqrt repr_plain linspace_steps inverse_stereographic
    unit_rows.

(** ** Positions under a mask *)

(** The position in the unmasked array of entry [k] of [a[mask]]. *)
Fixpoint nth_true (mask : list bool) (k : nat) : option nat :=
  match mask with
  | [] => None
  | true :: mask' =>
      match k with
      | O => Some 0%nat
      | S k' => S <$> nth_true mask' k'
      end
  | false :: mask' => S <$> nth_true mask' k
  end.

(** Rotations without any orientation. *)
Definition no_rotations : Rotation :=
  {| rot_shape := [0%nat]; rot_data := [] |}.

(** The sample orientations and one more, in another order. *)
Definition more_rotations : Rotation :=
  {| rot_shape := [3%nat];
     rot_data := [(0, 1, 0, 0); (0, 0, 1, 0); (1, 0, 0, 0)] |}.

(** ** Plotting: [plot] and [_plot_spherical]

    The calls into Matplotlib, PyVista and orix are recorded as events,
    in their order; what they return is a parameter. *)

(** A row of [color_rgba]: red, green, blue, opacity. *)
Definition rgba : Type := (float * float * float * float)%type.

(** The value of a keyword argument. *)
Inductive kwarg : Type :=
| kw_colors (rows : list rgba)
| kw_number (x : float)
| kw_text (s : string).

(** The exceptions of the plotting functions: those above, and the two
    that only arise here. *)
Inductive plot_exn : Type :=
| plot_raised (e : exn)
| ImportError (msg : string)
| TypeError (msg : string).

(** The object [draw_circle] is called on: the reflectors themselves,
    or [Vector3d(ref)]. *)
Inductive receiver : Type := on_reflectors | on_vectors.

(** [mesh_kw]. *)
Inductive mesh_kw : Type :=
| mesh_no_scalar_bar
| mesh_scalar_bar (title : string) (clim_max : float).

(** [a[order]] for an array of integer indices. *)
Definition take_at {A} (order : list nat) (l : list A) : option (list A) :=
  mapM (l !!.) order.

(** [ref[order]]. *)
Definition rlv_take (order : list nat) (g : ReciprocalLatticeVector)
    : option ReciprocalLatticeVector :=
  h ← take_at order (hkl g);
  t ← take_at order (theta g);
  f ← take_at order (structure_factor g);
  Some {| lattice := lattice g; hkl := h; theta := t; structure_factor := f |}.

(** [kwargs.setdefault(key, value)]. *)
Definition setdefault (key : string) (value : kwarg)
    (kwargs : gmap string kwarg) : gmap string kwarg :=
  match kwargs !! key with
  | Some _ => kwargs
  | None => <[key := value]> kwargs
  end.

(** [np.arange(n * per).reshape(n, per)]. *)
Definition arange_rows (n per : nat) : list (list nat) :=
  (λ c, seq (c * per) per) <$> seq 0 n.

(** [np.insert(lines, 0, steps, axis=1).ravel()]. *)
Definition insert_count (steps : nat) (lines : list (list nat)) : list nat :=
  mjoin ((λ row, steps :: row) <$> lines).

Definition zero_size_max_error : string :=
  "zero-size array to reduction operation maximum which has no identity".

Definition unknown_mode_error : string :=
  "Unknown `mode`, options are ['lines', 'bands']".

Definition bands_need_theta_error : string :=
  "Requires that reflectors have Bragg angles calculated with `self.reflectors.calculate_theta()`.".

Definition plot_unknown_scaling_error : string :=
  "Unknown `scaling`, options are 'linear', 'square' or None".

Definition unknown_projection_error : string :=
  "Unknown `projection`, options are 'stereographic' and 'spherical'".

Section plotting.

(** A Matplotlib figure or a PyVista plotter. *)
Variable Figure : Type.

(** The keyword arguments of one call of [draw_circle]: [hemisphere] and
    [figure] are absent when the call does not pass them. *)
Record draw_circle_call : Type := {
  dc_receiver : receiver;
  dc_reflectors : ReciprocalLatticeVector;
  dc_opening_angle : option (list float);
  dc_hemisphere : option (option string);
  dc_figure : option (option Figure);
  dc_return_figure : bool;
  dc_kwargs : gmap string kwarg
}.

(** The calls into the plotting libraries. *)
Inductive gfx : Type :=
| g_draw_circle (call : draw_circle_call)
| g_figure_axes (figure : Figure)
| g_subplots_3d
| g_plot3D (circle : list V3) (c : rgba)
| g_axis (arg : string)
| g_set (what : string) (values : list float)
| g_arrow3D (data : list (list float)) (color label : string)
| g_text3D (position : list float) (s color label ha va : string)
| g_plotter
| g_add_axes (color xlabel ylabel zlabel : string)
| g_add_sphere_mesh (radius : float) (color : string)
| g_disable_shadows
| g_set_background (color : string)
| g_set_viewup (direction : V3)
| g_add_mesh (points : list V3) (lines : list nat) (scalars : list float)
    (kw : mesh_kw)
| g_show.

(** A plotting computation: the calls made, then an exception or a
    value. *)
Definition G (A : Type) : Type := (list gfx * (plot_exn + A))%type.

Definition gret {A} (a : A) : G A := ([], inr a).
Definition graise {A} (e : plot_exn) : G A := ([], inl e).
Definition gcall (c : gfx) : G unit := ([c], inr tt).
Definition gbind {A B} (m : G A) (k : A → G B) : G B :=
  match m with
  | (out, inl e) => (out, inl e)
  | (out, inr a) => let '(out', r) := k a in (out ++ out', r)
  end.

Notation "x ←ᴳ m ;; k" := (gbind m (λ x, k))
  (at level 100, m at next level, right associativity).

(** A loop [for x in l: body(x)]. *)
Fixpoint gfor {A} (l : list A) (body : A → G unit) : G unit :=
  match l with
  | [] => gret tt
  | x :: rest => _ ←ᴳ body x;; gfor rest body
  end.

(** An index out of the bounds of an array. *)
Definition gindex {A} (r : option A) : G A :=
  match r with
  | Some a => gret a
  | None => graise (plot_raised (IndexError "index out of bounds"))
  end.

(** [dependency_version["pyvista"]], and whether [import pyvista]
    succeeds. *)
Variable pyvista_version : option string.
Variable pyvista_importable : bool.
(** [abs] of a complex scalar, [np.argsort], [self.phase.color_rgb] and
    [mcolors.to_rgb]. *)
Variable complex_abs : complex → float.
Variable np_argsort : list float → list nat.
Variable phase_color_rgb : ReciprocalLatticeVector → V3.
Variable to_rgb : string → exn + V3.
(** What [draw_circle] returns or raises. *)
Variable draw_circle : draw_circle_call → plot_exn + option Figure.
(** [Vector3d(ref).unit], [Vector3d.get_circle] with its opening angle
    (absent: the default) and number of steps, and one point moved to
    the radius 1.01 by [Vector3d.from_polar]. *)
Variable vector_unit : ReciprocalLatticeVector → list V3.
Variable get_circle : list V3 → option (list float) → nat → list (list V3).
Variable at_radius_1_01 : V3 → V3.
(** The figure made by [plt.subplots] and the plotter made by
    [pv.Plotter]. *)
Variable new_figure : Figure.
Variable new_plotter : Figure.

(** The three axis arrows and their labels. *)
Definition axis_arrows : G unit :=
  gfor [0%nat; 1%nat; 2%nat]
    (λ i,
       let colors := ["r"; "g"; "b"] in
       let labels := ["e1"; "e2"; "e3"] in
       let ha := ["left"; "center"; "center"] in
       let va := ["center"; "bottom"; "bottom"] in
       let data :=
         (λ j, if bool_decide (j = i) then [1; 1.5] else [0; 0])
           <$> [0%nat; 1%nat; 2%nat] in
       let color := default "" (colors !! i) in
       let label := default "" (labels !! i) in
       _ ←ᴳ gcall (g_arrow3D data color (label +:+ " axis"));;
       gcall (g_text3D ((λ row, default 0 (row !! 1%nat)) <$> data)
                label color (label +:+ " label")
                (default "" (ha !! i)) (default "" (va !! i)))).

Definition _plot_spherical (mode : option string)
    (ref : ReciprocalLatticeVector) (color : list rgba) (backend : string)
    (figure : option Figure) (show_plotter : bool)
    (scaling_title : option string) (intensity : list float)
    : G (option Figure) :=
  let v := vector_unit ref in
  let steps := 101%nat in
  (* one array of circles for the lines, two for the bands *)
  let circles :=
    if bool_decide (mode = Some "lines") then [get_circle v None steps]
    else
      [get_circle v (Some ((λ t, np_pi / 2 - t) <$> theta ref)) steps;
       get_circle v (Some ((λ t, np_pi / 2 + t) <$> theta ref)) steps] in
  if bool_decide (backend = "matplotlib") then
    figure ←ᴳ match figure with
              | Some f => _ ←ᴳ gcall (g_figure_axes f);; gret figure
              | None => _ ←ᴳ gcall g_subplots_3d;; gret (Some new_figure)
              end;;
    _ ←ᴳ (if bool_decide (mode = Some "lines") then
            gfor (imap (λ i ci, (i, ci)) (mjoin circles))
              (λ '(i, ci), c ←ᴳ gindex (color !! i);; gcall (g_plot3D ci c))
          else
            let c1 := default [] (circles !! 0%nat) in
            let c2 := default [] (circles !! 1%nat) in
            gfor (imap (λ i cc, (i, cc)) (zip c1 c2))
              (λ '(i, (c1i, c2i)),
                 c ←ᴳ gindex (color !! i);;
                 _ ←ᴳ gcall (g_plot3D c1i c);;
                 c' ←ᴳ gindex (color !! i);;
                 gcall (g_plot3D c2i c')));;
    _ ←ᴳ gcall (g_axis "off");;
    _ ←ᴳ gcall (g_set "xlim" [-1; 1]);;
    _ ←ᴳ gcall (g_set "ylim" [-1; 1]);;
    _ ←ᴳ gcall (g_set "zlim" [-1; 1]);;
    _ ←ᴳ gcall (g_set "box_aspect" [1; 1; 1]);;
    _ ←ᴳ gcall (g_set "azim" [-90]);;
    _ ←ᴳ gcall (g_set "elev" [90]);;
    _ ←ᴳ axis_arrows;;
    gret figure
  else
    if pyvista_importable then
      start ←ᴳ match figure with
               | None =>
                   _ ←ᴳ gcall g_plotter;;
                   _ ←ᴳ gcall (g_add_axes "k" "e1" "e2" "e3");;
                   _ ←ᴳ gcall (g_add_sphere_mesh 0x1.fae147ae147aep-1 "w");;
                   _ ←ᴳ gcall g_disable_shadows;;
                   _ ←ᴳ gcall (g_set_background "w");;
                   _ ←ᴳ gcall (g_set_viewup (0, 1, 0));;
                   gret (Some new_plotter, circles)
               | Some f =>
                   (* Assume that the existing plot has a unit sphere *)
                   gret (figure,
                         fmap (M := list)
                           (fmap (M := list) (fmap (M := list) at_radius_1_01))
                           circles)
               end;;
      let '(figure, circles) := start in
      (* in both modes: the circles in one array, then flattened *)
      let circles := mjoin circles in
      let per := default steps (length <$> head circles) in
      let lines := arange_rows (length circles) per in
      let points := mjoin circles in
      let intensity :=
        if bool_decide (mode = Some "lines") then intensity
        else intensity ++ intensity in
      kw ←ᴳ match scaling_title with
            | None => gret mesh_no_scalar_bar
            | Some title =>
                match np_max intensity with
                | Some m => gret (mesh_scalar_bar title m)
                | None =>
                    graise (plot_raised (ValueError zero_size_max_error))
                end
            end;;
      let lines := insert_count steps lines in
      _ ←ᴳ gcall (g_add_mesh points lines intensity kw);;
      _ ←ᴳ (if show_plotter then gcall g_show else gret tt);;
      gret figure
    else graise (ImportError "No module named 'pyvista'").

(** One call of [draw_circle]: recorded, then its result or exception. *)
Definition call_draw_circle (call : draw_circle_call) : G (option Figure) :=
  ([g_draw_circle call], draw_circle call).

Definition column_stack_error : string :=
  "all the input array dimensions except for the concatenation axis must match exactly".

Definition duplicate_opening_angle_error : string :=
  "draw_circle() got multiple values for keyword argument 'opening_angle'".

(** The first part of [plot], up to the sorting of the reflectors: the
    checks, the intensities and the colours.  It yields the sorted
    reflectors, their colours, the unsorted intensities, the order and
    the title of the scale. *)
Definition plot_prepare (self : ReciprocalLatticeVector)
    (projection mode scaling : option string) (backend color : string)
    : G (ReciprocalLatticeVector * list rgba * list float * list nat
         * option string) :=
  _ ←ᴳ (if bool_decide (projection = Some "spherical")
           && bool_decide (backend = "pyvista")
           && bool_decide (pyvista_version = None)
        then graise (ImportError "PyVista is not installed")
        else gret tt);;
  let ref := self in
  _ ←ᴳ (if bool_decide (mode = Some "lines" ∨ mode = Some "bands")
        then gret tt
        else graise (plot_raised (ValueError unknown_mode_error)));;
  _ ←ᴳ (if bool_decide (mode = Some "bands") then
          match theta ref !! 0%nat with
          | None => graise (plot_raised (IndexError index_0_error))
          | Some t =>
              if np_isnan t
              then graise (plot_raised (ValueError bands_need_theta_error))
              else gret tt
          end
        else gret tt);;
  scaled ←ᴳ match scaling with
            | Some s =>
                if decide (s = "linear") then
                  let intensity := complex_abs <$> structure_factor self in
                  gret (intensity, np_argsort intensity, Some "|F_hkl|")
                else if decide (s = "square") then
                  let intensity :=
                    (λ factor,
                       complex_abs (complex_mul factor (conjugate factor)))
                      <$> structure_factor self in
                  gret (intensity, np_argsort intensity, Some "|F_hkl|^2")
                else
                  graise (plot_raised (ValueError plot_unknown_scaling_error))
            | None =>
                gret (replicate (length (hkl self)) 1,
                      seq 0 (length (hkl ref)), None)
            end;;
  let '(intensity, order, scaling_title) := scaled in
  color_rgb ←ᴳ (if decide (color = "phase") then gret (phase_color_rgb self)
                else match to_rgb color with
                     | inl e => graise (plot_raised e)
                     | inr c => gret c
                     end);;
  intensity_scaled ←ᴳ
    (if bool_decide (scaling = Some "linear" ∨ scaling = Some "square") then
       match np_max intensity with
       | Some m => gret ((λ x, x / m) <$> intensity)
       | None => graise (plot_raised (ValueError zero_size_max_error))
       end
     else gret intensity);;
  (* rgb has one row per reflector *)
  color_rgba ←ᴳ
    (if bool_decide (length intensity_scaled = length (hkl ref)) then
       gret ((λ a, (vx color_rgb, vy color_rgb, vz color_rgb, a))
               <$> intensity_scaled)
     else graise (plot_raised (ValueError column_stack_error)));;
  (* Sort reflectors so that weakest are plotted first *)
  ref ←ᴳ gindex (rlv_take order ref);;
  color_rgba ←ᴳ gindex (take_at order color_rgba);;
  gret (ref, color_rgba, intensity, order, scaling_title).

(** The keyword arguments [plot] hands to [draw_circle]. *)
Definition plot_kwargs (color_rgba : list rgba) (kwargs : gmap string kwarg)
    : gmap string kwarg :=
  let kwargs := setdefault "color" (kw_colors color_rgba) kwargs in
  if bool_decide (kwargs !! "linewidth" = None ∧ kwargs !! "lw" = None)
  then setdefault "linewidth" (kw_number 0.5) kwargs
  else kwargs.

(** The second part of [plot]: the branch on [projection]. *)
Definition plot_draw (projection mode hemisphere : option string)
    (figure : option Figure) (backend : string) (show_plotter : bool)
    (kwargs : gmap string kwarg) (ref : ReciprocalLatticeVector)
    (color_rgba : list rgba) (intensity : list float) (order : list nat)
    (scaling_title : option string) : G (option Figure) :=
  if bool_decide (projection = Some "stereographic") then
    let kwargs := plot_kwargs color_rgba kwargs in
    if bool_decide (mode = Some "lines") then
      match figure with
      | None =>
          call_draw_circle
            {| dc_receiver := on_reflectors;
               dc_reflectors := ref;
               dc_opening_angle := None;
               dc_hemisphere := Some hemisphere;
               dc_figure := None;
               dc_return_figure := true;
               dc_kwargs := kwargs |}
      | Some f =>
          _ ←ᴳ call_draw_circle
                 {| dc_receiver := on_reflectors;
                    dc_reflectors := ref;
                    dc_opening_angle := None;
                    dc_hemisphere := None;
                    dc_figure := Some figure;
                    dc_return_figure := false;
                    dc_kwargs := kwargs |};;
          gret figure
      end
    else (* bands *)
      if bool_decide (is_Some (kwargs !! "opening_angle")) then
        graise (TypeError duplicate_opening_angle_error)
      else
        let theta := theta ref in
        figure ←ᴳ
          match figure with
          | None =>
              call_draw_circle
                {| dc_receiver := on_vectors;
                   dc_reflectors := ref;
                   dc_opening_angle := Some ((λ t, np_pi / 2 - t) <$> theta);
                   dc_hemisphere := Some hemisphere;
                   dc_figure := None;
                   dc_return_figure := true;
                   dc_kwargs := kwargs |}
          | Some f =>
              _ ←ᴳ call_draw_circle
                     {| dc_receiver := on_vectors;
                        dc_reflectors := ref;
                        dc_opening_angle :=
                          Some ((λ t, np_pi / 2 - t) <$> theta);
                        dc_hemisphere := None;
                        dc_figure := Some figure;
                        dc_return_figure := false;
                        dc_kwargs := kwargs |};;
              gret figure
          end;;
        _ ←ᴳ call_draw_circle
               {| dc_receiver := on_vectors;
                  dc_reflectors := ref;
                  dc_opening_angle := Some ((λ t, np_pi / 2 + t) <$> theta);
                  dc_hemisphere := None;
                  dc_figure := Some figure;
                  dc_return_figure := false;
                  dc_kwargs := kwargs |};;
        gret figure
  else if bool_decide (projection = Some "spherical") then
    sorted ←ᴳ gindex (take_at order intensity);;
    _plot_spherical mode ref color_rgba backend figure show_plotter
      scaling_title sorted
  else graise (plot_raised (ValueError unknown_projection_error)).

(** [KikuchiPatternSimulator.plot]; [self] is the simulator's reflector
    set and [kwargs] holds the keyword arguments that are not
    parameters of [plot]. *)
Definition plot (self : ReciprocalLatticeVector)
    (projection mode hemisphere scaling : option string)
    (figure : option Figure) (return_figure : bool) (backend : string)
    (show_plotter : bool) (color : string) (kwargs : gmap string kwarg)
    : G (option Figure) :=
  prepared ←ᴳ plot_prepare self projection mode scaling backend color;;
  let '(ref, color_rgba, intensity, order, scaling_title) := prepared in
  figure ←ᴳ plot_draw projection mode hemisphere figure backend show_plotter
              kwargs ref color_rgba intensity order scaling_title;;
  gret (if return_figure then figure else None).

End plotting.

(** ** Sample collaborators of the plots

    Stand-ins for Matplotlib, PyVista and orix, with which [plot] is
    run on the examples.  A figure is a number. *)

(** A stable [np.argsort] by insertion. *)
Fixpoint argsort_insert (x : nat * float) (l : list (nat * float))
    : list (nat * float) :=
  match l with
  | [] => [x]
  | y :: rest =>
      if (x.2 <? y.2)%float then x :: l else y :: argsort_insert x rest
  end.

Definition argsort_stable (l : list float) : list nat :=
  fst <$> foldl (λ sorted x, argsort_insert x sorted) [] (imap pair l).

Definition sample_to_rgb (color : string) : exn + V3 :=
  if decide (color = "r") then inr (1, 0, 0)
  else if decide (color = "k") then inr (0, 0, 0)
  else inl (ValueError ("Invalid RGBA argument: " +:+ repr_plain color)).

(** [draw_circle] hands out figure 7 when asked to return one. *)
Definition sample_draw_circle (call : draw_circle_call nat)
    : plot_exn + option nat :=
  inr (if dc_return_figure nat call then Some 7%nat else None).

(** One circle per vector, of [steps] points; the points are the
    vector itself, which is enough to count them. *)
Definition sample_get_circle (v : list V3) (opening_angle : option (list float))
    (steps : nat) : list (list V3) :=
  (λ x, replicate steps x) <$> v.

Definition sample_at_radius (v : V3) : V3 :=
  (vx v * 0x1.028f5c28f5c29p+0, vy v * 0x1.028f5c28f5c29p+0,
   vz v * 0x1.028f5c28f5c29p+0).

Definition sample_plot
    : ReciprocalLatticeVector → option string → option string → option string
      → option string → option nat → bool → string → bool → string
      → gmap string kwarg → G nat (option nat) :=
  plot nat (Some "0.44.1") true complex_abs_sqrt argsort_stable
    (λ _, (0.125, 0.5, 0.75)) sample_to_rgb sample_draw_circle unit_rows
    sample_get_circle sample_at_radius 1%nat 2%nat.

Definition sample_plot_spherical
    : option string → ReciprocalLatticeVector → list rgba → string
      → option nat → bool → option string → list float → G nat (option nat) :=
  _plot_spherical nat true unit_rows sample_get_circle sample_at_radius
    1%nat 2%nat.

(** * Properties *)

(** ** The kernel *)

Section kernel_facts.

Variable vec_dot : V3 → V3 → float.
Variable arccos : float → float.
Variable run : numba_run.

Local Abbreviation body := (get_pattern_body vec_dot arccos run).
Local Abbreviation contribution := (band_contribution vec_dot arccos).
Local Opaque np_pi lit_1e_7.

(** No move of a thread changes the number of grid values. *)
Lemma length_thread_step intensity theta1 t pattern :
  length (thread_step vec_dot arccos run intensity theta1 t pattern).2
  = length pattern.
Proof.
  unfold thread_step. destruct (loaded t) as [[j v]|]; simpl.
  - apply length_insert.
  - destruct (ahead t) as [|[[i r] [j h]] rest]; [reflexivity|].
    destruct (body intensity theta1 i r h); reflexivity.
Qed.

Lemma length_passes intensity theta1 items pattern :
  length (passes vec_dot arccos run intensity theta1 items pattern)
  = length pattern.
Proof.
  revert pattern. induction items as [|[[i r] [j h]] rest IH]; intros pattern;
    [reflexivity|].
  simpl. rewrite IH. destruct (body intensity theta1 i r h); [|reflexivity].
  apply length_insert.
Qed.

Lemma length_thread_finish intensity theta1 t pattern :
  length (thread_finish vec_dot arccos run intensity theta1 t pattern)
  = length pattern.
Proof.
  unfold thread_finish. rewrite length_passes.
  destruct (loaded t) as [[j v]|]; [apply length_insert | reflexivity].
Qed.

Lemma length_run_threads intensity theta1 turns threads pattern :
  length (run_threads vec_dot arccos run intensity theta1 turns threads
            pattern)
  = length pattern.
Proof.
  revert threads pattern. induction turns as [|k turns IH];
    intros threads pattern; simpl.
  - revert pattern. induction threads as [|t threads IHt]; intros pattern;
      [reflexivity|].
    simpl. rewrite IHt. apply length_thread_finish.
  - destruct (threads !! k) as [t|]; [|apply IH].
    pose proof (length_thread_step intensity theta1 t pattern) as Hstep.
    destruct (thread_step _ _ _ _ _ _ _) as [t' pattern']. simpl in Hstep.
    rewrite IH. exact Hstep.
Qed.

(** However the threads run, [get_pattern] returns one value per grid
    point. *)
Lemma length_get_pattern intensity xyz_hemi xyz_reflector theta :
  length (get_pattern vec_dot arccos run intensity xyz_hemi xyz_reflector
            theta)
  = length xyz_hemi.
Proof.
  unfold get_pattern. rewrite length_run_threads. apply length_replicate.
Qed.

End kernel_facts.

(** ** Masks and reductions *)

Lemma elem_of_select {A} (mask : list bool) (l : list A) (x : A) :
  x ∈ select mask l ↔ ∃ i, l !! i = Some x ∧ mask !! i = Some true.
Proof.
  revert l. induction mask as [|b mask IH]; intros [|y l]; simpl.
  - split; [intros []%not_elem_of_nil | intros (i & Hl & _); destruct i; discriminate].
  - split; [intros []%not_elem_of_nil | intros (i & _ & Hm); destruct i; discriminate].
  - split; [intros []%not_elem_of_nil | intros (i & Hl & _); destruct i; discriminate].
  - destruct b.
    + rewrite elem_of_cons, IH. split.
      * intros [->|(i & Hl & Hm)]; [exists 0%nat | exists (S i)]; auto.
      * intros ([|i] & Hl & Hm); simpl in *; [left; congruence | right; eauto].
    + rewrite IH. split.
      * intros (i & Hl & Hm). exists (S i); auto.
      * intros ([|i] & Hl & Hm); simpl in *; [discriminate | eauto].
Qed.

Lemma select_incl {A} (mask : list bool) (l : list A) (x : A) :
  x ∈ select mask l → x ∈ l.
Proof.
  intros (i & Hl & _)%elem_of_select. apply list_elem_of_lookup; eauto.
Qed.

Lemma length_select {A B} (mask : list bool) (l : list A) (k : list B) :
  length l = length k → length (select mask l) = length (select mask k).
Proof.
  revert l k. induction mask as [|b mask IH]; intros [|x l] [|y k] Hlen;
    simpl in *; try reflexivity; try discriminate.
  destruct b; simpl; [f_equal|]; apply IH; lia.
Qed.

(** On integers, being close to zero is being zero. *)
Lemma isclose_int_0 (c : Z) : isclose_int c 0 = bool_decide (c = 0%Z).
Proof.
  unfold isclose_int.
  destruct (decide (c = 0%Z)) as [->|Hne].
  - rewrite bool_decide_eq_true_2 by reflexivity. reflexivity.
  - rewrite bool_decide_eq_false_2 by assumption.
    apply not_true_is_false. intros Hle%Qle_bool_iff.
    unfold Qle in Hle. cbn in Hle. lia.
Qed.

Lemma sum_over_nav_lookup (n : nat) (flags : list (list bool)) (i : nat) (c : Z) :
  sum_over_nav n flags !! i = Some c →
  (0 ≤ c)%Z ∧ (c ≠ 0%Z ↔ ∃ row, row ∈ flags ∧ row !! i = Some true).
Proof.
  unfold sum_over_nav. rewrite list_lookup_fmap_Some.
  intros (i' & -> & [-> Hi]%lookup_seq). simpl. clear Hi.
  induction flags as [|row flags [IH0 IH]]; simpl.
  - split; [lia|]. split; [intros []; reflexivity|].
    intros (row & []%not_elem_of_nil & _).
  - destruct (row !! i) as [[|]|] eqn:Hrow; simpl.
    + split; [lia|]. split; [|lia].
      intros _. exists row. split; [apply list_elem_of_here | assumption].
    + split; [lia|]. rewrite Z.add_0_l, IH. split.
      * intros (r & Hin & Hr). exists r. split; [apply list_elem_of_further|]; assumption.
      * intros (r & [->|Hin]%elem_of_cons & Hr); [congruence | eauto].
    + split; [lia|]. rewrite Z.add_0_l, IH. split.
      * intros (r & Hin & Hr). exists r. split; [apply list_elem_of_further|]; assumption.
      * intros (r & [->|Hin]%elem_of_cons & Hr); [congruence | eauto].
Qed.

(** A column is "in a pattern" exactly when its flag is set at one
    navigation position at least. *)
Lemma in_a_pattern_spec (n : nat) (upper : list (list bool)) (i : nat) :
  in_a_pattern n upper !! i = Some true
  ↔ (i < n)%nat ∧ ∃ p row, upper !! p = Some row ∧ row !! i = Some true.
Proof.
  unfold in_a_pattern. rewrite list_lookup_fmap_Some. split.
  - intros (c & Hclose & Hc).
    assert (i < n)%nat as Hi.
    { apply lookup_lt_Some in Hc. unfold sum_over_nav in Hc.
      rewrite length_fmap, length_seq in Hc. assumption. }
    split; [assumption|].
    apply sum_over_nav_lookup in Hc as [_ Hc].
    rewrite isclose_int_0 in Hclose.
    destruct (decide (c = 0%Z)) as [->|Hne].
    + rewrite bool_decide_eq_true_2 in Hclose by reflexivity. discriminate.
    + apply Hc in Hne as (row & [p Hp]%list_elem_of_lookup & Hrow). eauto.
  - intros (Hi & p & row & Hp & Hrow).
    destruct (lookup_lt_is_Some_2 (sum_over_nav n upper) i) as [c Hc].
    { unfold sum_over_nav. rewrite length_fmap, length_seq. assumption. }
    exists c. split; [|assumption].
    rewrite isclose_int_0.
    apply sum_over_nav_lookup in Hc as [_ Hc].
    rewrite bool_decide_eq_false_2; [reflexivity|].
    apply Hc. exists row. split; [|assumption].
    apply list_elem_of_lookup; eauto.
Qed.

Lemma length_in_a_pattern (n : nat) (upper : list (list bool)) :
  length (in_a_pattern n upper) = n.
Proof.
  unfold in_a_pattern, sum_over_nav. rewrite !length_fmap. apply length_seq.
Qed.

Lemma any_over_nav_spec (n : nat) (flags : list (list bool)) (i : nat) :
  any_over_nav n flags !! i = Some true
  ↔ (i < n)%nat ∧ ∃ p row, flags !! p = Some row ∧ row !! i = Some true.
Proof.
  unfold any_over_nav. rewrite list_lookup_fmap_Some. split.
  - intros (i' & Hex & [-> Hi]%lookup_seq). simpl in *. split; [assumption|].
    symmetry in Hex. apply existsb_exists in Hex as (row & Hin & Hrow).
    apply list_elem_of_In, list_elem_of_lookup in Hin as [p Hp].
    exists p, row. split; [assumption|].
    destruct (row !! i) as [[|]|]; simpl in Hrow; congruence.
  - intros (Hi & p & row & Hp & Hrow).
    exists i. split; [|apply lookup_seq; split; [reflexivity | assumption]].
    symmetry. apply existsb_exists. exists row. split.
    + apply list_elem_of_In, list_elem_of_lookup. eauto.
    + rewrite Hrow. reflexivity.
Qed.


Lemma is_upper_lookup (d : list (list V3)) (p i : nat) :
  (∃ flags, is_upper d !! p = Some flags ∧ flags !! i = Some true)
  ↔ ∃ row v, d !! p = Some row ∧ row !! i = Some v ∧ gtb (vz v) 0 = true.
Proof.
  unfold is_upper. split.
  - intros (flags & (row & -> & Hrow)%list_lookup_fmap_Some & Hi).
    apply list_lookup_fmap_Some in Hi as (v & Hv & Hi). eauto.
  - intros (row & v & Hrow & Hv & Hup).
    exists ((λ v, gtb (vz v) 0) <$> row). split.
    + rewrite list_lookup_fmap, Hrow. reflexivity.
    + rewrite list_lookup_fmap, Hv. simpl. congruence.
Qed.

Lemma zip_with_andb_lookup (a b : list bool) (k : nat) :
  zip_with andb a b !! k = Some true
  ↔ a !! k = Some true ∧ b !! k = Some true.
Proof.
  rewrite lookup_zip_with_Some. split.
  - intros (x & y & Hxy & Ha & Hb).
    symmetry in Hxy. apply andb_true_iff in Hxy as [-> ->]. auto.
  - intros [Ha Hb]. exists true, true. auto.
Qed.

Lemma broadcast_nav_lookup {A} (nav : list nat) (l : list A) (npos p : nat)
    (x : A) :
  broadcast_nav nav l npos !! p = Some x
  ↔ l !! (if bool_decide (nav = [1%nat]) then 0%nat else p) = Some x
    ∧ (nav = [1%nat] → (p < npos)%nat).
Proof.
  unfold broadcast_nav. case_bool_decide as Hnav.
  - destruct l as [|y l]; simpl.
    + split; [discriminate | intros [? _]; discriminate].
    + rewrite app_nil_r. rewrite lookup_replicate. split.
      * intros [-> Hp]. auto.
      * intros [[= ->] Hp]. auto.
  - split; [intros Hl; split; [assumption | contradiction] | intros [Hl _]; assumption].
Qed.

Lemma extend_range_lookup (range : list (float * float)) (scale : list float)
    (d : nat) (r : float * float) :
  extend_range range scale !! d = Some r
  ↔ ∃ lo hi s, range !! d = Some (lo, hi) ∧ scale !! d = Some s
               ∧ r = (lo - s, hi + s).
Proof.
  unfold extend_range. rewrite lookup_zip_with_Some. split.
  - intros ([lo hi] & s & -> & Hr & Hs). exists lo, hi, s. auto.
  - intros (lo & hi & s & Hr & Hs & ->). exists (lo, hi), s. auto.
Qed.

(** ** The projector *)

Section projector_facts.

Variable detector_to_sample : float → V3 → M33.
Variable to_matrix : quaternion → M33.
Variable matmul : M33 → M33 → M33.
Variable vecmat : V3 → M33 → V3.
Variable cross : Lattice → V3 → V3 → V3.
Variable miller_round : Lattice → V3 → V3.
Variable miller_unique : list V3 → list V3.
Variable miller_uvw : Lattice → V3 → V3.

Local Abbreviation on_detector' :=
  (on_detector detector_to_sample to_matrix matmul vecmat cross miller_round
     miller_unique miller_uvw).
Local Abbreviation hkl_d' :=
  (hkl_d_all detector_to_sample to_matrix matmul vecmat).
Local Abbreviation hkl_mask :=
  (hkl_in_a_pattern detector_to_sample to_matrix matmul vecmat).
Local Abbreviation candidates :=
  (zone_axis_candidates detector_to_sample to_matrix matmul vecmat cross
     miller_round miller_unique).
Local Abbreviation uvw_d' :=
  (uvw_d_all detector_to_sample to_matrix matmul vecmat miller_uvw).

(** C1. [on_detector] raises the shape [ValueError] exactly when the
    detector's navigation shape is neither [(1,)] nor the shape of the
    rotations; with a navigation shape [(1,)] no shape of rotations is
    refused; and the error comes before anything is printed or
    projected. *)
Theorem on_detector_shape_guard self detector rotations :
  ((∃ out, on_detector' self detector rotations
           = (out, inl (ValueError shape_error)))
   ↔ navigation_shape detector ≠ [1%nat]
     ∧ navigation_shape detector ≠ rot_shape rotations)
  ∧ (navigation_shape detector ≠ [1%nat]
     ∧ navigation_shape detector ≠ rot_shape rotations
     → on_detector' self detector rotations
       = ([], inl (ValueError shape_error)))
  ∧ (navigation_shape detector = [1%nat]
     → ∀ out, on_detector' self detector rotations
              ≠ (out, inl (ValueError shape_error))).
Proof.
  assert (navigation_shape detector ≠ [1%nat]
          ∧ navigation_shape detector ≠ rot_shape rotations
          → on_detector' self detector rotations
            = ([], inl (ValueError shape_error))) as Hraise.
  { intros [H1 H2]. unfold on_detector.
    rewrite !bool_decide_eq_true_2 by assumption. reflexivity. }
  assert (¬ (navigation_shape detector ≠ [1%nat]
             ∧ navigation_shape detector ≠ rot_shape rotations)
          → ∀ out, on_detector' self detector rotations
                   ≠ (out, inl (ValueError shape_error))) as Hpass.
  { intros Hok out. unfold on_detector.
    destruct (bool_decide (navigation_shape detector ≠ [1%nat])
              && bool_decide (navigation_shape detector ≠ rot_shape rotations))
      eqn:Hguard.
    - apply andb_true_iff in Hguard as [H1%bool_decide_eq_true H2%bool_decide_eq_true].
      tauto.
    - destruct (bool_decide (length (rot_shape rotations) ∈ [1%nat; 2%nat]));
        [|discriminate].
      destruct (np_max (r_max detector)); discriminate. }
  split; [split|split].
  - intros [out Hout].
    destruct (decide (navigation_shape detector ≠ [1%nat]
                      ∧ navigation_shape detector ≠ rot_shape rotations))
      as [Hbad|Hok]; [assumption|].
    destruct (Hpass Hok out Hout).
  - intros Hbad. exists []. auto.
  - assumption.
  - intros H1. apply Hpass. intros [Hne _]. contradiction.
Qed.

(** On well-shaped inputs [on_detector] returns a simulation, whose
    parts are the filtered arrays. *)
Lemma on_detector_result self detector rotations :
  well_shaped detector rotations →
  ∃ sim,
    on_detector' self detector rotations = (on_detector_output, inr sim)
    ∧ sim_detector sim = detector
    ∧ sim_rotations sim = rotations
    ∧ sim_reflectors sim = rlv_select (hkl_mask self detector rotations) self
    ∧ line_hkl (sim_lines sim)
      = select (hkl_mask self detector rotations) (hkl self)
    ∧ hkl_detector (sim_lines sim)
      = (select (hkl_mask self detector rotations)
           <$> hkl_d' self detector rotations)
    ∧ line_in_pattern (sim_lines sim)
      = (select (hkl_mask self detector rotations)
           <$> is_upper (hkl_d' self detector rotations))
    ∧ let uvw_miller := candidates self detector rotations in
      let uvw_d := uvw_d' self detector rotations uvw_miller in
      let uvw_mask := uvw_in_a_pattern detector (length uvw_miller) uvw_d in
      zone_uvw (sim_zone_axes sim) = select uvw_mask uvw_miller
      ∧ uvw_detector (sim_zone_axes sim) = (select uvw_mask <$> uvw_d)
      ∧ zone_in_pattern (sim_zone_axes sim)
        = (select uvw_mask <$> is_upper uvw_d).
Proof.
  intros (Hshape & Hndim & Hr).
  destruct (np_max (r_max detector)) as [max_r|] eqn:Hmax;
    [|destruct (r_max detector); [contradiction | discriminate]].
  eexists. split.
  - unfold on_detector.
    rewrite (proj2 (andb_false_iff _ _)).
    2:{ destruct Hshape as [H1|H2]; [left | right];
        apply bool_decide_eq_false_2; auto. }
    rewrite bool_decide_eq_true_2 by assumption.
    rewrite Hmax. reflexivity.
  - simpl. repeat (split; [reflexivity|]). reflexivity.
Qed.

Lemma hkl_d_row_length self detector rotations p row :
  hkl_d' self detector rotations !! p = Some row →
  length row = length (hkl self).
Proof.
  unfold hkl_d_all. intros (os & -> & _)%list_lookup_fmap_Some.
  apply length_fmap.
Qed.

Lemma uvw_d_row_length self detector rotations uvw_miller p row :
  uvw_d' self detector rotations uvw_miller !! p = Some row →
  length row = length uvw_miller.
Proof.
  unfold uvw_d_all. intros (os & -> & _)%list_lookup_fmap_Some.
  apply length_fmap.
Qed.

(** The reflector mask: set exactly where some navigation position has
    the reflector's detector-frame direction above the detector plane. *)
Lemma hkl_mask_spec self detector rotations i :
  hkl_mask self detector rotations !! i = Some true
  ↔ ∃ p row v, hkl_d' self detector rotations !! p = Some row
               ∧ row !! i = Some v ∧ gtb (vz v) 0 = true.
Proof.
  unfold hkl_in_a_pattern. rewrite in_a_pattern_spec. split.
  - intros (_ & p & flags & Hp & Hi).
    destruct (proj1 (is_upper_lookup (hkl_d' self detector rotations) p i))
      as (row & v & ?); eauto.
  - intros (p & row & v & Hrow & Hv & Hup). split.
    + rewrite <- (hkl_d_row_length _ _ _ _ _ Hrow).
      eapply lookup_lt_Some; eassumption.
    + destruct (proj2 (is_upper_lookup (hkl_d' self detector rotations) p i))
        as (flags & ?); eauto.
Qed.

(** C3. A reflector is kept exactly when its detector-frame direction
    has a positive z-component at one navigation position at least; the
    kept reflectors are the visible reflectors of the result and the
    only ones the lines and the zone axes are computed from. *)
Theorem reflector_kept_iff_upper_somewhere self detector rotations :
  well_shaped detector rotations →
  ∃ sim,
    on_detector' self detector rotations = (on_detector_output, inr sim)
    ∧ (∀ i, hkl_mask self detector rotations !! i = Some true
            ↔ ∃ p row v, hkl_d' self detector rotations !! p = Some row
                         ∧ row !! i = Some v ∧ gtb (vz v) 0 = true)
    ∧ sim_reflectors sim = rlv_select (hkl_mask self detector rotations) self
    ∧ (∀ g, g ∈ hkl (sim_reflectors sim)
            ↔ ∃ i, hkl self !! i = Some g
                   ∧ hkl_mask self detector rotations !! i = Some true)
    ∧ line_hkl (sim_lines sim) = hkl (sim_reflectors sim)
    ∧ hkl_detector (sim_lines sim)
      = (select (hkl_mask self detector rotations)
           <$> hkl_d' self detector rotations)
    ∧ (∀ m, m ∈ zone_uvw (sim_zone_axes sim) →
            m ∈ zone_axes_from cross miller_round miller_unique
                  (lattice self) (hkl (sim_reflectors sim))).
Proof.
  intros Hwf.
  destruct (on_detector_result self detector rotations Hwf)
    as (sim & Hrun & _ & _ & Hrefl & Hline & Hdet & _ & Hzone & _).
  exists sim. split; [assumption|].
  split; [apply hkl_mask_spec|].
  split; [assumption|].
  split; [intros g; rewrite Hrefl; apply elem_of_select|].
  split; [rewrite Hline, Hrefl; reflexivity|].
  split; [assumption|].
  intros m Hm. rewrite Hzone in Hm. apply select_incl in Hm.
  rewrite Hrefl. exact Hm.
Qed.

(** The zone-axis mask over any detector-frame directions [uvw_d]. *)
Lemma uvw_in_a_pattern_spec detector (n : nat) (uvw_d : list (list V3)) k :
  (∀ p row, uvw_d !! p = Some row → length row = n) →
  uvw_in_a_pattern detector n uvw_d !! k = Some true
  ↔ (∃ p row v, uvw_d !! p = Some row ∧ row !! k = Some v
                ∧ gtb (vz v) 0 = true)
    ∧ (∃ p row v lox hix sx loy hiy sy,
         uvw_d !! p = Some row ∧ row !! k = Some v
         ∧ let d := if bool_decide (navigation_shape detector = [1%nat])
                    then 0%nat else p in
           x_range detector !! d = Some (lox, hix)
           ∧ x_scale detector !! d = Some sx
           ∧ y_range detector !! d = Some (loy, hiy)
           ∧ y_scale detector !! d = Some sy
           ∧ (lox - sx <=? vx v / vz v) = true
           ∧ (vx v / vz v <=? hix + sx) = true
           ∧ (loy - sy <=? vy v / vz v) = true
           ∧ (vy v / vz v <=? hiy + sy) = true).
Proof.
  intros Hrows. unfold uvw_in_a_pattern.
  rewrite zip_with_andb_lookup, in_a_pattern_spec, any_over_nav_spec.
  assert (∀ p row v, uvw_d !! p = Some row → row !! k = Some v → (k < n)%nat)
    as Hk.
  { intros p row v Hrow Hv. rewrite <- (Hrows p row Hrow).
    eapply lookup_lt_Some; eassumption. }
  split.
  - intros [(_ & p & flags & Hp & Hflag) (_ & q & wflags & Hq & Hw)]. split.
    + destruct (proj1 (is_upper_lookup uvw_d p k)) as (row & v & ?); eauto.
    + unfold within_all in Hq.
      apply lookup_zip_with_Some in Hq as ([xr yr] & row & -> & Hxy & Hrow).
      apply list_lookup_fmap_Some in Hw as (v & Hwithin & Hv).
      apply lookup_zip_with_Some in Hxy as (xr' & yr' & [= <- <-] & Hx & Hy).
      apply broadcast_nav_lookup in Hx as [Hx _].
      apply broadcast_nav_lookup in Hy as [Hy _].
      apply extend_range_lookup in Hx as (lox & hix & sx & Hxr & Hxs & ->).
      apply extend_range_lookup in Hy as (loy & hiy & sy & Hyr & Hys & ->).
      symmetry in Hwithin. unfold within_bounds, geb, uvw_xg, uvw_yg in Hwithin.
      simpl in Hwithin.
      apply andb_true_iff in Hwithin as [[H1 H2]%andb_true_iff [H3 H4]%andb_true_iff].
      exists q, row, v, lox, hix, sx, loy, hiy, sy. simpl. tauto.
  - intros [(p & row & v & Hrow & Hv & Hup)
            (q & row' & v' & lox & hix & sx & loy & hiy & sy & Hrow' & Hv'
             & Hxr & Hxs & Hyr & Hys & H1 & H2 & H3 & H4)].
    split.
    + split; [eauto|].
      destruct (proj2 (is_upper_lookup uvw_d p k)) as (flags & ?); eauto.
    + split; [eauto|].
      exists q, (within_bounds (lox - sx, hix + sx) (loy - sy, hiy + sy) <$> row').
      split.
      * unfold within_all. apply lookup_zip_with_Some.
        exists ((lox - sx, hix + sx), (loy - sy, hiy + sy)), row'.
        split; [reflexivity|]. split; [|assumption].
        apply lookup_zip_with_Some.
        exists (lox - sx, hix + sx), (loy - sy, hiy + sy).
        split; [reflexivity|].
        assert (q < length uvw_d)%nat by (eapply lookup_lt_Some; eassumption).
        split; apply broadcast_nav_lookup; (split; [|auto]);
          apply extend_range_lookup; eauto 10.
      * rewrite list_lookup_fmap, Hv'. simpl. f_equal.
        unfold within_bounds, geb, uvw_xg, uvw_yg. simpl.
        rewrite H1, H2, H3, H4. reflexivity.
Qed.

(** C4. A zone axis is kept exactly when its detector-frame z-component
    is positive at one navigation position at least, and its gnomonic
    projection [(X/Z, Y/Z)] lies, at one navigation position at least,
    within the detector's gnomonic ranges widened on each side by the
    x-scale and the y-scale. *)
Theorem zone_axis_kept_iff_upper_and_within self detector rotations :
  well_shaped detector rotations →
  ∃ sim,
    on_detector' self detector rotations = (on_detector_output, inr sim)
    ∧ let uvw_miller := candidates self detector rotations in
      let uvw_d := uvw_d' self detector rotations uvw_miller in
      let uvw_mask := uvw_in_a_pattern detector (length uvw_miller) uvw_d in
      zone_uvw (sim_zone_axes sim) = select uvw_mask uvw_miller
      ∧ (∀ m, m ∈ zone_uvw (sim_zone_axes sim)
              ↔ ∃ k, uvw_miller !! k = Some m ∧ uvw_mask !! k = Some true)
      ∧ ∀ k, uvw_mask !! k = Some true
             ↔ (∃ p row v, uvw_d !! p = Some row ∧ row !! k = Some v
                           ∧ gtb (vz v) 0 = true)
               ∧ (∃ p row v lox hix sx loy hiy sy,
                    uvw_d !! p = Some row ∧ row !! k = Some v
                    ∧ let d := if bool_decide
                                    (navigation_shape detector = [1%nat])
                               then 0%nat else p in
                      x_range detector !! d = Some (lox, hix)
                      ∧ x_scale detector !! d = Some sx
                      ∧ y_range detector !! d = Some (loy, hiy)
                      ∧ y_scale detector !! d = Some sy
                      ∧ (lox - sx <=? vx v / vz v) = true
                      ∧ (vx v / vz v <=? hix + sx) = true
                      ∧ (loy - sy <=? vy v / vz v) = true
                      ∧ (vy v / vz v <=? hiy + sy) = true).
Proof.
  intros Hwf.
  destruct (on_detector_result self detector rotations Hwf)
    as (sim & Hrun & _ & _ & _ & _ & _ & _ & Hzone & _).
  exists sim. split; [assumption|]. cbv zeta in *.
  split; [assumption|].
  split; [intros m; rewrite Hzone; apply elem_of_select|].
  intros k. apply uvw_in_a_pattern_spec.
  intros p row. apply uvw_d_row_length.
Qed.

(** C9. At every navigation index the reflectors flagged in-pattern are
    among the visible reflectors of the result, and the zone axes
    flagged in-pattern are among its visible zone axes. *)
Theorem in_pattern_subset_of_visible self detector rotations :
  well_shaped detector rotations →
  ∃ sim,
    on_detector' self detector rotations = (on_detector_output, inr sim)
    ∧ (∀ p flags,
         line_in_pattern (sim_lines sim) !! p = Some flags →
         length flags = length (hkl (sim_reflectors sim))
         ∧ ∀ g, g ∈ select flags (hkl (sim_reflectors sim)) →
                g ∈ hkl (sim_reflectors sim))
    ∧ (∀ p flags i,
         is_upper (hkl_d' self detector rotations) !! p = Some flags →
         flags !! i = Some true →
         hkl_mask self detector rotations !! i = Some true)
    ∧ (∀ p flags,
         zone_in_pattern (sim_zone_axes sim) !! p = Some flags →
         length flags = length (zone_uvw (sim_zone_axes sim))
         ∧ ∀ m, m ∈ select flags (zone_uvw (sim_zone_axes sim)) →
                m ∈ zone_uvw (sim_zone_axes sim)).
Proof.
  intros Hwf.
  destruct (on_detector_result self detector rotations Hwf)
    as (sim & Hrun & _ & _ & Hrefl & _ & _ & Hin & Hzone & _ & Hzin).
  exists sim. split; [assumption|]. cbv zeta in *.
  split; [|split].
  - intros p flags Hflags. split; [|intros g; apply select_incl].
    rewrite Hin in Hflags.
    apply list_lookup_fmap_Some in Hflags as (upper_p & -> & Hup).
    unfold is_upper in Hup.
    apply list_lookup_fmap_Some in Hup as (row & -> & Hrow).
    rewrite Hrefl. simpl. apply length_select.
    rewrite length_fmap. eapply hkl_d_row_length; eassumption.
  - intros p flags i Hflags Hi. apply hkl_mask_spec.
    destruct (proj1 (is_upper_lookup (hkl_d' self detector rotations) p i))
      as (row & v & ?); eauto.
  - intros p flags Hflags. split; [|intros m; apply select_incl].
    rewrite Hzin in Hflags.
    apply list_lookup_fmap_Some in Hflags as (upper_p & -> & Hup).
    unfold is_upper in Hup.
    apply list_lookup_fmap_Some in Hup as (row & -> & Hrow).
    rewrite Hzone. apply length_select.
    rewrite length_fmap. eapply uvw_d_row_length; eassumption.
Qed.




End projector_facts.

(** ** The master pattern driver *)

Lemma string_append_assoc (a b c : string) :
  (a +:+ b) +:+ c = a +:+ b +:+ c.
Proof.
  induction a as [|ch a IH]; [reflexivity|].
  change (String ch ((a +:+ b) +:+ c) = String ch (a +:+ b +:+ c)).
  rewrite IH. reflexivity.
Qed.

Lemma bind_raise {A B} (e : exn) (k : A → M B) : bind (raise e) k = raise e.
Proof. reflexivity. Qed.

Lemma bind_ret {A B} (a : A) (k : A → M B) : bind (ret a) k = k a.
Proof. unfold bind, ret. destruct (k a). reflexivity. Qed.

Lemma raise_if_no_theta_cases (self : ReciprocalLatticeVector) :
  (theta self !! 0%nat = None
   ∧ _raise_if_no_theta self = raise (IndexError index_0_error))
  ∨ (∃ t, theta self !! 0%nat = Some t ∧ np_isnan t = true
          ∧ _raise_if_no_theta self = raise (ValueError no_theta_error))
  ∨ (∃ t, theta self !! 0%nat = Some t ∧ np_isnan t = false
          ∧ _raise_if_no_theta self = ret tt).
Proof.
  unfold _raise_if_no_theta.
  destruct (theta self !! 0%nat) as [t|]; [|left; auto].
  right. destruct (np_isnan t) eqn:Hnan; [left | right]; eauto.
Qed.

Lemma raise_if_no_structure_factor_cases (self : ReciprocalLatticeVector) :
  (structure_factor self !! 0%nat = None
   ∧ _raise_if_no_structure_factor self = raise (IndexError index_0_error))
  ∨ (∃ f, structure_factor self !! 0%nat = Some f
          ∧ np_isnan_complex f = true
          ∧ _raise_if_no_structure_factor self
            = raise (ValueError no_structure_factor_error))
  ∨ (∃ f, structure_factor self !! 0%nat = Some f
          ∧ np_isnan_complex f = false
          ∧ _raise_if_no_structure_factor self = ret tt).
Proof.
  unfold _raise_if_no_structure_factor.
  destruct (structure_factor self !! 0%nat) as [f|]; [|left; auto].
  right. destruct (np_isnan_complex f) eqn:Hnan; [left | right]; eauto.
Qed.

(** Away from half size zero the pattern is a square of side
    [2 * half_size + 1], with a leading axis of length two for both
    hemispheres. *)
Lemma master_pattern_shape_positive (half_size : Z) (hemisphere : Hemisphere) :
  (1 ≤ half_size)%Z →
  master_pattern_shape half_size hemisphere
  = let size := Z.to_nat (2 * half_size + 1) in
    match hemisphere with
    | both => [2%nat; size; size]
    | _ => [size; size]
    end.
Proof.
  intros Hpos. unfold master_pattern_shape, reshape_m1, squeeze.
  set (size := Z.to_nat (2 * half_size + 1)).
  assert (3 ≤ size)%nat as Hsize by (unfold size; lia).
  assert (size * size ≠ 0)%nat as Hsq by nia.
  cbv zeta.
  destruct hemisphere; cbn [poles_from_hemisphere length];
    rewrite Nat.div_mul by assumption;
    rewrite !filter_cons, filter_nil;
    repeat case_decide; first [reflexivity | lia].
Qed.

Section master_pattern_facts.

Variable vec_dot : V3 → V3 → float.
Variable arccos : float → float.
Variable run : nat → numba_run.
Variable complex_abs : complex → float.
Variable repr : string → string.
Variable np_linspace : float → float → nat → list float.
Variable xy2vector : Z → float → float → V3.
Variable unit_data : ReciprocalLatticeVector → list V3.

Local Abbreviation master_pattern :=
  (calculate_master_pattern vec_dot arccos run complex_abs repr np_linspace
     xy2vector unit_data).
Local Abbreviation rows_of := (pattern_rows vec_dot arccos run xy2vector).

(** The only exception of the loop over the poles. *)
Lemma pattern_rows_raises poles i X Y n intensity xyz_reflector theta_r out e :
  rows_of i poles X Y n intensity xyz_reflector theta_r = (out, inl e) →
  e = ValueError "could not broadcast input array into a row of patterns".
Proof.
  revert i out. induction poles as [|pole poles IH]; intros i out; simpl.
  - discriminate.
  - case_bool_decide; simpl.
    + destruct (rows_of (S i) poles X Y n intensity xyz_reflector theta_r)
        as [out' [e'|rows]] eqn:Hrest; simpl.
      * intros [= _ <-]. eapply IH. eassumption.
      * discriminate.
    + intros [= _ <-]. reflexivity.
Qed.

(** Whatever [calculate_master_pattern] returns has the shape and the
    axes computed from the half size and the hemisphere. *)
Lemma calculate_master_pattern_shape self half_size hemisphere scaling out mp :
  master_pattern self half_size hemisphere scaling = (out, inr mp) →
  mp_shape mp = master_pattern_shape half_size hemisphere
  ∧ mp_axes mp = master_pattern_axes (2 * half_size + 1) hemisphere.
Proof.
  unfold calculate_master_pattern.
  destruct (_raise_if_no_theta self) as [o1 [e1|[]]]; simpl; [discriminate|].
  destruct (_raise_if_no_structure_factor self) as [o2 [e2|[]]]; simpl;
    [discriminate|].
  destruct (scaled_intensity complex_abs repr self scaling)
    as [o3 [e3|intensity]]; simpl; [discriminate|].
  destruct (2 * half_size + 1 <? 0)%Z; simpl; [discriminate|].
  destruct (rows_of _ _ _ _ _ _ _ _) as [o4 [e4|rows]]; simpl; [discriminate|].
  intros [= _ <-]. split; reflexivity.
Qed.

Lemma master_pattern_no_theta self half_size hemisphere scaling t :
  theta self !! 0%nat = Some t → np_isnan t = true →
  master_pattern self half_size hemisphere scaling
  = ([], inl (ValueError no_theta_error)).
Proof.
  intros Ht Hnan. unfold calculate_master_pattern, _raise_if_no_theta.
  rewrite Ht, Hnan. reflexivity.
Qed.

Lemma master_pattern_no_structure_factor self half_size hemisphere scaling t f :
  theta self !! 0%nat = Some t → np_isnan t = false →
  structure_factor self !! 0%nat = Some f → np_isnan_complex f = true →
  master_pattern self half_size hemisphere scaling
  = ([], inl (ValueError no_structure_factor_error)).
Proof.
  intros Ht Hnan Hf Hfnan.
  unfold calculate_master_pattern, _raise_if_no_theta,
    _raise_if_no_structure_factor.
  rewrite Ht, Hnan, Hf, Hfnan. reflexivity.
Qed.

Lemma master_pattern_unknown_scaling self half_size hemisphere t f s :
  theta self !! 0%nat = Some t → np_isnan t = false →
  structure_factor self !! 0%nat = Some f → np_isnan_complex f = false →
  s ≠ "linear" → s ≠ "square" →
  master_pattern self half_size hemisphere (Some s)
  = ([], inl (ValueError (unknown_scaling_error repr s))).
Proof.
  intros Ht Hnan Hf Hfnan Hlin Hsq.
  unfold calculate_master_pattern, _raise_if_no_theta,
    _raise_if_no_structure_factor, scaled_intensity.
  rewrite Ht, Hnan, Hf, Hfnan.
  rewrite !decide_False by assumption. reflexivity.
Qed.

(** C8. Invalid input is refused before the loop over the poles starts:
    a NaN first Bragg angle, a NaN first structure factor, and a scaling
    string other than "linear" and "square" each raise a [ValueError]
    with no event emitted; the last names the valid options. *)
Theorem calculate_master_pattern_rejects self half_size hemisphere scaling :
  (∀ t, theta self !! 0%nat = Some t → np_isnan t = true →
        master_pattern self half_size hemisphere scaling
        = ([], inl (ValueError no_theta_error)))
  ∧ (∀ t f, theta self !! 0%nat = Some t → np_isnan t = false →
            structure_factor self !! 0%nat = Some f →
            np_isnan_complex f = true →
            master_pattern self half_size hemisphere scaling
            = ([], inl (ValueError no_structure_factor_error)))
  ∧ (∀ t f s, theta self !! 0%nat = Some t → np_isnan t = false →
              structure_factor self !! 0%nat = Some f →
              np_isnan_complex f = false →
              scaling = Some s → s ≠ "linear" → s ≠ "square" →
              master_pattern self half_size hemisphere scaling
              = ([], inl (ValueError (unknown_scaling_error repr s)))
              ∧ unknown_scaling_error repr s
                = ("Unknown scaling " +:+ repr s)
                    +:+ ", options are 'linear', 'square', or None").
Proof.
  split; [|split].
  - intros t. apply master_pattern_no_theta.
  - intros t f. apply master_pattern_no_structure_factor.
  - intros t f s Ht Hnan Hf Hfnan -> Hlin Hsq. split.
    + eapply master_pattern_unknown_scaling; eassumption.
    + unfold unknown_scaling_error. symmetry. apply string_append_assoc.
Qed.

(** Every way [calculate_master_pattern] can raise, in the order of the
    checks. *)
Lemma calculate_master_pattern_raises self half_size hemisphere scaling out e :
  master_pattern self half_size hemisphere scaling = (out, inl e) →
  (theta self !! 0%nat = None ∧ e = IndexError index_0_error)
  ∨ (∃ t, theta self !! 0%nat = Some t ∧ np_isnan t = true
          ∧ e = ValueError no_theta_error)
  ∨ (∃ t, theta self !! 0%nat = Some t ∧ np_isnan t = false
          ∧ ((structure_factor self !! 0%nat = None
              ∧ e = IndexError index_0_error)
             ∨ (∃ f, structure_factor self !! 0%nat = Some f
                     ∧ np_isnan_complex f = true
                     ∧ e = ValueError no_structure_factor_error)
             ∨ (∃ f, structure_factor self !! 0%nat = Some f
                     ∧ np_isnan_complex f = false
                     ∧ ((∃ s, e = ValueError (unknown_scaling_error repr s))
                        ∨ (∃ n, e = ValueError ("Number of samples, " +:+ n))
                        ∨ e = ValueError "could not broadcast input array into a row of patterns")))).
Proof.
  unfold calculate_master_pattern.
  destruct (raise_if_no_theta_cases self)
    as [[Ht ->]|[(t & Ht & Hnan & ->)|(t & Ht & Hnan & ->)]].
  { rewrite bind_raise. intros [= _ <-]. left. auto. }
  { rewrite bind_raise. intros [= _ <-]. right; left. eauto. }
  rewrite bind_ret. intros Hrun. right; right. exists t.
  split; [assumption|]. split; [assumption|].
  destruct (raise_if_no_structure_factor_cases self)
    as [[Hf HF]|[(f & Hf & Hfnan & HF)|(f & Hf & Hfnan & HF)]];
    rewrite HF in Hrun.
  { rewrite bind_raise in Hrun. injection Hrun as _ <-. left. auto. }
  { rewrite bind_raise in Hrun. injection Hrun as _ <-. right; left. eauto. }
  rewrite bind_ret in Hrun. right; right. exists f.
  split; [assumption|]. split; [assumption|].
  destruct (scaled_intensity complex_abs repr self scaling)
    as [o3 [e3|intensity]] eqn:Hscale; simpl in Hrun.
  { injection Hrun as _ <-. left.
    unfold scaled_intensity in Hscale.
    destruct scaling as [s|]; [|discriminate].
    destruct (decide (s = "linear")); [discriminate|].
    destruct (decide (s = "square")); [discriminate|].
    injection Hscale as _ <-. eauto. }
  destruct (2 * half_size + 1 <? 0)%Z; simpl in Hrun.
  { injection Hrun as _ <-. right; left. eauto. }
  destruct (rows_of _ _ _ _ _ _ _ _) as [o4 [e4|rows]] eqn:Hrows;
    simpl in Hrun; [|discriminate].
  injection Hrun as _ <-. right; right.
  eapply pattern_rows_raises. eassumption.
Qed.

(** C10. The two checks look at the first reflector only: the "no
    Bragg angles" error is raised exactly when the first Bragg angle is
    NaN and the "no structure factors" error exactly when the first
    structure factor is NaN (and the first Bragg angle is not), later
    NaN entries are accepted, and the Bragg angles are checked first. *)
Theorem missing_field_checks_first_reflector self half_size hemisphere scaling :
  (_raise_if_no_theta self = raise (ValueError no_theta_error)
   ↔ ∃ t, theta self !! 0%nat = Some t ∧ np_isnan t = true)
  ∧ (_raise_if_no_structure_factor self
     = raise (ValueError no_structure_factor_error)
     ↔ ∃ f, structure_factor self !! 0%nat = Some f
            ∧ np_isnan_complex f = true)
  ∧ ((∃ out, master_pattern self half_size hemisphere scaling
             = (out, inl (ValueError no_theta_error)))
     ↔ ∃ t, theta self !! 0%nat = Some t ∧ np_isnan t = true)
  ∧ ((∃ out, master_pattern self half_size hemisphere scaling
             = (out, inl (ValueError no_structure_factor_error)))
     ↔ ∃ t f, theta self !! 0%nat = Some t ∧ np_isnan t = false
              ∧ structure_factor self !! 0%nat = Some f
              ∧ np_isnan_complex f = true)
  ∧ (∀ t rest, theta self = t :: rest → np_isnan t = false →
               _raise_if_no_theta self = ret tt)
  ∧ (∀ f rest, structure_factor self = f :: rest →
               np_isnan_complex f = false →
               _raise_if_no_structure_factor self = ret tt).
Proof.
  split; [|split; [|split; [|split; [|split]]]].
  - destruct (raise_if_no_theta_cases self)
      as [[Ht ->]|[(t & Ht & Hnan & ->)|(t & Ht & Hnan & ->)]].
    + split; [discriminate | intros (t & ? & _); congruence].
    + split; eauto.
    + split; [discriminate | intros (t' & ? & ?); congruence].
  - destruct (raise_if_no_structure_factor_cases self)
      as [[Hf ->]|[(f & Hf & Hnan & ->)|(f & Hf & Hnan & ->)]].
    + split; [discriminate | intros (f & ? & _); congruence].
    + split; eauto.
    + split; [discriminate | intros (f' & ? & ?); congruence].
  - split.
    + intros [out Hrun].
      apply calculate_master_pattern_raises in Hrun
        as [[_ He]|[(t & Ht & Hnan & _)|(t & _ & _ & Hlater)]];
        [discriminate | eauto |].
      destruct Hlater
        as [[_ He]|[(f & _ & _ & He)|(f & _ & _ & [[s He]|[[n He]|He]])]];
        discriminate.
    + intros (t & Ht & Hnan). exists [].
      eapply master_pattern_no_theta; eassumption.
  - split.
    + intros [out Hrun].
      apply calculate_master_pattern_raises in Hrun
        as [[_ He]|[(t & _ & _ & He)|(t & Ht & Hnan & Hlater)]];
        [discriminate | discriminate |].
      destruct Hlater
        as [[_ He]|[(f & Hf & Hfnan & _)
                   |(f & _ & _ & [[s He]|[[n He]|He]])]];
        try discriminate.
      exists t, f. auto.
    + intros (t & f & Ht & Hnan & Hf & Hfnan). exists [].
      eapply master_pattern_no_structure_factor; eassumption.
  - intros t rest Ht Hnan. unfold _raise_if_no_theta.
    rewrite Ht. simpl. rewrite Hnan. reflexivity.
  - intros f rest Hf Hnan. unfold _raise_if_no_structure_factor.
    rewrite Hf. simpl. rewrite Hnan. reflexivity.
Qed.

End master_pattern_facts.

(** ** Comparisons with NaN and the infinities *)

Lemma SFcompare_refl (f : spec_float) :
  f ≠ S754_nan → SFcompare f f = Some Eq.
Proof.
  destruct f as [s|s| |s m e]; simpl; intros Hnan;
    [reflexivity | destruct s; reflexivity | contradiction |].
  rewrite Z.compare_refl.
  change (Pos.compare_cont Eq m m) with (Pos.compare m m).
  rewrite Pos.compare_refl. destruct s; reflexivity.
Qed.

Lemma is_nan_Prim2SF (x : float) :
  PrimFloat.is_nan x = true ↔ Prim2SF x = S754_nan.
Proof.
  unfold PrimFloat.is_nan. rewrite FloatAxioms.eqb_spec. unfold SFeqb. split.
  - intros Hneq. destruct (Prim2SF x) as [s|s| |s m e] eqn:Hx;
      [| |reflexivity|]; rewrite SFcompare_refl in Hneq; discriminate.
  - intros ->. reflexivity.
Qed.




Lemma is_nan_abs (x : float) :
  PrimFloat.is_nan (PrimFloat.abs x) = PrimFloat.is_nan x.
Proof.
  destruct (PrimFloat.is_nan x) eqn:Hx.
  - apply is_nan_Prim2SF. rewrite FloatAxioms.abs_spec.
    apply is_nan_Prim2SF in Hx. rewrite Hx. reflexivity.
  - destruct (PrimFloat.is_nan (PrimFloat.abs x)) eqn:Habs; [|reflexivity].
    apply is_nan_Prim2SF in Habs. rewrite FloatAxioms.abs_spec in Habs.
    rewrite (proj2 (is_nan_Prim2SF x)) in Hx; [discriminate|].
    destruct (Prim2SF x); simpl in Habs; first [discriminate | reflexivity].
Qed.



(** ** Degenerate dot products and denominators *)




(** ** The model on the samples *)

Example get_pattern_sample :
  get_pattern dot3 arccos_table one_thread [2; 3]
    [(0, 0, 1); (1, 0, 0); (0.5, 0, 0)] [(1, 0, 0); (0, 1, 0)] [0.75; 0.5]
  = [2.5; 1.5; 3.5].
Proof. reflexivity. Qed.

(** C2. The sum is lost in a race.  Two reflectors give to one grid
    point, the first half its intensity and the second its whole
    intensity; on one thread the value is their sum, as the claim has
    it.  On two threads, when each thread reads [pattern[0]] before the
    other has stored, the store that comes last wins and the other
    contribution is gone. *)
Theorem get_pattern_loses_an_update :
  band_contribution dot3 arccos_table 1 (0, 1, 0) 0.75 (1, 0, 0) = Some 0.5
  ∧ band_contribution dot3 arccos_table 1 (0.5, 0, 0x1.bb67ae8584caap-1) 0.75
      (1, 0, 0)
    = Some 1
  ∧ band_sum dot3 arccos_table [1; 1]
      [(0, 1, 0); (0.5, 0, 0x1.bb67ae8584caap-1)] [0.75; 0.75] (1, 0, 0)
    = 1.5
  ∧ get_pattern dot3 arccos_table one_thread [1; 1] [(1, 0, 0)]
      [(0, 1, 0); (0.5, 0, 0x1.bb67ae8584caap-1)] [0.75; 0.75]
    = [1.5]
  ∧ get_pattern dot3 arccos_table (two_threads [0; 1; 0; 1]%nat) [1; 1]
      [(1, 0, 0)] [(0, 1, 0); (0.5, 0, 0x1.bb67ae8584caap-1)] [0.75; 0.75]
    = [1]
  ∧ get_pattern dot3 arccos_table (two_threads [0; 1; 1; 0]%nat) [1; 1]
      [(1, 0, 0)] [(0, 1, 0); (0.5, 0, 0x1.bb67ae8584caap-1)] [0.75; 0.75]
    = [0.5]
  ∧ get_pattern dot3 arccos_table (two_threads [0; 0; 1; 1]%nat) [1; 1]
      [(1, 0, 0)] [(0, 1, 0); (0.5, 0, 0x1.bb67ae8584caap-1)] [0.75; 0.75]
    = [1.5].
Proof. repeat split; reflexivity. Qed.

Example on_detector_shape_mismatch :
  sample_on_detector sample_reflectors three_pc_detector sample_rotations
  = ([], inl (ValueError shape_error)).
Proof. reflexivity. Qed.

Lemma sample_well_shaped : well_shaped sample_detector sample_rotations.
Proof.
  split; [left; reflexivity|]. split; [|discriminate].
  apply list_elem_of_here.
Qed.

Example on_detector_sample_reflectors :
  ∃ sim,
    sample_on_detector sample_reflectors sample_detector sample_rotations
    = (on_detector_output, inr sim)
    ∧ hkl (sim_reflectors sim) = [(1, 0, 1); (0, 1, 1); (0, 0, -1)]
    ∧ line_in_pattern (sim_lines sim)
      = [[true; true; false]; [false; false; true]]
    ∧ zone_uvw (sim_zone_axes sim) = [(-1, -1, 1); (1, 1, -1)]
    ∧ zone_in_pattern (sim_zone_axes sim) = [[true; false]; [false; true]].
Proof. eexists. split; [reflexivity|]. repeat split; reflexivity. Qed.

Lemma reflector_kept_witness :
  ∃ sim,
    sample_on_detector sample_reflectors sample_detector sample_rotations
    = (on_detector_output, inr sim)
    ∧ hkl (sim_reflectors sim) = [(1, 0, 1); (0, 1, 1); (0, 0, -1)].
Proof.
  destruct (reflector_kept_iff_upper_somewhere same_frame quaternion_matrix
              matmul3 vecmat3 cross3 keep_indices unique_rows keep_indices
              sample_reflectors sample_detector sample_rotations
              sample_well_shaped)
    as (sim & Hrun & _ & Hrefl & _).
  exists sim. split; [exact Hrun|]. rewrite Hrefl. reflexivity.
Defined.

Lemma zone_axis_kept_witness :
  ∃ sim,
    sample_on_detector sample_reflectors sample_detector sample_rotations
    = (on_detector_output, inr sim)
    ∧ zone_uvw (sim_zone_axes sim) = [(-1, -1, 1); (1, 1, -1)].
Proof.
  destruct (zone_axis_kept_iff_upper_and_within same_frame quaternion_matrix
              matmul3 vecmat3 cross3 keep_indices unique_rows keep_indices
              sample_reflectors sample_detector sample_rotations
              sample_well_shaped)
    as (sim & Hrun & Hzone & _).
  exists sim. split; [exact Hrun|]. rewrite Hzone. reflexivity.
Defined.

Lemma in_pattern_subset_witness :
  ∃ sim,
    sample_on_detector sample_reflectors sample_detector sample_rotations
    = (on_detector_output, inr sim)
    ∧ ∀ p flags,
        line_in_pattern (sim_lines sim) !! p = Some flags →
        ∀ g, g ∈ select flags (hkl (sim_reflectors sim)) →
             g ∈ hkl (sim_reflectors sim).
Proof.
  destruct (in_pattern_subset_of_visible same_frame quaternion_matrix
              matmul3 vecmat3 cross3 keep_indices unique_rows keep_indices
              sample_reflectors sample_detector sample_rotations
              sample_well_shaped)
    as (sim & Hrun & Hlines & _).
  exists sim. split; [exact Hrun|].
  intros p flags Hflags. exact (proj2 (Hlines p flags Hflags)).
Defined.



Example zone_axis_candidates_sample :
  zone_axis_candidates same_frame quaternion_matrix matmul3 vecmat3 cross3
    keep_indices unique_rows sample_reflectors sample_detector
    sample_rotations
  = [(-1, -1, 1); (-0, 1, 0); (1, 1, -1); (-1, 0, 0); (0, -1, 0); (1, -0, 0)].
Proof. reflexivity. Qed.

(** C7. At half size zero the array handed to the signal is not the
    one-by-one square its axes describe: [squeeze] removes the axes of
    the single pixel too. *)
Theorem master_pattern_shape_half_size_0 :
  master_pattern_shape 0 upper = []
  ∧ master_pattern_shape 0 lower = []
  ∧ master_pattern_shape 0 both = [2%nat]
  ∧ ∃ mp,
      sample_master_pattern sample_reflectors 0 upper (Some "linear")
      = ([progress 0%nat], inr mp)
      ∧ mp_shape mp = []
      ∧ mp_data mp = [0]
      ∧ axis_size <$> mp_axes mp = [1%Z; 1%Z].
Proof.
  split; [reflexivity|]. split; [reflexivity|]. split; [reflexivity|].
  eexists. split; [reflexivity|]. repeat split; reflexivity.
Qed.

Example master_pattern_half_size_1 :
  ∃ mp,
    sample_master_pattern sample_reflectors 1 both None
    = ([progress 0%nat; progress 1%nat], inr mp)
    ∧ mp_shape mp = [2%nat; 3%nat; 3%nat]
    ∧ mp_data mp
      = [0; 1.5; 0; 1; 0.5; 1; 0; 1.5; 0; 0; 1.5; 0; 1; 0.5; 1; 0; 1.5; 0].
Proof. eexists. split; [reflexivity|]. split; reflexivity. Qed.

Lemma calculate_master_pattern_rejects_witness :
  sample_master_pattern bare_reflectors 1 both (Some "linear")
  = ([], inl (ValueError no_theta_error))
  ∧ sample_master_pattern angles_only_reflectors 1 both (Some "linear")
    = ([], inl (ValueError no_structure_factor_error))
  ∧ sample_master_pattern sample_reflectors 1 both (Some "cubic")
    = ([], inl (ValueError
                  "Unknown scaling 'cubic', options are 'linear', 'square', or None")).
Proof.
  split; [|split].
  - apply (proj1 (calculate_master_pattern_rejects dot3 arccos_table
             (λ _, one_thread) complex_abs_sqrt repr_plain linspace_steps
             inverse_stereographic unit_rows bare_reflectors 1 both
             (Some "linear")) nan);
      reflexivity.
  - apply (proj1 (proj2 (calculate_master_pattern_rejects dot3 arccos_table
             (λ _, one_thread) complex_abs_sqrt repr_plain linspace_steps
             inverse_stereographic unit_rows angles_only_reflectors 1 both
             (Some "linear")))
             0.015625 (nan, nan));
      reflexivity.
  - apply (proj2 (proj2 (calculate_master_pattern_rejects dot3 arccos_table
             (λ _, one_thread) complex_abs_sqrt repr_plain linspace_steps
             inverse_stereographic unit_rows sample_reflectors 1 both
             (Some "cubic")))
             0.015625 (2, 0) "cubic");
      first [reflexivity | discriminate].
Defined.

Lemma missing_field_checks_witness :
  _raise_if_no_theta sample_reflectors = ret tt
  ∧ _raise_if_no_structure_factor sample_reflectors = ret tt
  ∧ ∃ out, sample_master_pattern bare_reflectors 1 both None
           = (out, inl (ValueError no_theta_error)).
Proof.
  destruct (missing_field_checks_first_reflector dot3 arccos_table
              (λ _, one_thread) complex_abs_sqrt repr_plain linspace_steps
              inverse_stereographic unit_rows sample_reflectors 1 both None)
    as (_ & _ & _ & _ & Htheta & Hfactor).
  destruct (missing_field_checks_first_reflector dot3 arccos_table
              (λ _, one_thread) complex_abs_sqrt repr_plain linspace_steps
              inverse_stereographic unit_rows bare_reflectors 1 both None)
    as (_ & _ & Hfirst & _).
  split; [|split].
  - apply (Htheta 0.015625 [0.015625; 0.015625; nan]); reflexivity.
  - apply (Hfactor (2, 0) [(2, 0); (0, 3); (nan, nan)]); reflexivity.
  - apply Hfirst. exists nan. split; reflexivity.
Defined.


(** ** More on the kernel *)

Section kernel_composition.

Variable vec_dot : V3 → V3 → float.
Variable arccos : float → float.
Variable run : numba_run.

Local Opaque np_pi lit_1e_7.

(** Threads with nothing to do leave the array as it is, whatever the
    schedule. *)
Lemma run_threads_idle intensity theta1 turns threads pattern :
  Forall (λ t, loaded t = None ∧ ahead t = []) threads →
  run_threads vec_dot arccos run intensity theta1 turns threads pattern
  = pattern.
Proof.
  revert threads. induction turns as [|k turns IH]; intros threads Hidle.
  - simpl. induction Hidle as [|t threads [Hloaded Hahead] _ IHt];
      [reflexivity|].
    simpl. unfold thread_finish. rewrite Hloaded, Hahead. exact IHt.
  - simpl. destruct (threads !! k) as [t|] eqn:Hk; [|apply IH; assumption].
    destruct (Forall_lookup_1 _ _ _ _ Hidle Hk) as [Hloaded Hahead].
    unfold thread_step. rewrite Hloaded, Hahead.
    rewrite (list_insert_id _ _ _ Hk). apply IH. assumption.
Qed.

(** X3. Without reflectors every value is zero, whatever the other arrays
    hold; without grid points the pattern is empty. *)
Theorem get_pattern_degenerate intensity xyz_hemi xyz_reflector theta :
  get_pattern vec_dot arccos run intensity xyz_hemi [] theta
  = replicate (length xyz_hemi) 0
  ∧ get_pattern vec_dot arccos run intensity [] xyz_reflector theta = [].
Proof.
  split.
  - unfold get_pattern. apply run_threads_idle.
    apply Forall_fmap, Forall_forall. intros k _. split; reflexivity.
  - apply nil_length_inv. apply length_get_pattern.
Qed.

(** *** One thread

    With one thread and no NaN among the operands of the comparisons
    the kernel is the loop nest as it is written: every reflector gives
    its contribution to every grid point, in the order of the
    reflectors. *)

Lemma passes_app intensity theta1 items1 items2 pattern :
  passes vec_dot arccos run intensity theta1 (items1 ++ items2) pattern
  = passes vec_dot arccos run intensity theta1 items2
      (passes vec_dot arccos run intensity theta1 items1 pattern).
Proof.
  revert pattern. induction items1 as [|[[i r] [j h]] items1 IH];
    intros pattern; [reflexivity|].
  simpl. apply IH.
Qed.

(** The inner loop for one reflector, from grid point [s] on. *)
Lemma passes_row intensity theta1 i r (hemi : list V3) :
  ∀ (s : nat) (pattern : list float) (j : nat),
    (s + length hemi ≤ length pattern)%nat →
    passes vec_dot arccos run intensity theta1
      ((λ jh, ((i, r), jh)) <$> imap (λ j h, ((s + j)%nat, h)) hemi) pattern
    !! j
    = if decide (s ≤ j < s + length hemi)%nat then
        p ← pattern !! j;
        h ← hemi !! (j - s)%nat;
        Some (accumulate p
                (get_pattern_body vec_dot arccos run intensity theta1 i r h))
      else pattern !! j.
Proof.
  induction hemi as [|h0 hemi IH]; intros s pattern j Hlen.
  - simpl. rewrite decide_False by lia. reflexivity.
  - rewrite imap_cons, fmap_cons. cbn [passes]. rewrite Nat.add_0_r.
    rewrite (imap_ext _ (λ j h, ((S s + j)%nat, h)))
      by (intros; simpl; f_equal; lia).
    simpl in Hlen.
    destruct (lookup_lt_is_Some_2 pattern s) as [p0 Hp0]; [lia|].
    set (pattern1 :=
           match get_pattern_body vec_dot arccos run intensity theta1 i r h0
           with
           | Some c => <[s := read run of_pattern pattern s + c]> pattern
           | None => pattern
           end).
    assert (length pattern1 = length pattern) as Hlen1.
    { unfold pattern1. destruct (get_pattern_body _ _ _ _ _ _ _ _);
        [apply length_insert | reflexivity]. }
    assert (∀ k, pattern1 !! k
                 = if decide (k = s)
                   then Some (accumulate p0
                                (get_pattern_body vec_dot arccos run
                                   intensity theta1 i r h0))
                   else pattern !! k) as Hp1.
    { intros k. unfold pattern1, read. rewrite Hp0. simpl.
      destruct (get_pattern_body _ _ _ _ _ _ _ _) as [c|]; simpl.
      - destruct (decide (k = s)) as [->|Hne].
        + apply list_lookup_insert_eq. lia.
        + apply list_lookup_insert_ne. congruence.
      - destruct (decide (k = s)) as [->|Hne]; [assumption | reflexivity]. }
    rewrite IH by lia. rewrite Hp1.
    destruct (decide (j = s)) as [->|Hne].
    + rewrite decide_False by lia. rewrite decide_True by (simpl; lia).
      rewrite Hp0, Nat.sub_diag. reflexivity.
    + destruct (decide (S s ≤ j < S s + length hemi)%nat) as [Hin|Hout].
      * rewrite decide_True by (simpl; lia).
        replace (j - s)%nat with (S (j - S s)) by lia. reflexivity.
      * rewrite decide_False by (simpl; lia). reflexivity.
Qed.

(** The loop nest from reflector [s] on. *)
Lemma passes_nest intensity theta1 (hemi refl : list V3) :
  ∀ (s : nat) (pattern : list float) j h p,
    length pattern = length hemi →
    hemi !! j = Some h → pattern !! j = Some p →
    passes vec_dot arccos run intensity theta1
      (ir ← imap (λ i r, ((s + i)%nat, r)) refl;
       jh ← imap pair hemi;
       [(ir, jh)]) pattern
    !! j
    = Some (foldl (λ p ir,
                     accumulate p
                       (get_pattern_body vec_dot arccos run intensity theta1
                          ir.1 ir.2 h))
              p (imap (λ i r, ((s + i)%nat, r)) refl)).
Proof.
  induction refl as [|r0 refl IH]; intros s pattern j h p Hlen Hh Hp.
  - simpl. assumption.
  - rewrite imap_cons, bind_cons, passes_app. rewrite Nat.add_0_r.
    rewrite (imap_ext ((λ i r, ((s + i)%nat, r)) ∘ S)
               (λ i r, ((S s + i)%nat, r)))
      by (intros; simpl; f_equal; lia).
    assert ((jh ← imap pair hemi; [((s, r0), jh)])
            = (λ jh, ((s, r0), jh)) <$> imap (λ j h, ((0 + j)%nat, h)) hemi)
      as ->.
    { change (imap (λ j h, ((0 + j)%nat, h)) hemi) with (imap pair hemi).
      generalize (imap pair hemi). intros l.
      induction l as [|jh l IHl]; [reflexivity|].
      rewrite bind_cons, fmap_cons, IHl. reflexivity. }
    pose proof (lookup_lt_Some _ _ _ Hh) as Hj.
    apply (IH (S s)).
    + rewrite length_passes. assumption.
    + assumption.
    + rewrite passes_row by (simpl; lia).
      rewrite decide_True by (simpl; lia).
      rewrite Hp, Nat.sub_0_r, Hh. reflexivity.
Qed.

(** Without a NaN operand the loop body gives what the specification
    says. *)
Lemma get_pattern_body_ordered intensity theta i I r t h :
  intensity !! i = Some I →
  theta !! i = Some t →
  PrimFloat.is_nan (vec_dot r h) = false →
  PrimFloat.is_nan (arccos (vec_dot r h)) = false →
  PrimFloat.is_nan (theta2 - t) = false →
  get_pattern_body vec_dot arccos run intensity ((λ t, theta2 - t) <$> theta)
    i r h
  = band_contribution vec_dot arccos I r t h.
Proof.
  intros HI Ht HD Hangle Ht1.
  unfold get_pattern_body, band_contribution, fast_leb, read.
  rewrite list_lookup_fmap, HI, Ht. simpl.
  rewrite is_nan_abs, HD, Hangle, Ht1. simpl.
  change (PrimFloat.is_nan lit_1e_7) with false.
  change (PrimFloat.is_nan theta2) with false.
  change theta2 with (np_pi / 2).
  destruct (PrimFloat.abs (vec_dot r h) <=? lit_1e_7); [reflexivity|].
  destruct (arccos (vec_dot r h) <=? np_pi / 2);
    destruct (np_pi / 2 - t <=? arccos (vec_dot r h)); reflexivity.
Qed.

(** On one thread, with the three reflector arrays of one length and
    no NaN among the dot products, their angles and the band limits,
    the value of every grid point is the sum of the contributions. *)
Lemma get_pattern_on_one_thread intensity xyz_hemi xyz_reflector theta :
  more_threads run = 0%nat →
  schedule run = [] →
  length intensity = length xyz_reflector →
  length theta = length xyz_reflector →
  (∀ r h, r ∈ xyz_reflector → h ∈ xyz_hemi →
          PrimFloat.is_nan (vec_dot r h) = false
          ∧ PrimFloat.is_nan (arccos (vec_dot r h)) = false) →
  (∀ t, t ∈ theta → PrimFloat.is_nan (theta2 - t) = false) →
  ∀ j h, xyz_hemi !! j = Some h →
    get_pattern vec_dot arccos run intensity xyz_hemi xyz_reflector theta
    !! j
    = Some (band_sum vec_dot arccos intensity xyz_reflector theta h).
Proof.
  intros Hone Hturns HlenI HlenT Hdots Hlimits j h Hh.
  unfold get_pattern, passes_of. rewrite Hone, Hturns.
  cbn [seq fmap list_fmap run_threads foldl]. unfold thread_finish.
  cbn [loaded ahead].
  assert (filter (λ ir : nat * V3, (thread_of run ir.1 `mod` 1)%nat = 0%nat)
            (imap pair xyz_reflector)
          = imap (λ i r, ((0 + i)%nat, r)) xyz_reflector) as ->.
  { change (imap (λ i r, ((0 + i)%nat, r)) xyz_reflector)
      with (imap pair xyz_reflector).
    generalize (imap pair xyz_reflector). intros l.
    induction l as [|ir l IHl]; [reflexivity|].
    rewrite filter_cons_True by apply Nat.mod_1_r. rewrite IHl.
    reflexivity. }
  rewrite (passes_nest _ _ _ _ 0 _ j h 0);
    [|apply length_replicate | assumption
     |apply lookup_replicate_2; eapply lookup_lt_Some; eassumption].
  f_equal. unfold band_sum.
  assert (∀ (refl : list V3) (s : nat) (p : float),
            (s + length refl = length xyz_reflector)%nat →
            drop s xyz_reflector = refl →
            foldl (λ p ir,
                     accumulate p
                       (get_pattern_body vec_dot arccos run intensity
                          ((λ t, theta2 - t) <$> theta) ir.1 ir.2 h))
              p (imap (λ i r, ((s + i)%nat, r)) refl)
            = foldl (λ p irt,
                       accumulate p
                         (band_contribution vec_dot arccos irt.1.1 irt.1.2
                            irt.2 h))
                p (zip (zip (drop s intensity) refl) (drop s theta)))
    as Hsum.
  { induction refl as [|r refl IH]; intros s p Hs Hdrop.
    - rewrite zip_with_nil_r. reflexivity.
    - simpl in Hs.
      destruct (lookup_lt_is_Some_2 intensity s) as [I HI]; [lia|].
      destruct (lookup_lt_is_Some_2 theta s) as [t Ht]; [lia|].
      assert (xyz_reflector !! s = Some r) as Hr.
      { rewrite <- (Nat.add_0_r s), <- lookup_drop, Hdrop. reflexivity. }
      rewrite (drop_S intensity I s HI), (drop_S theta t s Ht).
      rewrite imap_cons. cbn [foldl zip zip_with]. rewrite Nat.add_0_r.
      cbn [fst snd].
      rewrite (imap_ext _ (λ i r, ((S s + i)%nat, r)))
        by (intros; simpl; f_equal; lia).
      destruct (Hdots r h) as [HD Hangle].
      { eapply list_elem_of_lookup_2. eassumption. }
      { eapply list_elem_of_lookup_2. eassumption. }
      rewrite (get_pattern_body_ordered _ _ _ I r t h HI Ht HD Hangle)
        by (apply Hlimits; eapply list_elem_of_lookup_2; eassumption).
      apply IH; [lia|].
      rewrite (drop_S xyz_reflector r s Hr) in Hdrop.
      injection Hdrop as Hdrop. exact Hdrop. }
  rewrite (Hsum xyz_reflector 0%nat 0);
    [reflexivity | simpl; lia | reflexivity].
Qed.

End kernel_composition.

(** ** More on masks *)

Lemma select_lookup {A} (mask : list bool) (l : list A) (k : nat) :
  select mask l !! k = nth_true mask k ≫= (l !!.).
Proof.
  revert l k. induction mask as [|b mask IH]; intros l k; [reflexivity|].
  destruct l as [|x l].
  - destruct b; simpl; [destruct k|];
      try destruct (nth_true mask _); reflexivity.
  - destruct b; simpl.
    + destruct k as [|k]; [reflexivity|]. simpl. rewrite IH.
      destruct (nth_true mask k); reflexivity.
    + rewrite IH. destruct (nth_true mask k); reflexivity.
Qed.

Lemma nth_true_Some (mask : list bool) (k i : nat) :
  nth_true mask k = Some i → mask !! i = Some true.
Proof.
  revert k i. induction mask as [|b mask IH]; intros k i; [discriminate|].
  destruct b; simpl.
  - destruct k as [|k]; [intros [= <-]; reflexivity|].
    destruct (nth_true mask k) as [i'|] eqn:Hk; [|discriminate].
    intros [= <-]. simpl. eapply IH. eassumption.
  - destruct (nth_true mask k) as [i'|] eqn:Hk; [|discriminate].
    intros [= <-]. simpl. eapply IH. eassumption.
Qed.

Lemma select_lookup_Some {A} (mask : list bool) (l : list A) (k : nat) (x : A) :
  select mask l !! k = Some x
  ↔ ∃ i, nth_true mask k = Some i ∧ l !! i = Some x.
Proof.
  rewrite select_lookup. destruct (nth_true mask k) as [i|]; simpl.
  - split; [eauto | intros (i' & [= <-] & ?); assumption].
  - split; [discriminate | intros (i' & ? & _); discriminate].
Qed.

Lemma fmap_select {A B} (f : A → B) (mask : list bool) (l : list A) :
  f <$> select mask l = select mask (f <$> l).
Proof.
  revert l. induction mask as [|b mask IH]; intros [|x l]; try reflexivity.
  destruct b; simpl; [f_equal|]; apply IH.
Qed.

Lemma select_all_true {A} (l : list A) :
  select (replicate (length l) true) l = l.
Proof. induction l as [|x l IH]; simpl; [|rewrite IH]; reflexivity. Qed.

Lemma all_true_replicate (l : list bool) :
  (∀ k, (k < length l)%nat → l !! k = Some true) →
  l = replicate (length l) true.
Proof.
  intros Hall. apply list_eq. intros k.
  destruct (decide (k < length l)%nat) as [Hk|Hk].
  - rewrite (Hall k Hk). symmetry. apply lookup_replicate_2. assumption.
  - rewrite !(proj2 (lookup_ge_None _ _)); [reflexivity | |];
      rewrite ?length_replicate; lia.
Qed.

(** ** More on the projector *)

Section projector_more.

Variable detector_to_sample : float → V3 → M33.
Variable to_matrix : quaternion → M33.
Variable matmul : M33 → M33 → M33.
Variable vecmat : V3 → M33 → V3.
Variable cross : Lattice → V3 → V3 → V3.
Variable miller_round : Lattice → V3 → V3.
Variable miller_unique : list V3 → list V3.
Variable miller_uvw : Lattice → V3 → V3.

Local Abbreviation on_detector' :=
  (on_detector detector_to_sample to_matrix matmul vecmat cross miller_round
     miller_unique miller_uvw).
Local Abbreviation hkl_d' :=
  (hkl_d_all detector_to_sample to_matrix matmul vecmat).
Local Abbreviation hkl_mask :=
  (hkl_in_a_pattern detector_to_sample to_matrix matmul vecmat).
Local Abbreviation candidates :=
  (zone_axis_candidates detector_to_sample to_matrix matmul vecmat cross
     miller_round miller_unique).
Local Abbreviation uvw_d' :=
  (uvw_d_all detector_to_sample to_matrix matmul vecmat miller_uvw).

(** The simulation [on_detector] returns, written out. *)
Lemma on_detector_returns self detector rotations :
  well_shaped detector rotations →
  ∃ max_r,
    np_max (r_max detector) = Some max_r
    ∧ let mask := hkl_mask self detector rotations in
      let hkl_d := hkl_d' self detector rotations in
      let uvw_miller := candidates self detector rotations in
      let uvw_d := uvw_d' self detector rotations uvw_miller in
      let uvw_mask := uvw_in_a_pattern detector (length uvw_miller) uvw_d in
      on_detector' self detector rotations
      = (on_detector_output,
         inr {| sim_detector := detector;
                sim_rotations := rotations;
                sim_reflectors := rlv_select mask self;
                sim_lines :=
                  {| line_hkl := select mask (hkl self);
                     hkl_detector := select mask <$> hkl_d;
                     line_in_pattern := select mask <$> is_upper hkl_d;
                     line_max_r_gnomonic := max_r |};
                sim_zone_axes :=
                  {| zone_uvw := select uvw_mask uvw_miller;
                     uvw_detector := select uvw_mask <$> uvw_d;
                     zone_in_pattern := select uvw_mask <$> is_upper uvw_d;
                     zone_max_r_gnomonic := max_r |} |}).
Proof.
  intros (Hshape & Hndim & Hr).
  destruct (np_max (r_max detector)) as [max_r|] eqn:Hmax;
    [|destruct (r_max detector); [contradiction | discriminate]].
  exists max_r. split; [reflexivity|]. cbv zeta.
  unfold on_detector.
  rewrite (proj2 (andb_false_iff _ _)).
  2:{ destruct Hshape as [H1|H2]; [left | right];
      apply bool_decide_eq_false_2; auto. }
  rewrite bool_decide_eq_true_2 by assumption.
  rewrite Hmax. reflexivity.
Qed.

Lemma length_hkl_d self detector rotations :
  length (hkl_d' self detector rotations) = length (rot_data rotations).
Proof. unfold hkl_d_all, u_os. rewrite !length_fmap. reflexivity. Qed.

Lemma length_uvw_d self detector rotations uvw_miller :
  length (uvw_d' self detector rotations uvw_miller)
  = length (rot_data rotations).
Proof. unfold uvw_d_all, u_os. rewrite !length_fmap. reflexivity. Qed.

Lemma hkl_d_row self detector rotations p row :
  hkl_d' self detector rotations !! p = Some row →
  length row = length (hkl self).
Proof.
  unfold hkl_d_all. intros (os & -> & _)%list_lookup_fmap_Some.
  apply length_fmap.
Qed.

Lemma uvw_d_row self detector rotations uvw_miller p row :
  uvw_d' self detector rotations uvw_miller !! p = Some row →
  length row = length uvw_miller.
Proof.
  unfold uvw_d_all. intros (os & -> & _)%list_lookup_fmap_Some.
  apply length_fmap.
Qed.

(** X4. The arrays of a simulation fit together: one row per orientation,
    and in every row one entry per visible reflector, respectively per
    visible zone axis. *)
Theorem on_detector_shapes self detector rotations :
  well_shaped detector rotations →
  ∃ sim,
    on_detector' self detector rotations = (on_detector_output, inr sim)
    ∧ length (hkl_detector (sim_lines sim)) = length (rot_data rotations)
    ∧ length (line_in_pattern (sim_lines sim)) = length (rot_data rotations)
    ∧ length (uvw_detector (sim_zone_axes sim)) = length (rot_data rotations)
    ∧ length (zone_in_pattern (sim_zone_axes sim))
      = length (rot_data rotations)
    ∧ (∀ p row, hkl_detector (sim_lines sim) !! p = Some row →
                length row = length (line_hkl (sim_lines sim)))
    ∧ (∀ p flags, line_in_pattern (sim_lines sim) !! p = Some flags →
                  length flags = length (line_hkl (sim_lines sim)))
    ∧ (∀ p row, uvw_detector (sim_zone_axes sim) !! p = Some row →
                length row = length (zone_uvw (sim_zone_axes sim)))
    ∧ (∀ p flags, zone_in_pattern (sim_zone_axes sim) !! p = Some flags →
                  length flags = length (zone_uvw (sim_zone_axes sim))).
Proof.
  intros Hwf.
  destruct (on_detector_returns self detector rotations Hwf)
    as (max_r & _ & Hrun). cbv zeta in Hrun.
  eexists. split; [exact Hrun|]. simpl.
  unfold is_upper. rewrite !length_fmap, length_hkl_d, length_uvw_d.
  repeat (split; [reflexivity|]).
  split; [|split; [|split]].
  - intros p row (row0 & -> & Hrow)%list_lookup_fmap_Some.
    apply length_select. eapply hkl_d_row; eassumption.
  - intros p flags (f0 & -> & (row & -> & Hrow)%list_lookup_fmap_Some)
                     %list_lookup_fmap_Some.
    apply length_select. rewrite length_fmap. eapply hkl_d_row; eassumption.
  - intros p row (row0 & -> & Hrow)%list_lookup_fmap_Some.
    apply length_select. eapply uvw_d_row; eassumption.
  - intros p flags (f0 & -> & (row & -> & Hrow)%list_lookup_fmap_Some)
                     %list_lookup_fmap_Some.
    apply length_select. rewrite length_fmap. eapply uvw_d_row; eassumption.
Qed.

(** X5. Nothing is stored that is never seen: every visible reflector has
    its in-pattern flag set, with a positive z in the detector frame,
    at some orientation, and so has every visible zone axis. *)
Theorem stored_features_seen_somewhere self detector rotations :
  well_shaped detector rotations →
  ∃ sim,
    on_detector' self detector rotations = (on_detector_output, inr sim)
    ∧ (∀ k g,
         line_hkl (sim_lines sim) !! k = Some g →
         ∃ p flags row v,
           line_in_pattern (sim_lines sim) !! p = Some flags
           ∧ flags !! k = Some true
           ∧ hkl_detector (sim_lines sim) !! p = Some row
           ∧ row !! k = Some v
           ∧ gtb (vz v) 0 = true)
    ∧ (∀ k m,
         zone_uvw (sim_zone_axes sim) !! k = Some m →
         ∃ p flags row v,
           zone_in_pattern (sim_zone_axes sim) !! p = Some flags
           ∧ flags !! k = Some true
           ∧ uvw_detector (sim_zone_axes sim) !! p = Some row
           ∧ row !! k = Some v
           ∧ gtb (vz v) 0 = true).
Proof.
  intros Hwf.
  destruct (on_detector_returns self detector rotations Hwf)
    as (max_r & _ & Hrun). cbv zeta in Hrun.
  eexists. split; [exact Hrun|]. simpl. split.
  - intros k g (i & Hk & Hi)%select_lookup_Some.
    pose proof (nth_true_Some _ _ _ Hk) as Hmask.
    apply (hkl_mask_spec detector_to_sample to_matrix matmul vecmat) in Hmask
      as (p & row & v & Hrow & Hv & Hup).
    exists p, (select (hkl_mask self detector rotations)
                 ((λ v, gtb (vz v) 0) <$> row)),
      (select (hkl_mask self detector rotations) row), v.
    unfold is_upper. rewrite !list_lookup_fmap, Hrow. simpl.
    split; [reflexivity|].
    split; [apply select_lookup_Some; exists i; split; [assumption|];
            rewrite list_lookup_fmap, Hv; simpl; congruence|].
    split; [reflexivity|].
    split; [apply select_lookup_Some; eauto | assumption].
  - intros k m (i & Hk & Hi)%select_lookup_Some.
    pose proof (nth_true_Some _ _ _ Hk) as Hmask.
    apply (proj1 (uvw_in_a_pattern_spec detector_to_sample matmul vecmat
                    miller_unique detector _ _ i
                    (uvw_d_row self detector rotations _))) in Hmask
      as [(p & row & v & Hrow & Hv & Hup) _].
    exists p,
      (select (uvw_in_a_pattern detector
                 (length (candidates self detector rotations))
                 (uvw_d' self detector rotations
                    (candidates self detector rotations)))
         ((λ v, gtb (vz v) 0) <$> row)),
      (select (uvw_in_a_pattern detector
                 (length (candidates self detector rotations))
                 (uvw_d' self detector rotations
                    (candidates self detector rotations))) row), v.
    unfold is_upper. rewrite !list_lookup_fmap, Hrow. simpl.
    split; [reflexivity|].
    split; [apply select_lookup_Some; exists i; split; [assumption|];
            rewrite list_lookup_fmap, Hv; simpl; congruence|].
    split; [reflexivity|].
    split; [apply select_lookup_Some; eauto | assumption].
Qed.

(** X6. The visible reflectors keep their own Bragg angle and structure
    factor: entry [k] of each of the three filtered arrays comes from
    one and the same reflector of the simulator. *)
Theorem visible_reflectors_aligned self detector rotations :
  well_shaped detector rotations →
  ∃ sim,
    on_detector' self detector rotations = (on_detector_output, inr sim)
    ∧ lattice (sim_reflectors sim) = lattice self
    ∧ ∀ k g,
        hkl (sim_reflectors sim) !! k = Some g →
        ∃ i, hkl self !! i = Some g
             ∧ hkl_mask self detector rotations !! i = Some true
             ∧ theta (sim_reflectors sim) !! k = theta self !! i
             ∧ structure_factor (sim_reflectors sim) !! k
               = structure_factor self !! i.
Proof.
  intros Hwf.
  destruct (on_detector_returns self detector rotations Hwf)
    as (max_r & _ & Hrun). cbv zeta in Hrun.
  eexists. split; [exact Hrun|]. simpl. split; [reflexivity|].
  intros k g (i & Hk & Hi)%select_lookup_Some.
  exists i. split; [assumption|].
  split; [eapply nth_true_Some; eassumption|].
  rewrite !select_lookup, Hk. split; reflexivity.
Qed.

(** X7. The reflector mask sees the rotations only as a set: when every
    orientation of one batch occurs in another, every reflector kept
    with the first is kept with the second. *)
Theorem more_rotations_keep_reflectors self detector rotations rotations' :
  well_shaped detector rotations →
  well_shaped detector rotations' →
  (∀ q, q ∈ rot_data rotations → q ∈ rot_data rotations') →
  ∃ sim sim',
    on_detector' self detector rotations = (on_detector_output, inr sim)
    ∧ on_detector' self detector rotations' = (on_detector_output, inr sim')
    ∧ (∀ i, hkl_mask self detector rotations !! i = Some true →
            hkl_mask self detector rotations' !! i = Some true)
    ∧ ∀ g, g ∈ hkl (sim_reflectors sim) → g ∈ hkl (sim_reflectors sim').
Proof.
  intros Hwf Hwf' Hsub.
  destruct (on_detector_returns self detector rotations Hwf)
    as (max_r & _ & Hrun).
  destruct (on_detector_returns self detector rotations' Hwf')
    as (max_r' & _ & Hrun').
  cbv zeta in Hrun, Hrun'.
  assert (∀ i, hkl_mask self detector rotations !! i = Some true →
               hkl_mask self detector rotations' !! i = Some true) as Hmask.
  { intros i.
    rewrite !(hkl_mask_spec detector_to_sample to_matrix matmul vecmat).
    intros (p & row & v & Hrow & Hv & Hup).
    unfold hkl_d_all, u_os in Hrow.
    rewrite <- list_fmap_compose in Hrow.
    apply list_lookup_fmap_Some in Hrow as (q & -> & Hq).
    assert (q ∈ rot_data rotations') as [p' Hp']%list_elem_of_lookup
      by (apply Hsub, list_elem_of_lookup; eauto).
    exists p'. eexists. exists v. split; [|split; eassumption].
    unfold hkl_d_all, u_os. rewrite <- list_fmap_compose.
    rewrite list_lookup_fmap, Hp'. reflexivity. }
  eexists. eexists. split; [exact Hrun|]. split; [exact Hrun'|].
  split; [exact Hmask|]. simpl.
  intros g (i & Hi & Hm)%elem_of_select.
  apply elem_of_select. eauto.
Qed.

(** X8. Without a single orientation nothing is visible. *)
Theorem no_rotations_nothing_visible self detector rotations :
  well_shaped detector rotations →
  rot_data rotations = [] →
  ∃ sim,
    on_detector' self detector rotations = (on_detector_output, inr sim)
    ∧ hkl (sim_reflectors sim) = []
    ∧ hkl_detector (sim_lines sim) = []
    ∧ line_in_pattern (sim_lines sim) = []
    ∧ zone_uvw (sim_zone_axes sim) = []
    ∧ uvw_detector (sim_zone_axes sim) = []
    ∧ zone_in_pattern (sim_zone_axes sim) = [].
Proof.
  intros Hwf Hnone.
  destruct (on_detector_returns self detector rotations Hwf)
    as (max_r & _ & Hrun). cbv zeta in Hrun.
  eexists. split; [exact Hrun|]. simpl.
  assert (hkl_d' self detector rotations = []) as Hd
    by (unfold hkl_d_all, u_os; rewrite Hnone; reflexivity).
  assert (∀ uvw_miller, uvw_d' self detector rotations uvw_miller = []) as Hu
    by (intros; unfold uvw_d_all, u_os; rewrite Hnone; reflexivity).
  rewrite Hd, !Hu. simpl.
  split; [|split; [reflexivity|split; [reflexivity|split;
    [|split; reflexivity]]]].
  - apply elem_of_nil_inv. intros g (i & _ & Hm)%elem_of_select.
    apply (hkl_mask_spec detector_to_sample to_matrix matmul vecmat) in Hm
      as (p & row & v & Hrow & _).
    rewrite Hd in Hrow. discriminate.
  - apply elem_of_nil_inv. intros m (k & _ & Hm)%elem_of_select.
    assert (∀ p (row : list V3),
              @nil (list V3) !! p = Some row →
              length row = length (candidates self detector rotations))
      as Hrows by (intros p row Hrow; discriminate).
    apply (proj1 (uvw_in_a_pattern_spec detector_to_sample matmul vecmat
                    miller_unique detector _ _ k Hrows)) in Hm
      as [(p & row & v & Hrow & _) _].
    discriminate.
Qed.

Lemma fmap_id_on {A} (f : A → A) (l : list A) :
  (∀ x, x ∈ l → f x = x) → f <$> l = l.
Proof.
  induction l as [|x l IH]; intros Hf; [reflexivity|].
  rewrite fmap_cons, (Hf x) by apply list_elem_of_here.
  rewrite IH; [reflexivity|].
  intros y Hy. apply Hf, list_elem_of_further, Hy.
Qed.

(** The detector-frame directions of filtered reflectors are the
    filtered directions. *)
Lemma hkl_d_select self detector rotations mask :
  hkl_d' (rlv_select mask self) detector rotations
  = (select mask <$> hkl_d' self detector rotations).
Proof.
  unfold hkl_d_all. simpl. rewrite <- list_fmap_compose.
  apply list_fmap_ext. intros p os _. simpl. apply fmap_select.
Qed.

(** Among the visible reflectors every one is visible. *)
Lemma hkl_mask_select self detector rotations :
  let mask := hkl_mask self detector rotations in
  hkl_mask (rlv_select mask self) detector rotations
  = replicate (length (select mask (hkl self))) true.
Proof.
  intros mask.
  set (mask' := hkl_mask (rlv_select mask self) detector rotations).
  assert (length mask' = length (select mask (hkl self))) as Hlen
    by apply length_in_a_pattern.
  rewrite <- Hlen. apply all_true_replicate. intros k Hk.
  unfold mask', hkl_in_a_pattern. apply in_a_pattern_spec.
  split; [simpl; lia|].
  destruct (lookup_lt_is_Some_2 (select mask (hkl self)) k) as [g Hg]; [lia|].
  apply select_lookup_Some in Hg as (i & Hi & Hg).
  pose proof (nth_true_Some _ _ _ Hi) as Hmask.
  apply (hkl_mask_spec detector_to_sample to_matrix matmul vecmat) in Hmask
    as (p & row & v & Hrow & Hv & Hup).
  exists p, ((λ v, gtb (vz v) 0) <$> select mask row).
  rewrite hkl_d_select. unfold is_upper.
  rewrite !list_lookup_fmap, Hrow. simpl. split; [reflexivity|].
  rewrite (proj2 (select_lookup_Some mask row k v)) by eauto.
  simpl. congruence.
Qed.

(** X9. Projecting once more with the visible reflectors in place of the
    full set gives the same lines and the same zone axes: the filter
    has nothing left to remove. *)
Theorem on_detector_again self detector rotations :
  well_shaped detector rotations →
  ∃ sim sim',
    on_detector' self detector rotations = (on_detector_output, inr sim)
    ∧ on_detector' (sim_reflectors sim) detector rotations
      = (on_detector_output, inr sim')
    ∧ hkl (sim_reflectors sim') = hkl (sim_reflectors sim)
    ∧ sim_lines sim' = sim_lines sim
    ∧ sim_zone_axes sim' = sim_zone_axes sim.
Proof.
  intros Hwf.
  destruct (on_detector_returns self detector rotations Hwf)
    as (max_r & Hmax & Hrun). cbv zeta in Hrun.
  destruct (on_detector_returns
              (rlv_select (hkl_mask self detector rotations) self)
              detector rotations Hwf)
    as (max_r' & Hmax' & Hrun'). cbv zeta in Hrun'.
  assert (max_r' = max_r) as -> by congruence.
  eexists. eexists. split; [exact Hrun|]. split; [exact Hrun'|].
  set (mask := hkl_mask self detector rotations).
  assert (hkl_mask (rlv_select mask self) detector rotations
          = replicate (length (select mask (hkl self))) true) as Hmask'
    by apply hkl_mask_select.
  assert (∀ row, row ∈ hkl_d' self detector rotations →
                 length row = length (hkl self)) as Hrows.
  { intros row [p Hp]%list_elem_of_lookup. eapply hkl_d_row; eassumption. }
  assert (candidates (rlv_select mask self) detector rotations
          = candidates self detector rotations) as Hcand.
  { unfold zone_axis_candidates. fold mask. rewrite Hmask'. simpl.
    rewrite select_all_true. reflexivity. }
  simpl. rewrite Hcand. fold mask. rewrite Hmask'.
  split; [apply select_all_true|]. split.
  - f_equal.
    + apply select_all_true.
    + rewrite hkl_d_select. apply fmap_id_on.
      intros row' (row & -> & Hrow)%list_elem_of_fmap.
      rewrite (length_select mask (hkl self) row)
        by (symmetry; apply Hrows; assumption).
      apply select_all_true.
    + rewrite hkl_d_select. unfold is_upper.
      rewrite <- !list_fmap_compose. apply list_fmap_ext.
      intros p row Hrow. simpl. rewrite fmap_select.
      rewrite (length_select mask (hkl self) ((λ v, gtb (vz v) 0) <$> row)).
      * apply select_all_true.
      * rewrite length_fmap. symmetry. apply Hrows.
        apply list_elem_of_lookup. eauto.
  - reflexivity.
Qed.

End projector_more.

(** ** More on the master pattern driver *)

Lemma shape_size_squeeze (shape : list nat) :
  shape_size (squeeze shape) = shape_size shape.
Proof.
  unfold squeeze, shape_size.
  induction shape as [|d shape IH]; [reflexivity|].
  rewrite filter_cons. case_decide as Hd; simpl; rewrite IH.
  - reflexivity.
  - assert (d = 1%nat) as -> by lia. lia.
Qed.

Lemma length_mjoin_rows {A} (rows : list (list A)) (n : nat) :
  Forall (λ row, length row = n) rows →
  length (mjoin rows) = (length rows * n)%nat.
Proof.
  induction 1 as [|row rows Hrow _ IH]; [reflexivity|].
  simpl. rewrite length_app, IH, Hrow. reflexivity.
Qed.

Lemma length_bind_replicate {A} (l : list A) (n : nat) :
  length (y ← l; replicate n y) = (length l * n)%nat.
Proof.
  induction l as [|y l IH]; [reflexivity|].
  rewrite bind_cons, length_app, length_replicate, IH. reflexivity.
Qed.

Lemma length_linspace_steps (start stop : float) (num : nat) :
  length (linspace_steps start stop num) = num.
Proof.
  destruct num as [|[|div]]; [reflexivity | reflexivity |].
  unfold linspace_steps.
  rewrite length_app, length_fmap, length_seq. simpl. lia.
Qed.

Section master_pattern_more.

Variable vec_dot : V3 → V3 → float.
Variable arccos : float → float.
Variable run : nat → numba_run.
Variable complex_abs : complex → float.
Variable repr : string → string.
Variable np_linspace : float → float → nat → list float.
Variable xy2vector : Z → float → float → V3.
Variable unit_data : ReciprocalLatticeVector → list V3.

Local Abbreviation master_pattern :=
  (calculate_master_pattern vec_dot arccos run complex_abs repr np_linspace
     xy2vector unit_data).
Local Abbreviation rows_of := (pattern_rows vec_dot arccos run xy2vector).

(** When the loop over the poles ends, it has advanced the progress bar
    once per pole and filled one row of the expected length per pole. *)
Lemma pattern_rows_returns poles i X Y n intensity xyz_reflector theta_r
    out rows :
  rows_of i poles X Y n intensity xyz_reflector theta_r = (out, inr rows) →
  out = progress <$> seq i (length poles)
  ∧ length rows = length poles
  ∧ Forall (λ row, length row = n) rows.
Proof.
  revert i out rows.
  induction poles as [|pole poles IH]; intros i out rows; simpl.
  - intros [= <- <-]. auto.
  - case_bool_decide as Hrow; simpl; [|discriminate].
    destruct (rows_of (S i) poles X Y n intensity xyz_reflector theta_r)
      as [out' [e'|rows']] eqn:Hrest; simpl; [discriminate|].
    intros [= <- <-].
    destruct (IH _ _ _ Hrest) as (-> & Hlen & Hall).
    rewrite app_nil_r. simpl. split; [reflexivity|].
    split; [congruence|]. constructor; assumption.
Qed.

(** The loop over the poles ends, however the kernel runs. *)
Lemma pattern_rows_total poles i X Y intensity xyz_reflector theta_r :
  ∃ rows,
    rows_of i poles X Y (length (zip_with (xy2vector 0) X Y)) intensity
      xyz_reflector theta_r
    = (progress <$> seq i (length poles), inr rows).
Proof.
  revert i. induction poles as [|pole poles IH]; intros i; simpl.
  - exists []. reflexivity.
  - rewrite bool_decide_eq_true_2
      by (rewrite length_get_pattern, !length_zip_with; reflexivity).
    destruct (IH (S i)) as [rows ->]. simpl.
    rewrite app_nil_r. eauto.
Qed.

(** X10. A master pattern that is returned has as many values as its shape
    says, [n_poles * size * size], and the progress bar has advanced
    once per pole. *)
Theorem calculate_master_pattern_data self half_size hemisphere scaling out mp :
  master_pattern self half_size hemisphere scaling = (out, inr mp) →
  let size := Z.to_nat (2 * half_size + 1) in
  let n_poles := length (poles_from_hemisphere hemisphere) in
  (0 ≤ half_size)%Z
  ∧ out = progress <$> seq 0 n_poles
  ∧ length (mp_data mp) = (n_poles * (size * size))%nat
  ∧ shape_size (mp_shape mp) = length (mp_data mp).
Proof.
  unfold calculate_master_pattern.
  destruct (_raise_if_no_theta self) as [o1 [e1|[]]] eqn:H1; simpl;
    [discriminate|].
  destruct (_raise_if_no_structure_factor self) as [o2 [e2|[]]] eqn:H2; simpl;
    [discriminate|].
  destruct (scaled_intensity complex_abs repr self scaling)
    as [o3 [e3|intensity]] eqn:H3; simpl; [discriminate|].
  destruct (2 * half_size + 1 <? 0)%Z eqn:Hsize; simpl; [discriminate|].
  destruct (rows_of _ _ _ _ _ _ _ _) as [o4 [e4|rows]] eqn:Hrows; simpl;
    [discriminate|].
  intros [= <- <-]. cbv zeta. simpl.
  apply Z.ltb_ge in Hsize.
  apply pattern_rows_returns in Hrows as (-> & Hlen & Hall).
  assert (o1 = []) as ->.
  { unfold _raise_if_no_theta in H1.
    destruct (theta self !! 0%nat) as [t|]; [|discriminate].
    destruct (np_isnan t); [discriminate | injection H1 as <-; reflexivity]. }
  assert (o2 = []) as ->.
  { unfold _raise_if_no_structure_factor in H2.
    destruct (structure_factor self !! 0%nat) as [f|]; [|discriminate].
    destruct (np_isnan_complex f);
      [discriminate | injection H2 as <-; reflexivity]. }
  assert (o3 = []) as ->.
  { unfold scaled_intensity in H3. destruct scaling as [s|].
    - destruct (decide (s = "linear")); [injection H3 as <- _; reflexivity|].
      destruct (decide (s = "square")); [injection H3 as <- _; reflexivity|].
      discriminate.
    - injection H3 as <- _. reflexivity. }
  rewrite (length_mjoin_rows rows _ Hall), Hlen.
  split; [lia|]. split; [simpl; apply app_nil_r|]. split; [reflexivity|].
  unfold master_pattern_shape. rewrite shape_size_squeeze.
  unfold reshape_m1, shape_size. simpl.
  set (size := Z.to_nat (2 * half_size + 1)).
  assert (size * size ≠ 0)%nat by (unfold size; nia).
  rewrite Nat.div_mul by assumption. lia.
Qed.

(** X11. An empty reflector set is refused with an [IndexError] by the first
    check that reads it, whatever the other arguments are. *)
Theorem calculate_master_pattern_empty self half_size hemisphere scaling :
  (theta self = [] →
   master_pattern self half_size hemisphere scaling
   = ([], inl (IndexError index_0_error)))
  ∧ (∀ t, theta self !! 0%nat = Some t → np_isnan t = false →
          structure_factor self = [] →
          master_pattern self half_size hemisphere scaling
          = ([], inl (IndexError index_0_error))).
Proof.
  split.
  - intros Hempty. unfold calculate_master_pattern, _raise_if_no_theta.
    rewrite Hempty. reflexivity.
  - intros t Ht Hnan Hempty.
    unfold calculate_master_pattern, _raise_if_no_theta,
      _raise_if_no_structure_factor.
    rewrite Ht, Hnan, Hempty. reflexivity.
Qed.

(** X12. With Bragg angles and structure factors for every reflector, a
    valid scaling and a non-negative half size, a master pattern is
    returned. *)
Theorem calculate_master_pattern_returns self half_size hemisphere scaling t f :
  (∀ start stop num, length (np_linspace start stop num) = num) →
  theta self !! 0%nat = Some t → np_isnan t = false →
  structure_factor self !! 0%nat = Some f → np_isnan_complex f = false →
  scaling = None ∨ scaling = Some "linear" ∨ scaling = Some "square" →
  (0 ≤ half_size)%Z →
  length (theta self) = length (unit_data self) →
  length (structure_factor self) = length (unit_data self) →
  length (hkl self) = length (unit_data self) →
  ∃ mp,
    master_pattern self half_size hemisphere scaling
    = (progress <$> seq 0 (length (poles_from_hemisphere hemisphere)), inr mp)
    ∧ mp_shape mp = master_pattern_shape half_size hemisphere
    ∧ mp_hemisphere mp = hemisphere
    ∧ mp_projection mp = "stereographic".
Proof.
  intros Hlin Ht Hnan Hf Hfnan Hscaling Hsize HlenT HlenF HlenH.
  unfold calculate_master_pattern, _raise_if_no_theta,
    _raise_if_no_structure_factor.
  rewrite Ht, Hnan, Hf, Hfnan. rewrite !bind_ret.
  assert (∃ intensity,
            scaled_intensity complex_abs repr self scaling = ret intensity
            ∧ length intensity = length (unit_data self))
    as (intensity & -> & HlenI).
  { unfold scaled_intensity.
    destruct Hscaling as [->|[->| ->]]; simpl; eexists; (split; [reflexivity|]);
      rewrite ?length_fmap, ?length_replicate; assumption. }
  rewrite bind_ret.
  rewrite (proj2 (Z.ltb_ge _ _)) by lia.
  set (size := Z.to_nat (2 * half_size + 1)).
  set (arr := np_linspace (-1) 1 size).
  set (X := mjoin (replicate (length arr) arr)).
  set (Y := y ← arr; replicate (length arr) y).
  assert (length arr = size) as Harr by apply Hlin.
  assert (length X = (size * size)%nat) as HX.
  { unfold X. rewrite (length_mjoin_rows _ (length arr)).
    - rewrite length_replicate, Harr. reflexivity.
    - apply Forall_replicate. reflexivity. }
  assert (length Y = (size * size)%nat) as HY.
  { unfold Y. rewrite length_bind_replicate, Harr. reflexivity. }
  assert ((size * size)%nat = length (zip_with (xy2vector 0) X Y)) as ->
    by (rewrite length_zip_with; lia).
  destruct (pattern_rows_total (poles_from_hemisphere hemisphere) 0 X Y
              intensity (unit_data self) (theta self))
    as [rows ->].
  simpl. rewrite app_nil_r. eexists. split; [reflexivity|].
  repeat split; reflexivity.
Qed.

End master_pattern_more.

(** ** Plotting *)

Section plotting_facts.

Variable Figure : Type.
Variable pyvista_version : option string.
Variable pyvista_importable : bool.
Variable complex_abs : complex → float.
Variable np_argsort : list float → list nat.
Variable phase_color_rgb : ReciprocalLatticeVector → V3.
Variable to_rgb : string → exn + V3.
Variable draw_circle : draw_circle_call Figure → plot_exn + option Figure.
Variable vector_unit : ReciprocalLatticeVector → list V3.
Variable get_circle : list V3 → option (list float) → nat → list (list V3).
Variable at_radius_1_01 : V3 → V3.
Variable new_figure : Figure.
Variable new_plotter : Figure.

Local Abbreviation plot' :=
  (plot Figure pyvista_version pyvista_importable complex_abs np_argsort
     phase_color_rgb to_rgb draw_circle vector_unit get_circle at_radius_1_01
     new_figure new_plotter).
Local Abbreviation spherical :=
  (_plot_spherical Figure pyvista_importable vector_unit get_circle
     at_radius_1_01 new_figure new_plotter).

Lemma gbind_gret {A B} (a : A) (k : A → G Figure B) :
  gbind Figure (gret Figure a) k = k a.
Proof. unfold gbind, gret. destruct (k a). reflexivity. Qed.

Lemma gbind_graise {A B} (e : plot_exn) (k : A → G Figure B) :
  gbind Figure (graise Figure e) k = graise Figure e.
Proof. reflexivity. Qed.

(** A step that calls nothing passes its value on, or ends the
    computation with nothing called. *)
Lemma gbind_quiet {A B} (m : G Figure A) (k : A → G Figure B) out r :
  m.1 = [] →
  gbind Figure m k = (out, r) →
  (∃ a, m = ([], inr a) ∧ k a = (out, r))
  ∨ (∃ e, m = ([], inl e) ∧ out = [] ∧ r = inl e).
Proof.
  destruct m as [o [e|a]]; simpl; intros ->.
  - intros [= <- <-]. right. eauto.
  - destruct (k a) as [o' r'] eqn:Hk. simpl. intros [= <- <-]. left. eauto.
Qed.

Lemma pyvista_guard projection backend :
  ¬ (projection = Some "spherical" ∧ backend = "pyvista"
     ∧ pyvista_version = None) →
  bool_decide (projection = Some "spherical")
  && bool_decide (backend = "pyvista")
  && bool_decide (pyvista_version = None) = false.
Proof.
  intros Hguard.
  destruct (decide (projection = Some "spherical")) as [Hp|Hp];
    [|rewrite (bool_decide_eq_false_2 _ Hp); reflexivity].
  destruct (decide (backend = "pyvista")) as [Hb|Hb];
    [|rewrite (bool_decide_eq_false_2 _ Hb), andb_false_r; reflexivity].
  rewrite (bool_decide_eq_false_2 (pyvista_version = None)) by tauto.
  apply andb_false_r.
Qed.

(** X13. The checks of [plot] in their order: the first one that fails
    decides the exception, whatever the later arguments are, and
    nothing has been drawn. *)
Theorem plot_checks_in_order self projection mode hemisphere scaling figure
    return_figure backend show_plotter color kwargs :
  let result :=
    plot' self projection mode hemisphere scaling figure return_figure
      backend show_plotter color kwargs in
  let no_pyvista :=
    projection = Some "spherical" ∧ backend = "pyvista"
    ∧ pyvista_version = None in
  (no_pyvista → result = ([], inl (ImportError "PyVista is not installed")))
  ∧ (¬ no_pyvista → mode ≠ Some "lines" → mode ≠ Some "bands" →
     result = ([], inl (plot_raised (ValueError unknown_mode_error))))
  ∧ (¬ no_pyvista → mode = Some "bands" →
     ∀ t, theta self !! 0%nat = Some t → np_isnan t = true →
          result = ([], inl (plot_raised (ValueError bands_need_theta_error))))
  ∧ (¬ no_pyvista →
     mode = Some "lines"
     ∨ (mode = Some "bands"
        ∧ ∃ t, theta self !! 0%nat = Some t ∧ np_isnan t = false) →
     ∀ s, scaling = Some s → s ≠ "linear" → s ≠ "square" →
          result
          = ([], inl (plot_raised (ValueError plot_unknown_scaling_error)))).
Proof.
  cbv zeta. unfold plot, plot_prepare.
  split; [|split; [|split]].
  - intros (-> & -> & ->). reflexivity.
  - intros Hguard Hlines Hbands.
    rewrite (pyvista_guard _ _ Hguard), gbind_gret.
    rewrite bool_decide_eq_false_2 by tauto. reflexivity.
  - intros Hguard -> t Ht Hnan.
    rewrite (pyvista_guard _ _ Hguard), gbind_gret.
    rewrite bool_decide_eq_true_2 by auto. rewrite gbind_gret.
    rewrite bool_decide_eq_true_2 by reflexivity.
    rewrite Ht, Hnan. reflexivity.
  - intros Hguard Hmode s -> Hlin Hsq.
    rewrite (pyvista_guard _ _ Hguard), gbind_gret.
    rewrite bool_decide_eq_true_2 by (destruct Hmode as [?|[? _]]; auto).
    rewrite gbind_gret.
    destruct Hmode as [->|[-> (t & Ht & Hnan)]].
    + rewrite bool_decide_eq_false_2 by discriminate.
      rewrite gbind_gret. rewrite !decide_False by assumption. reflexivity.
    + rewrite bool_decide_eq_true_2 by reflexivity.
      rewrite Ht, Hnan, gbind_gret.
      rewrite !decide_False by assumption. reflexivity.
Qed.

Lemma gbind_fst_quiet {A B} (m : G Figure A) (k : A → G Figure B) :
  m.1 = [] → (∀ a, (k a).1 = []) → (gbind Figure m k).1 = [].
Proof.
  destruct m as [o [e|a]]; simpl; intros ->; [reflexivity|].
  intros Hk. specialize (Hk a). destruct (k a). simpl in *. assumption.
Qed.

(** Up to the sorting of the reflectors [plot] calls nothing. *)
Lemma plot_prepare_quiet self projection mode scaling backend color :
  (plot_prepare Figure pyvista_version complex_abs np_argsort phase_color_rgb
     to_rgb self projection mode scaling backend color).1 = [].
Proof.
  unfold plot_prepare.
  apply gbind_fst_quiet; [case_match; reflexivity|]. intros _.
  apply gbind_fst_quiet; [case_match; reflexivity|]. intros _.
  apply gbind_fst_quiet; [repeat case_match; reflexivity|]. intros _.
  apply gbind_fst_quiet; [repeat case_match; reflexivity|].
  intros [[intensity order] scaling_title].
  apply gbind_fst_quiet; [repeat case_match; reflexivity|]. intros color_rgb.
  apply gbind_fst_quiet; [repeat case_match; reflexivity|]. intros scaled.
  apply gbind_fst_quiet; [repeat case_match; reflexivity|]. intros color_rgba.
  apply gbind_fst_quiet; [unfold gindex; case_match; reflexivity|]. intros ref.
  apply gbind_fst_quiet; [unfold gindex; case_match; reflexivity|]. intros c.
  reflexivity.
Qed.

(** X14. An unknown projection is found out last: the exception is that of
    an earlier step if one fails, else the "unknown projection" error;
    in either case [plot] returns nothing and has drawn nothing. *)
Theorem plot_unknown_projection self projection mode hemisphere scaling figure
    return_figure backend show_plotter color kwargs :
  projection ≠ Some "stereographic" →
  projection ≠ Some "spherical" →
  plot' self projection mode hemisphere scaling figure return_figure backend
    show_plotter color kwargs
  = ([], inl match (plot_prepare Figure pyvista_version complex_abs
                      np_argsort phase_color_rgb to_rgb self projection mode
                      scaling backend color).2 with
             | inl e => e
             | inr _ => plot_raised (ValueError unknown_projection_error)
             end).
Proof.
  intros Hstereo Hsphere. unfold plot.
  pose proof (plot_prepare_quiet self projection mode scaling backend color)
    as Hquiet.
  destruct (plot_prepare _ _ _ _ _ _ _ _ _ _ _ _)
    as [o [e|[[[[ref color_rgba] intensity] order] scaling_title]]];
    simpl in Hquiet; subst o; [reflexivity|].
  unfold plot_draw.
  rewrite !bool_decide_eq_false_2 by assumption. reflexivity.
Qed.

Lemma setdefault_lookup (key : string) (v : kwarg) (m : gmap string kwarg)
    (k : string) :
  setdefault key v m !! k
  = match m !! k with
    | Some x => Some x
    | None => if decide (k = key) then Some v else None
    end.
Proof.
  unfold setdefault. destruct (m !! key) as [x|] eqn:Hkey.
  - destruct (m !! k) as [y|] eqn:Hk; [reflexivity|].
    rewrite decide_False by congruence. reflexivity.
  - destruct (decide (k = key)) as [->|Hne].
    + rewrite lookup_insert_eq, Hkey. reflexivity.
    + rewrite lookup_insert_ne by congruence.
      destruct (m !! k); reflexivity.
Qed.

(** What [plot_kwargs] does to the keyword arguments of the caller:
    they are all kept, ["color"] is added if absent, ["linewidth"] is
    added as 0.5 only when neither ["linewidth"] nor ["lw"] is there,
    and no other key appears. *)
Lemma plot_kwargs_spec (color_rgba : list rgba) (kwargs : gmap string kwarg) :
  let kw := plot_kwargs color_rgba kwargs in
  (∀ key v, kwargs !! key = Some v → kw !! key = Some v)
  ∧ (kwargs !! "color" = None → kw !! "color" = Some (kw_colors color_rgba))
  ∧ (kwargs !! "linewidth" = None → kwargs !! "lw" = None →
     kw !! "linewidth" = Some (kw_number 0.5))
  ∧ (is_Some (kwargs !! "lw") → kw !! "linewidth" = kwargs !! "linewidth")
  ∧ (∀ key, key ≠ "color" → key ≠ "linewidth" → kw !! key = kwargs !! key).
Proof.
  cbv zeta.
  assert (∀ key,
            plot_kwargs color_rgba kwargs !! key
            = match kwargs !! key with
              | Some x => Some x
              | None =>
                  if decide (key = "color") then Some (kw_colors color_rgba)
                  else if decide (key = "linewidth") then
                         match kwargs !! "lw" with
                         | Some _ => None
                         | None => Some (kw_number 0.5)
                         end
                       else None
              end) as Hlookup.
  { intros key. unfold plot_kwargs.
    assert (setdefault "color" (kw_colors color_rgba) kwargs !! "linewidth"
            = kwargs !! "linewidth") as Hw.
    { rewrite setdefault_lookup. rewrite decide_False by discriminate.
      destruct (kwargs !! "linewidth"); reflexivity. }
    assert (setdefault "color" (kw_colors color_rgba) kwargs !! "lw"
            = kwargs !! "lw") as Hlw.
    { rewrite setdefault_lookup. rewrite decide_False by discriminate.
      destruct (kwargs !! "lw"); reflexivity. }
    rewrite Hw, Hlw.
    case_bool_decide as Hboth.
    - destruct Hboth as [Hnow Hnolw].
      rewrite !setdefault_lookup, Hnolw.
      destruct (kwargs !! key) as [x|] eqn:Hkey; [reflexivity|].
      destruct (decide (key = "color")) as [->|Hc]; [reflexivity|].
      reflexivity.
    - rewrite setdefault_lookup.
      destruct (kwargs !! key) as [x|] eqn:Hkey; [reflexivity|].
      destruct (decide (key = "color")) as [->|Hc]; [reflexivity|].
      destruct (decide (key = "linewidth")) as [->|Hl]; [|reflexivity].
      destruct (kwargs !! "lw") as [y|] eqn:Hlw'; [reflexivity|].
      exfalso. apply Hboth. auto. }
  split; [|split; [|split; [|split]]].
  - intros key v Hkey. rewrite Hlookup, Hkey. reflexivity.
  - intros Hc. rewrite Hlookup, Hc. reflexivity.
  - intros Hw Hlw. rewrite Hlookup, Hw, Hlw. reflexivity.
  - intros [y Hlw]. rewrite Hlookup, Hlw.
    destruct (kwargs !! "linewidth"); reflexivity.
  - intros key Hc Hl. rewrite Hlookup.
    rewrite !decide_False by assumption.
    destruct (kwargs !! key); reflexivity.
Qed.

Lemma gbind_fst {A B} (m : G Figure A) (k : A → G Figure B) :
  (gbind Figure m k).1
  = m.1 ++ match m.2 with inr a => (k a).1 | inl _ => [] end.
Proof.
  destruct m as [o [e|a]]; simpl; [rewrite app_nil_r; reflexivity|].
  destruct (k a). reflexivity.
Qed.

Lemma gbind_Forall {A B} (P : gfx Figure → Prop) (m : G Figure A)
    (k : A → G Figure B) :
  Forall P m.1 → (∀ a, Forall P (k a).1) → Forall P (gbind Figure m k).1.
Proof.
  intros Hm Hk. rewrite gbind_fst. apply Forall_app. split; [assumption|].
  destruct m.2; [constructor | apply Hk].
Qed.

Lemma gbind_inr {A B} (m : G Figure A) (k : A → G Figure B) out b :
  gbind Figure m k = (out, inr b) →
  ∃ o1 a o2, m = (o1, inr a) ∧ k a = (o2, inr b) ∧ out = o1 ++ o2.
Proof.
  destruct m as [o [e|a]]; simpl; [discriminate|].
  destruct (k a) as [o' r'] eqn:Hk. intros [= <- ->]. eauto 6.
Qed.

(** With the stereographic projection [plot] calls [draw_circle] and
    nothing else, on the sorted reflectors and with the keyword
    arguments of [plot_kwargs]. *)
Lemma plot_draw_stereographic mode hemisphere figure backend show_plotter
    kwargs ref color_rgba intensity order scaling_title :
  Forall (λ ev, ∃ call, ev = g_draw_circle Figure call
                        ∧ dc_reflectors Figure call = ref
                        ∧ dc_kwargs Figure call
                          = plot_kwargs color_rgba kwargs)
    (plot_draw Figure pyvista_importable draw_circle vector_unit get_circle
       at_radius_1_01 new_figure new_plotter (Some "stereographic") mode
       hemisphere figure backend show_plotter kwargs ref color_rgba intensity
       order scaling_title).1.
Proof.
  unfold plot_draw. rewrite bool_decide_eq_true_2 by reflexivity.
  assert (∀ call,
            dc_reflectors Figure call = ref →
            dc_kwargs Figure call = plot_kwargs color_rgba kwargs →
            Forall (λ ev, ∃ call, ev = g_draw_circle Figure call
                                  ∧ dc_reflectors Figure call = ref
                                  ∧ dc_kwargs Figure call
                                    = plot_kwargs color_rgba kwargs)
              (call_draw_circle Figure draw_circle call).1) as Hone.
  { intros call Href Hkw. repeat constructor. eauto. }
  case_bool_decide as Hmode.
  - destruct figure as [f|]; [|apply Hone; reflexivity].
    apply gbind_Forall; [apply Hone; reflexivity|]. intros _. constructor.
  - case_bool_decide as Hdup; [constructor|].
    apply gbind_Forall.
    + destruct figure as [f|]; [|apply Hone; reflexivity].
      apply gbind_Forall; [apply Hone; reflexivity|]. intros _. constructor.
    + intros fig. apply gbind_Forall; [apply Hone; reflexivity|].
      intros _. constructor.
Qed.

(** X15. The keyword arguments of every [draw_circle] call of [plot]: those
    of the caller are handed on unchanged, ["color"] is added if
    absent, ["linewidth"] is added as 0.5 exactly when the caller gave
    neither ["linewidth"] nor ["lw"], and no other key is added. *)
Theorem plot_draw_circle_kwargs self mode hemisphere scaling figure
    return_figure backend show_plotter color kwargs out r call :
  plot Figure pyvista_version pyvista_importable complex_abs np_argsort
    phase_color_rgb to_rgb draw_circle vector_unit get_circle at_radius_1_01
    new_figure new_plotter self (Some "stereographic") mode hemisphere scaling
    figure
    return_figure backend show_plotter color kwargs = (out, r) →
  g_draw_circle Figure call ∈ out →
  let kw := dc_kwargs Figure call in
  (∀ key v, kwargs !! key = Some v → kw !! key = Some v)
  ∧ (kwargs !! "color" = None → ∃ rows, kw !! "color" = Some (kw_colors rows))
  ∧ (kwargs !! "linewidth" = None → kwargs !! "lw" = None →
     kw !! "linewidth" = Some (kw_number 0.5))
  ∧ (is_Some (kwargs !! "lw") → kw !! "linewidth" = kwargs !! "linewidth")
  ∧ (∀ key, key ≠ "color" → key ≠ "linewidth" → kw !! key = kwargs !! key).
Proof.
  intros Hrun Hcall. cbv zeta.
  assert (out = (plot' self (Some "stereographic") mode hemisphere scaling
                   figure return_figure backend show_plotter color kwargs).1)
    as Hout by (rewrite Hrun; reflexivity).
  unfold plot in Hout. rewrite gbind_fst, plot_prepare_quiet in Hout.
  destruct (plot_prepare _ _ _ _ _ _ _ _ _ _ _ _).2
    as [e|[[[[ref color_rgba] intensity] order] scaling_title]];
    [subst out; apply not_elem_of_nil in Hcall; contradiction|].
  rewrite gbind_fst in Hout. simpl in Hout.
  assert (g_draw_circle Figure call
          ∈ (plot_draw Figure pyvista_importable draw_circle vector_unit
               get_circle at_radius_1_01 new_figure new_plotter
               (Some "stereographic") mode hemisphere figure backend
               show_plotter kwargs ref color_rgba intensity order
               scaling_title).1) as Hin.
  { subst out. apply elem_of_app in Hcall as [Hin|Hin]; [exact Hin|].
    destruct (plot_draw _ _ _ _ _ _ _ _ _ _ _ _ _ _ _ _ _ _ _ _).2;
      apply not_elem_of_nil in Hin; contradiction. }
  pose proof (plot_draw_stereographic mode hemisphere figure backend
                show_plotter kwargs ref color_rgba intensity order
                scaling_title) as Hall.
  rewrite Forall_forall in Hall.
  destruct (Hall _ Hin) as (call' & [= <-] & _ & ->).
  destruct (plot_kwargs_spec color_rgba kwargs)
    as (Hkeep & Hcolor & Hwidth & Hlw & Hother).
  repeat split; eauto.
Qed.

Lemma gfor_inr {A} (l : list A) (body : A → G Figure unit) out (u : unit) :
  gfor Figure l body = (out, inr u) → u = tt.
Proof. destruct u. reflexivity. Qed.

(** [_plot_spherical] returns the figure it is given. *)
Lemma spherical_keeps_figure mode ref color backend f show_plotter
    scaling_title intensity out r :
  spherical mode ref color backend (Some f) show_plotter scaling_title
    intensity = (out, inr r) →
  r = Some f.
Proof.
  unfold _plot_spherical. case_bool_decide as Hbackend.
  - intros Hrun.
    apply gbind_inr in Hrun as (o1 & fig & o2 & Hfig & Hrun & _).
    injection Hfig as _ <-.
    repeat (apply gbind_inr in Hrun as (? & ? & ? & _ & Hrun & _)).
    injection Hrun as _ <-. reflexivity.
  - destruct pyvista_importable; [|discriminate].
    rewrite gbind_gret. intros Hrun.
    repeat (apply gbind_inr in Hrun as (? & ? & ? & _ & Hrun & _)).
    injection Hrun as _ <-. reflexivity.
Qed.

(** What [plot] draws are the reflectors taken in the order of the
    sort. *)
Lemma plot_prepare_sorted self projection mode scaling backend color out ref
    color_rgba intensity order scaling_title :
  plot_prepare Figure pyvista_version complex_abs np_argsort phase_color_rgb
    to_rgb self projection mode scaling backend color
  = (out, inr (ref, color_rgba, intensity, order, scaling_title)) →
  rlv_take order self = Some ref.
Proof.
  unfold plot_prepare. intros Hprep.
  apply gbind_inr in Hprep as (? & ? & ? & _ & Hprep & _).
  apply gbind_inr in Hprep as (? & ? & ? & _ & Hprep & _).
  apply gbind_inr in Hprep as (? & ? & ? & _ & Hprep & _).
  apply gbind_inr in Hprep as (? & [[i o] t] & ? & _ & Hprep & _).
  apply gbind_inr in Hprep as (? & ? & ? & _ & Hprep & _).
  apply gbind_inr in Hprep as (? & ? & ? & _ & Hprep & _).
  apply gbind_inr in Hprep as (? & ? & ? & _ & Hprep & _).
  apply gbind_inr in Hprep as (? & ref' & ? & Href & Hprep & _).
  apply gbind_inr in Hprep as (? & ? & ? & _ & Hprep & _).
  injection Hprep as _ <- _ _ <- _.
  unfold gindex in Href. destruct (rlv_take _ self); [|discriminate].
  injection Href as _ <-. reflexivity.
Qed.

(** X16. A figure handed to [plot] is the figure that comes back: [plot]
    returns it when [return_figure] is set and nothing otherwise. *)
Theorem plot_returns_given_figure self projection mode hemisphere scaling f
    return_figure backend show_plotter color kwargs out r :
  plot Figure pyvista_version pyvista_importable complex_abs np_argsort
    phase_color_rgb to_rgb draw_circle vector_unit get_circle at_radius_1_01
    new_figure new_plotter self projection mode hemisphere scaling (Some f)
    return_figure backend
    show_plotter color kwargs = (out, inr r) →
  r = if return_figure then Some f else None.
Proof.
  unfold plot. intros Hrun.
  apply gbind_inr in Hrun
    as (o1 & [[[[ref color_rgba] intensity] order] scaling_title] & o2
        & _ & Hrun & _).
  apply gbind_inr in Hrun as (o3 & fig & o4 & Hdraw & Hret & _).
  injection Hret as _ <-.
  assert (fig = Some f) as ->; [|reflexivity].
  unfold plot_draw in Hdraw.
  case_bool_decide as Hstereo.
  - case_bool_decide as Hmode.
    + apply gbind_inr in Hdraw as (? & ? & ? & _ & Hret & _).
      injection Hret as _ <-. reflexivity.
    + case_bool_decide as Hdup; [discriminate|].
      apply gbind_inr in Hdraw as (? & fig1 & ? & Hfirst & Hdraw & _).
      apply gbind_inr in Hfirst as (? & ? & ? & _ & Hret & _).
      injection Hret as _ <-.
      apply gbind_inr in Hdraw as (? & ? & ? & _ & Hret & _).
      injection Hret as _ <-. reflexivity.
  - case_bool_decide as Hsphere; [|discriminate].
    apply gbind_inr in Hdraw as (? & sorted & ? & _ & Hdraw & _).
    eapply spherical_keeps_figure. eassumption.
Qed.

(** X17. The bands in the stereographic projection are two calls of
    [draw_circle] on the sorted reflectors, for the opening angles
    [pi/2 - theta] and [pi/2 + theta]; the second call draws on the
    figure of the first, which is the given figure if there is one and
    the figure the first call returns otherwise. *)
Theorem plot_bands_two_circles self hemisphere scaling figure return_figure
    backend show_plotter color kwargs out r :
  plot' self (Some "stereographic") (Some "bands") hemisphere scaling figure
    return_figure backend show_plotter color kwargs = (out, inr r) →
  ∃ ref kw fig order,
    let call1 :=
      {| dc_receiver := on_vectors;
         dc_reflectors := ref;
         dc_opening_angle := Some ((λ t, np_pi / 2 - t) <$> theta ref);
         dc_hemisphere :=
           match figure with None => Some hemisphere | Some _ => None end;
         dc_figure :=
           match figure with None => None | Some _ => Some figure end;
         dc_return_figure :=
           match figure with None => true | Some _ => false end;
         dc_kwargs := kw |} in
    let call2 :=
      {| dc_receiver := on_vectors;
         dc_reflectors := ref;
         dc_opening_angle := Some ((λ t, np_pi / 2 + t) <$> theta ref);
         dc_hemisphere := None;
         dc_figure := Some fig;
         dc_return_figure := false;
         dc_kwargs := kw |} in
    out = [g_draw_circle Figure call1; g_draw_circle Figure call2]
    ∧ rlv_take order self = Some ref
    ∧ kw !! "opening_angle" = None
    ∧ (∀ key v, kwargs !! key = Some v → kw !! key = Some v)
    ∧ match figure with
      | None => draw_circle call1 = inr fig
      | Some _ => fig = figure ∧ ∃ ignored, draw_circle call1 = inr ignored
      end
    ∧ (∃ ignored, draw_circle call2 = inr ignored)
    ∧ r = if return_figure then fig else None.
Proof.
  unfold plot. intros Hrun.
  pose proof (plot_prepare_quiet self (Some "stereographic") (Some "bands")
                scaling backend color) as Hquiet.
  apply gbind_inr in Hrun
    as (o1 & [[[[ref color_rgba] intensity] order] scaling_title] & o2
        & Hprep & Hrun & ->).
  rewrite Hprep in Hquiet. simpl in Hquiet. subst o1.
  pose proof (plot_prepare_sorted _ _ _ _ _ _ _ _ _ _ _ _ Hprep) as Htake.
  apply gbind_inr in Hrun as (o3 & fig & o4 & Hdraw & Hret & ->).
  injection Hret as <- <-.
  unfold plot_draw in Hdraw.
  rewrite bool_decide_eq_true_2 in Hdraw by reflexivity.
  rewrite bool_decide_eq_false_2 in Hdraw by discriminate.
  case_bool_decide as Hdup; [discriminate|].
  apply gbind_inr in Hdraw as (o5 & fig1 & o6 & Hfirst & Hdraw & ->).
  apply gbind_inr in Hdraw as (o7 & ignored2 & o8 & Hsecond & Hret & ->).
  injection Hret as <- <-.
  unfold call_draw_circle in Hsecond. injection Hsecond as <- Hsecond.
  exists ref, (plot_kwargs color_rgba kwargs), fig1, order. cbv zeta.
  destruct (plot_kwargs_spec color_rgba kwargs) as (Hkeep & _).
  assert (plot_kwargs color_rgba kwargs !! "opening_angle" = None) as Hnone.
  { destruct (plot_kwargs color_rgba kwargs !! "opening_angle") eqn:Hoa;
      [|reflexivity].
    exfalso. apply Hdup. eauto. }
  destruct figure as [f|].
  - apply gbind_inr in Hfirst as (o9 & ignored1 & o10 & Hcall & Hret & ->).
    injection Hret as <- <-.
    unfold call_draw_circle in Hcall. injection Hcall as <- Hcall.
    rewrite !app_nil_r. simpl.
    split; [reflexivity|]. split; [assumption|]. split; [assumption|].
    split; [assumption|]. split; [eauto|]. split; [eauto|]. reflexivity.
  - unfold call_draw_circle in Hfirst. injection Hfirst as <- Hfirst.
    rewrite !app_nil_r. simpl.
    split; [reflexivity|]. split; [assumption|]. split; [assumption|].
    split; [assumption|]. split; [assumption|]. split; [eauto|]. reflexivity.
Qed.

(** No backend is refused: every backend other than "matplotlib" is
    taken for PyVista. *)
Lemma spherical_backend mode ref color backend figure show_plotter
    scaling_title intensity :
  backend ≠ "matplotlib" →
  spherical mode ref color backend figure show_plotter scaling_title intensity
  = spherical mode ref color "pyvista" figure show_plotter scaling_title
      intensity.
Proof.
  intros Hbackend. unfold _plot_spherical.
  rewrite (bool_decide_eq_false_2 (backend = "matplotlib")) by assumption.
  rewrite (bool_decide_eq_false_2 ("pyvista" = "matplotlib")) by discriminate.
  reflexivity.
Qed.

(** X18. [plot] does not check the backend either: with PyVista installed,
    a call with any backend other than "matplotlib" is the call with
    "pyvista", exception and drawing included. *)
Theorem plot_backend_not_checked self projection mode hemisphere scaling
    figure return_figure backend show_plotter color kwargs :
  backend ≠ "matplotlib" →
  pyvista_version ≠ None →
  plot Figure pyvista_version pyvista_importable complex_abs np_argsort
    phase_color_rgb to_rgb draw_circle vector_unit get_circle at_radius_1_01
    new_figure new_plotter self projection mode hemisphere scaling figure
    return_figure backend
    show_plotter color kwargs
  = plot Figure pyvista_version pyvista_importable complex_abs np_argsort
      phase_color_rgb to_rgb draw_circle vector_unit get_circle at_radius_1_01
      new_figure new_plotter self projection mode hemisphere scaling figure
      return_figure "pyvista" show_plotter color kwargs.
Proof.
  intros Hbackend Hversion. unfold plot.
  assert (plot_prepare Figure pyvista_version complex_abs np_argsort
            phase_color_rgb to_rgb self projection mode scaling backend color
          = plot_prepare Figure pyvista_version complex_abs np_argsort
              phase_color_rgb to_rgb self projection mode scaling "pyvista"
              color) as ->.
  { unfold plot_prepare.
    rewrite !(bool_decide_eq_false_2 (pyvista_version = None)) by assumption.
    rewrite !andb_false_r. reflexivity. }
  destruct (plot_prepare _ _ _ _ _ _ _ _ _ _ _ _)
    as [o [e|[[[[ref color_rgba] intensity] order] scaling_title]]];
    [reflexivity|].
  simpl.
  assert (plot_draw Figure pyvista_importable draw_circle vector_unit
            get_circle at_radius_1_01 new_figure new_plotter projection mode
            hemisphere figure backend show_plotter kwargs ref color_rgba
            intensity order scaling_title
          = plot_draw Figure pyvista_importable draw_circle vector_unit
              get_circle at_radius_1_01 new_figure new_plotter projection mode
              hemisphere figure "pyvista" show_plotter kwargs ref color_rgba
              intensity order scaling_title) as ->; [|reflexivity].
  unfold plot_draw.
  case_bool_decide; [reflexivity|]. case_bool_decide; [|reflexivity].
  destruct (take_at order intensity) as [sorted|]; [|reflexivity].
  simpl. rewrite (spherical_backend _ _ _ backend) by assumption.
  reflexivity.
Qed.

(** *** The spherical projection *)

Lemma gbind_run {A B} (m : G Figure A) (k : A → G Figure B) :
  gbind Figure m k
  = (m.1 ++ match m.2 with inr a => (k a).1 | inl _ => [] end,
     match m.2 with inr a => (k a).2 | inl e => inl e end).
Proof.
  destruct m as [o [e|a]]; simpl; [rewrite app_nil_r; reflexivity|].
  destruct (k a). reflexivity.
Qed.

(** A loop over [enumerate(l)] that looks up [color[i]] first: the
    items that have a colour are drawn, and the first one without ends
    the loop with an [IndexError]. *)
Lemma gfor_enumerate {A} (l : list A) (color : list rgba)
    (body : nat * A → G Figure unit) (ev : A → rgba → list (gfx Figure)) k :
  (∀ i x c, color !! i = Some c → body (i, x) = (ev x c, inr tt)) →
  (∀ i x, color !! i = None →
     body (i, x) = ([], inl (plot_raised (IndexError "index out of bounds")))) →
  gfor Figure (imap (λ i x, ((k + i)%nat, x)) l) body
  = (mjoin (zip_with ev l (drop k color)),
     if decide (length l ≤ length (drop k color)) then inr tt
     else inl (plot_raised (IndexError "index out of bounds"))).
Proof.
  intros Hsome Hnone. revert k. induction l as [|x l IH]; intros k.
  - cbn [imap gfor zip_with mjoin length].
    rewrite decide_True by lia. reflexivity.
  - rewrite imap_cons. cbn [gfor]. rewrite Nat.add_0_r.
    destruct (color !! k) as [c|] eqn:Hc.
    + rewrite (Hsome _ _ _ Hc), (drop_S _ _ _ Hc). rewrite gbind_run.
      cbn [fst snd].
      rewrite (imap_ext _ (λ i y, ((S k + i)%nat, y)))
        by (intros; simpl; f_equal; lia).
      rewrite IH. cbn [fst snd zip_with mjoin length].
      f_equal. repeat case_decide; first [reflexivity | lia].
    + rewrite (Hnone _ _ Hc). rewrite gbind_run. cbn [fst snd].
      apply lookup_ge_None in Hc. rewrite drop_ge by assumption.
      cbn [zip_with mjoin length]. rewrite decide_False by lia. reflexivity.
Qed.

Lemma axis_arrows_returns : (axis_arrows Figure).2 = inr tt.
Proof. reflexivity. Qed.

(** X19. With Matplotlib, the circles are drawn one by one in their colour:
    one call of [plot3D] per circle for the lines, two per pair of
    circles for the bands.  When the colours run out before the circles
    do, the [IndexError] comes after the circles that have a colour are
    on the figure, which may be the caller's. *)
Theorem spherical_matplotlib_draws mode ref color figure show_plotter
    scaling_title intensity :
  let v := vector_unit ref in
  let pieces : list (rgba → list (gfx Figure)) :=
    if bool_decide (mode = Some "lines") then
      (λ ci c, [g_plot3D Figure ci c]) <$> get_circle v None 101
    else
      (λ cc c, [g_plot3D Figure cc.1 c; g_plot3D Figure cc.2 c])
        <$> zip (get_circle v (Some ((λ t, np_pi / 2 - t) <$> theta ref)) 101)
              (get_circle v (Some ((λ t, np_pi / 2 + t) <$> theta ref)) 101) in
  let first :=
    match figure with
    | Some f => g_figure_axes Figure f
    | None => g_subplots_3d Figure
    end in
  let drawn := mjoin (zip_with (λ piece c, piece c) pieces color) in
  spherical mode ref color "matplotlib" figure show_plotter scaling_title
    intensity
  = if decide (length pieces ≤ length color) then
      (first :: drawn
         ++ [g_axis Figure "off";
             g_set Figure "xlim" [-1; 1];
             g_set Figure "ylim" [-1; 1];
             g_set Figure "zlim" [-1; 1];
             g_set Figure "box_aspect" [1; 1; 1];
             g_set Figure "azim" [-90];
             g_set Figure "elev" [90]]
         ++ (axis_arrows Figure).1,
       inr (match figure with Some f => Some f | None => Some new_figure end))
    else
      (first :: drawn, inl (plot_raised (IndexError "index out of bounds"))).
Proof.
  cbv zeta. unfold _plot_spherical.
  rewrite (bool_decide_eq_true_2 ("matplotlib" = "matplotlib")) by reflexivity.
  set (loop := if bool_decide (mode = Some "lines") then _ else _).
  match goal with
  | |- context [if bool_decide (mode = Some "lines")
                then ?a <$> ?l else ?b <$> ?l'] =>
      set (pieces := if bool_decide (mode = Some "lines")
                     then a <$> l else b <$> l')
  end.
  assert (loop
          = (mjoin (zip_with (λ piece c, piece c) pieces color),
             if decide (length pieces ≤ length color) then inr tt
             else inl (plot_raised (IndexError "index out of bounds"))))
    as ->.
  { subst loop pieces. case_bool_decide as Hmode.
    - cbn [mjoin list_join]. rewrite app_nil_r.
      rewrite (gfor_enumerate _ color _ (λ ci c, [g_plot3D Figure ci c]) 0).
      + rewrite drop_0, length_fmap, zip_with_fmap_l. reflexivity.
      + intros i x c Hc. rewrite Hc. reflexivity.
      + intros i x Hc. rewrite Hc. reflexivity.
    - cbn [lookup list_lookup default].
      rewrite (gfor_enumerate _ color _
                 (λ cc c, [g_plot3D Figure cc.1 c; g_plot3D Figure cc.2 c])
                 0).
      + rewrite drop_0, length_fmap, zip_with_fmap_l. reflexivity.
      + intros i [c1 c2] c Hc. rewrite Hc. reflexivity.
      + intros i [c1 c2] Hc. rewrite Hc. reflexivity. }
  clearbody pieces.
  assert (axis_arrows Figure
          = ((axis_arrows Figure).1, inr tt)) as Harrows by reflexivity.
  rewrite Harrows. generalize ((axis_arrows Figure).1). intros arrows.
  destruct figure as [f|]; case_decide; unfold gbind, gcall, gret;
    cbn [fst snd app]; rewrite ?app_nil_r; reflexivity.
Qed.

(** The polylines of the PyVista mesh. *)
Lemma mjoin_arange_rows_from (k n per : nat) :
  mjoin ((λ c, seq (c * per) per) <$> seq k n) = seq (k * per) (n * per).
Proof.
  revert k. induction n as [|n IH]; intros k; [reflexivity|].
  cbn [seq]. rewrite fmap_cons. cbn [mjoin list_join].
  change (list_join ?l) with (mjoin l). rewrite IH.
  replace (S n * per)%nat with (per + n * per)%nat by lia.
  rewrite seq_app. do 2 f_equal. lia.
Qed.

Lemma mjoin_arange_rows (n per : nat) :
  mjoin (arange_rows n per) = seq 0 (n * per).
Proof. apply (mjoin_arange_rows_from 0). Qed.

(** X20. PyVista gets a consistent mesh when every circle has the 101 points
    asked for: the connectivity array holds one polyline of 101 points
    per circle, the polylines together go through every point once, in
    order, the scalars are the intensities, twice over for the bands,
    and no other mesh is added before this one. *)
Theorem spherical_pyvista_mesh mode ref color backend figure show_plotter
    scaling_title intensity out r :
  let v := vector_unit ref in
  let circles :=
    if bool_decide (mode = Some "lines") then get_circle v None 101
    else
      get_circle v (Some ((λ t, np_pi / 2 - t) <$> theta ref)) 101
      ++ get_circle v (Some ((λ t, np_pi / 2 + t) <$> theta ref)) 101 in
  backend ≠ "matplotlib" →
  Forall (λ circle, length circle = 101%nat) circles →
  spherical mode ref color backend figure show_plotter scaling_title intensity
  = (out, inr r) →
  ∃ pre points scalars kw,
    out = pre
          ++ g_add_mesh Figure points
               (insert_count 101 (arange_rows (length circles) 101)) scalars
               kw
             :: (if show_plotter then [g_show Figure] else [])
    ∧ Forall (λ call, ∀ p l s k, call ≠ g_add_mesh Figure p l s k) pre
    ∧ length points = (length circles * 101)%nat
    ∧ mjoin (arange_rows (length circles) 101) = seq 0 (length points)
    ∧ scalars = (if bool_decide (mode = Some "lines") then intensity
                 else intensity ++ intensity)
    ∧ match scaling_title with
      | None => kw = mesh_no_scalar_bar
      | Some title =>
          ∃ m, np_max scalars = Some m ∧ kw = mesh_scalar_bar title m
      end.
Proof.
  cbv zeta. intros Hbackend Hsteps. unfold _plot_spherical.
  rewrite (bool_decide_eq_false_2 (backend = "matplotlib")) by assumption.
  destruct pyvista_importable; [|discriminate].
  set (nested := if bool_decide (mode = Some "lines") then [_] else [_; _]).
  set (circles := if bool_decide (mode = Some "lines") then _ else _ ++ _)
    in Hsteps |- *.
  assert (mjoin nested = circles) as Hflat.
  { subst nested circles. case_bool_decide; cbn [mjoin list_join];
      rewrite app_nil_r; reflexivity. }
  set (scalars := if bool_decide (mode = Some "lines") then intensity
                  else intensity ++ intensity).
  intros Hrun.
  apply gbind_inr in Hrun as (pre & [fig moved] & o2 & Hstart & Hrun & ->).
  assert (Forall (λ call, ∀ p l s k, call ≠ g_add_mesh Figure p l s k) pre
          ∧ ∃ f, moved = fmap (M := list) (fmap (M := list) (fmap (M := list) f))
                          nested) as (Hpre & f & ->).
  { destruct figure as [fg|].
    - injection Hstart as <- _ <-. split; [constructor|]. eauto.
    - unfold gbind, gcall, gret in Hstart. cbn in Hstart.
      injection Hstart as <- _ <-. split.
      + repeat constructor; discriminate.
      + exists id. rewrite <- (list_fmap_id nested) at 1.
        apply list_fmap_ext. intros _ l _. rewrite <- (list_fmap_id l) at 1.
        apply list_fmap_ext. intros _ c _. rewrite list_fmap_id. reflexivity. }
  cbv zeta in Hrun.
  assert (mjoin (fmap (M := list) (fmap (M := list) (fmap (M := list) f))
                   nested)
          = fmap (M := list) (fmap (M := list) f) circles) as Hmoved.
  { rewrite <- Hflat. subst nested. case_bool_decide; cbn [mjoin list_join fmap list_fmap];
      rewrite ?app_nil_r; rewrite ?fmap_app; reflexivity. }
  rewrite Hmoved in Hrun.
  assert (Forall (λ circle, length circle = 101%nat)
            (fmap (M := list) (fmap (M := list) f) circles)) as Hsteps'.
  { apply Forall_fmap. eapply Forall_impl; [exact Hsteps|].
    intros c Hc. simpl. rewrite length_fmap. exact Hc. }
  assert (default 101%nat
            (length <$> head (fmap (M := list) (fmap (M := list) f) circles))
          = 101%nat) as Hper.
  { destruct (fmap (M := list) (fmap (M := list) f) circles) as [|c rest];
      [reflexivity|].
    simpl. apply (Forall_inv Hsteps'). }
  rewrite Hper in Hrun. rewrite length_fmap in Hrun.
  apply gbind_inr in Hrun as (o3 & kw & o4 & Hkw & Hrun & ->).
  apply gbind_inr in Hrun as (o5 & [] & o6 & Hmesh & Hrun & ->).
  injection Hmesh as <-.
  apply gbind_inr in Hrun as (o7 & [] & o8 & Hshow & Hret & ->).
  injection Hret as <- <-.
  assert (o3 = [] ∧
          match scaling_title with
          | None => kw = mesh_no_scalar_bar
          | Some title =>
              ∃ m, np_max scalars = Some m ∧ kw = mesh_scalar_bar title m
          end) as (-> & Hkw').
  { destruct scaling_title as [title|].
    - fold scalars in Hkw. destruct (np_max scalars) as [m|]; [|discriminate].
      injection Hkw as <- <-. eauto.
    - injection Hkw as <- <-. auto. }
  assert (o7 = if show_plotter then [g_show Figure] else []) as ->.
  { destruct show_plotter; injection Hshow as <-; reflexivity. }
  eexists pre, _, scalars, kw. rewrite app_nil_r. cbn [app].
  split; [reflexivity|]. split; [exact Hpre|].
  assert (length (mjoin (fmap (M := list) (fmap (M := list) f) circles))
          = (length circles * 101)%nat) as Hpoints.
  { rewrite (length_mjoin_rows _ 101 Hsteps'), length_fmap. reflexivity. }
  split; [exact Hpoints|]. split; [|split; [reflexivity|exact Hkw']].
  rewrite Hpoints. apply mjoin_arange_rows.
Qed.

End plotting_facts.

(** ** The further properties on the samples *)

Lemma more_well_shaped : well_shaped sample_detector more_rotations.
Proof.
  split; [left; reflexivity|]. split; [|discriminate].
  apply list_elem_of_here.
Qed.

Lemma no_well_shaped : well_shaped sample_detector no_rotations.
Proof.
  split; [left; reflexivity|]. split; [|discriminate].
  apply list_elem_of_here.
Qed.

Lemma on_detector_shapes_witness :
  ∃ sim,
    sample_on_detector sample_reflectors sample_detector sample_rotations
    = (on_detector_output, inr sim)
    ∧ length (hkl_detector (sim_lines sim)) = 2%nat
    ∧ length (zone_in_pattern (sim_zone_axes sim)) = 2%nat.
Proof.
  destruct (on_detector_shapes same_frame quaternion_matrix matmul3 vecmat3
              cross3 keep_indices unique_rows keep_indices sample_reflectors
              sample_detector sample_rotations sample_well_shaped)
    as (sim & Hrun & Hlines & _ & _ & Hzones & _).
  exists sim. split; [exact Hrun|]. split; assumption.
Defined.

Lemma stored_features_witness :
  ∃ sim,
    sample_on_detector sample_reflectors sample_detector sample_rotations
    = (on_detector_output, inr sim)
    ∧ ∀ k g,
        line_hkl (sim_lines sim) !! k = Some g →
        ∃ p flags,
          line_in_pattern (sim_lines sim) !! p = Some flags
          ∧ flags !! k = Some true.
Proof.
  destruct (stored_features_seen_somewhere same_frame quaternion_matrix
              matmul3 vecmat3 cross3 keep_indices unique_rows keep_indices
              sample_reflectors sample_detector sample_rotations
              sample_well_shaped)
    as (sim & Hrun & Hlines & _).
  exists sim. split; [exact Hrun|]. intros k g Hg.
  destruct (Hlines k g Hg) as (p & flags & _ & _ & Hflags & Hk & _).
  exists p, flags. split; assumption.
Defined.

Lemma visible_reflectors_aligned_witness :
  ∃ sim,
    sample_on_detector sample_reflectors sample_detector sample_rotations
    = (on_detector_output, inr sim)
    ∧ lattice (sim_reflectors sim) = cubic.
Proof.
  destruct (visible_reflectors_aligned same_frame quaternion_matrix matmul3
              vecmat3 cross3 keep_indices unique_rows keep_indices
              sample_reflectors sample_detector sample_rotations
              sample_well_shaped)
    as (sim & Hrun & Hlattice & _).
  exists sim. split; [exact Hrun | exact Hlattice].
Defined.

Lemma more_rotations_witness :
  ∃ sim sim',
    sample_on_detector sample_reflectors sample_detector sample_rotations
    = (on_detector_output, inr sim)
    ∧ sample_on_detector sample_reflectors sample_detector more_rotations
      = (on_detector_output, inr sim')
    ∧ ∀ g, g ∈ hkl (sim_reflectors sim) → g ∈ hkl (sim_reflectors sim').
Proof.
  destruct (more_rotations_keep_reflectors same_frame quaternion_matrix
              matmul3 vecmat3 cross3 keep_indices unique_rows keep_indices
              sample_reflectors sample_detector sample_rotations
              more_rotations sample_well_shaped more_well_shaped)
    as (sim & sim' & Hrun & Hrun' & _ & Hkept).
  - intros q Hq. simpl in Hq |- *.
    apply elem_of_cons in Hq as [->|Hq].
    + do 2 apply list_elem_of_further. apply list_elem_of_here.
    + apply elem_of_cons in Hq as [->|Hq]; [apply list_elem_of_here|].
      apply elem_of_nil in Hq. destruct Hq.
  - exists sim, sim'. split; [exact Hrun|]. split; assumption.
Defined.

Lemma no_rotations_witness :
  ∃ sim,
    sample_on_detector sample_reflectors sample_detector no_rotations
    = (on_detector_output, inr sim)
    ∧ hkl (sim_reflectors sim) = []
    ∧ zone_uvw (sim_zone_axes sim) = [].
Proof.
  destruct (no_rotations_nothing_visible same_frame quaternion_matrix matmul3
              vecmat3 cross3 keep_indices unique_rows keep_indices
              sample_reflectors sample_detector no_rotations no_well_shaped
              eq_refl)
    as (sim & Hrun & Hhkl & _ & _ & Huvw & _).
  exists sim. split; [exact Hrun|]. split; assumption.
Defined.

Lemma on_detector_again_witness :
  ∃ sim sim',
    sample_on_detector sample_reflectors sample_detector sample_rotations
    = (on_detector_output, inr sim)
    ∧ sample_on_detector (sim_reflectors sim) sample_detector sample_rotations
      = (on_detector_output, inr sim')
    ∧ sim_lines sim' = sim_lines sim
    ∧ sim_zone_axes sim' = sim_zone_axes sim.
Proof.
  destruct (on_detector_again same_frame quaternion_matrix matmul3 vecmat3
              cross3 keep_indices unique_rows keep_indices sample_reflectors
              sample_detector sample_rotations sample_well_shaped)
    as (sim & sim' & Hrun & Hrun' & _ & Hlines & Hzones).
  exists sim, sim'. split; [exact Hrun|]. split; [exact Hrun'|].
  split; assumption.
Defined.

Lemma master_pattern_data_witness :
  ∃ out mp,
    sample_master_pattern sample_reflectors 1 both None = (out, inr mp)
    ∧ out = [progress 0%nat; progress 1%nat]
    ∧ length (mp_data mp) = 18%nat
    ∧ shape_size (mp_shape mp) = 18%nat.
Proof.
  destruct (sample_master_pattern sample_reflectors 1 both None)
    as [out [e|mp]] eqn:Hrun; [vm_compute in Hrun; discriminate|].
  destruct (calculate_master_pattern_data dot3 arccos_table
              (λ _, one_thread) complex_abs_sqrt repr_plain linspace_steps
              inverse_stereographic unit_rows sample_reflectors 1 both None
              out mp Hrun)
    as (_ & Hout & Hdata & Hshape).
  exists out, mp. split; [reflexivity|]. split; [exact Hout|].
  split; [exact Hdata|]. rewrite Hshape. exact Hdata.
Defined.

Lemma master_pattern_returns_witness :
  ∃ mp,
    sample_master_pattern sample_reflectors 1 both (Some "square")
    = ([progress 0%nat; progress 1%nat], inr mp)
    ∧ mp_shape mp = [2%nat; 3%nat; 3%nat].
Proof.
  destruct (calculate_master_pattern_returns dot3 arccos_table
              (λ _, one_thread) complex_abs_sqrt repr_plain linspace_steps
              inverse_stereographic unit_rows sample_reflectors 1 both
              (Some "square") 0.015625 (2, 0) length_linspace_steps)
    as (mp & Hrun & Hshape & _);
    try reflexivity; [right; right; reflexivity | lia |].
  exists mp. split; [exact Hrun | exact Hshape].
Defined.

Lemma plot_unknown_projection_witness :
  sample_plot sample_reflectors (Some "gnomonic") (Some "lines") None None
    None true "matplotlib" false "k" ∅
  = ([], inl (plot_raised (ValueError unknown_projection_error)))
  ∧ sample_plot sample_reflectors (Some "gnomonic") (Some "circles") None
      None None true "matplotlib" false "k" ∅
    = ([], inl (plot_raised (ValueError unknown_mode_error))).
Proof.
  unfold sample_plot. split.
  - rewrite (plot_unknown_projection nat) by discriminate. reflexivity.
  - rewrite (plot_unknown_projection nat) by discriminate. reflexivity.
Defined.

Lemma plot_draw_circle_kwargs_witness :
  ∃ call rest,
    (sample_plot sample_reflectors (Some "stereographic") (Some "lines") None
       None None true "matplotlib" false "k" {["lw" := kw_number 2]}).1
    = g_draw_circle nat call :: rest
    ∧ dc_kwargs nat call !! "lw" = Some (kw_number 2)
    ∧ dc_kwargs nat call !! "linewidth" = None.
Proof.
  destruct (sample_plot sample_reflectors (Some "stereographic")
              (Some "lines") None None None true "matplotlib" false "k"
              {["lw" := kw_number 2]})
    as [out r] eqn:Hrun.
  assert (∃ call rest, out = g_draw_circle nat call :: rest)
    as (call & rest & ->).
  { vm_compute in Hrun. injection Hrun as <- _. eauto. }
  unfold sample_plot in Hrun.
  destruct (plot_draw_circle_kwargs nat _ _ _ _ _ _ _ _ _ _ _ _ _ _ _ _ _ _
              _ _ _ _ _ _ _ Hrun (list_elem_of_here _ _))
    as (Hkeep & _ & _ & Hlw & _).
  exists call, rest. split; [reflexivity|]. split.
  - apply Hkeep. reflexivity.
  - rewrite Hlw; [reflexivity|]. eexists. reflexivity.
Defined.

Lemma plot_returns_given_figure_witness :
  ∃ out,
    sample_plot sample_reflectors (Some "spherical") (Some "bands") None None
      (Some 5%nat) true "matplotlib" false "k" ∅
    = (out, inr (Some 5%nat)).
Proof.
  destruct (sample_plot sample_reflectors (Some "spherical") (Some "bands")
              None None (Some 5%nat) true "matplotlib" false "k" ∅)
    as [out [e|r]] eqn:Hrun; [vm_compute in Hrun; discriminate|].
  exists out.
  unfold sample_plot in Hrun.
  rewrite (plot_returns_given_figure nat _ _ _ _ _ _ _ _ _ _ _ _ _ _ _ _ _ _
             _ _ _ _ _ _ _ Hrun).
  reflexivity.
Defined.

Lemma plot_bands_two_circles_witness :
  ∃ call1 call2,
    sample_plot sample_reflectors (Some "stereographic") (Some "bands") None
      None None true "matplotlib" false "k" ∅
    = ([g_draw_circle nat call1; g_draw_circle nat call2], inr (Some 7%nat))
    ∧ dc_figure nat call2 = Some (Some 7%nat)
    ∧ dc_kwargs nat call1 = dc_kwargs nat call2.
Proof.
  destruct (sample_plot sample_reflectors (Some "stereographic")
              (Some "bands") None None None true "matplotlib" false "k" ∅)
    as [out [e|r]] eqn:Hrun; [vm_compute in Hrun; discriminate|].
  unfold sample_plot in Hrun.
  destruct (plot_bands_two_circles nat _ _ _ _ _ _ _ _ _ _ _ _ _ _ _ _ _ _ _
              _ _ _ _ Hrun)
    as (ref & kw & fig & order & Hbands).
  cbv zeta in Hbands.
  destruct Hbands as (-> & _ & _ & _ & Hfirst & _ & ->).
  injection Hfirst as <-.
  eexists _, _. split; [reflexivity|]. split; reflexivity.
Defined.

Lemma plot_backend_not_checked_witness :
  sample_plot sample_reflectors (Some "spherical") (Some "lines") None None
    None true "PyVista" false "k" ∅
  = sample_plot sample_reflectors (Some "spherical") (Some "lines") None None
      None true "pyvista" false "k" ∅.
Proof. apply (plot_backend_not_checked nat); discriminate. Defined.

Lemma spherical_pyvista_mesh_witness :
  ∃ pre points scalars kw,
    (sample_plot_spherical (Some "bands") sample_reflectors [] "pyvista" None
       true None [1; 2; 3; 4]).1
    = pre
      ++ [g_add_mesh nat points (insert_count 101 (arange_rows 8 101)) scalars
            kw;
          g_show nat]
    ∧ length points = 808%nat
    ∧ scalars = [1; 2; 3; 4; 1; 2; 3; 4].
Proof.
  destruct (sample_plot_spherical (Some "bands") sample_reflectors []
              "pyvista" None true None [1; 2; 3; 4])
    as [out [e|r]] eqn:Hrun; [vm_compute in Hrun; discriminate|].
  unfold sample_plot_spherical in Hrun.
  pose proof (spherical_pyvista_mesh nat true unit_rows sample_get_circle
                sample_at_radius 1%nat 2%nat (Some "bands") sample_reflectors
                [] "pyvista" None true None [1; 2; 3; 4] out r) as Hmesh.
  cbv zeta in Hmesh.
  destruct Hmesh
    as (pre & points & scalars & kw & -> & _ & Hpoints & _ & -> & _);
    [discriminate | vm_compute; repeat constructor | exact Hrun |].
  exists pre, points, [1; 2; 3; 4; 1; 2; 3; 4], kw.
  split; [reflexivity|]. split; [exact Hpoints | reflexivity].
Defined.
